(** * Timetable engine: a shallow embedding of [timetable.py]

    The development follows the Python module top to bottom: the calendar
    constants, the dictionaries of the domain data, the candidate timetable
    with its two derived indices, and then the functions
    [validate_hard_constraints], [initialize_population], [crossover],
    [mutate], [tournament_selection] and [generate_timetable].

    Python features are rendered as follows.
    - A [dict] with a fixed set of keys is a record; a key that the source
      reads with [.get(key, default)] is a field that carries the default
      (or an [option] when the default is not the empty container).
    - A dictionary used as a map is a [gmap].
    - An exception is a value of [Exn]; code that can raise lives in
      [Result].  A [try ... except Exception] is a [match] on the result.
    - The module [random] is an explicit stream of draws.
    - The names of the five days and of the four periods are the
      constructors of [Day] and [Slot]; a dictionary keyed by day and
      period is a function of both. *)

From Stdlib Require Import ZArith String List Lia Bool.
From stdpp Require Import base decidable option list gmap strings.

Open Scope string_scope.
Open Scope list_scope.
Open Scope Z_scope.

(** ** Exceptions *)

Inductive Exn : Type :=
| KeyError
| TypeError
| IndexError
| NameError
| ValueError (msg : string).

Inductive Result (A : Type) : Type :=
| Ok (a : A)
| Raise (e : Exn).
Arguments Ok {A} a.
Arguments Raise {A} e.

#[export] Instance Exn_eq_dec : EqDecision Exn.
Proof. solve_decision. Defined.
#[export] Instance Result_eq_dec `{EqDecision A} : EqDecision (Result A).
Proof. solve_decision. Defined.

#[export] Instance Result_ret : MRet Result := fun A a => Ok a.
#[export] Instance Result_bind : MBind Result := fun A B f r =>
  match r with
  | Ok a => f a
  | Raise e => Raise e
  end.

(** ** The calendar ([constants.py]) *)

Inductive Day : Type := Monday | Tuesday | Wednesday | Thursday | Friday.
Inductive Slot : Type := S0800 | S1000 | S1200 | S1400.

#[export] Instance Day_eq_dec : EqDecision Day.
Proof. solve_decision. Defined.
#[export] Instance Slot_eq_dec : EqDecision Slot.
Proof. solve_decision. Defined.

#[export] Instance Day_countable : Countable Day.
Proof.
  refine (inj_countable'
            (fun d => match d with
                      | Monday => 0 | Tuesday => 1 | Wednesday => 2
                      | Thursday => 3 | Friday => 4
                      end%nat)
            (fun n => match n with
                      | 0 => Monday | 1 => Tuesday | 2 => Wednesday
                      | 3 => Thursday | _ => Friday
                      end%nat) _).
  by intros [].
Defined.

Definition DAYS : list Day := [Monday; Tuesday; Wednesday; Thursday; Friday].
Definition TIME_SLOTS : list Slot := [S0800; S1000; S1200; S1400].

Definition WEEKLY_MODULE_HOURS : Z := 4.
Definition SESSIONS_PER_MODULE : Z := WEEKLY_MODULE_HOURS / 2.

(** Constants that [timetable.py] defines itself (they shadow the values of
    the same names in [constants.py], which the module does not import). *)
Definition FACULTY_DAILY_MAX_HOURS : Z := 8.
Definition POPULATION_SIZE : nat := 200.
Definition GENERATIONS : nat := 1000.

(** ** Domain data *)

Definition Group : Type := string * string.   (* (program, level) *)

Record Module : Type := {
  m_code : string;
  m_hours : option Z;                (* absent: WEEKLY_MODULE_HOURS *)
  m_target_groups : list Group       (* absent: [] *)
}.

Record Lecturer : Type := {
  l_id : Z;
  l_name : string;
  l_modules : option (list string);  (* the key 'modules' may be absent *)
  l_max_daily : Z;
  l_max_weekly : Z
}.

(** A room is either a dictionary or, in the old format, a bare name. *)
Inductive Room : Type :=
| RoomDict (name : string) (capacity : Z) (allowed_programs : list string)
| RoomStr (name : string).

Record Data : Type := {
  modules : list Module;
  lecturers : list Lecturer;
  rooms : list Room;
  students_per_group : gmap Group Z  (* absent: {} *)
}.

#[export] Instance Module_eq_dec : EqDecision Module.
Proof. solve_decision. Defined.
#[export] Instance Lecturer_eq_dec : EqDecision Lecturer.
Proof. solve_decision. Defined.
#[export] Instance Room_eq_dec : EqDecision Room.
Proof. solve_decision. Defined.

(** [module.get('hours', WEEKLY_MODULE_HOURS) // 2] *)
Definition module_hours (m : Module) : Z := default WEEKLY_MODULE_HOURS (m_hours m).
Definition required_sessions (m : Module) : Z := module_hours m / 2.

(** [lecturer.get('modules', [])] *)
Definition lecturer_modules (l : Lecturer) : list string := default [] (l_modules l).

(** [room['name'] if isinstance(room, dict) else room] *)
Definition room_name (r : Room) : string :=
  match r with
  | RoomDict n _ _ => n
  | RoomStr n => n
  end.

(** [data.get('students_per_group', {}).get((program, level), 0)] *)
Definition group_size (data : Data) (g : Group) : Z :=
  default 0 (students_per_group data !! g).

(** [sum(group_size(g) for g in module.get('target_groups', []))] *)
Definition module_students (data : Data) (m : Module) : Z :=
  foldr Z.add 0 (map (group_size data) (m_target_groups m)).

(** [next((m for m in data['modules'] if m['code'] == code), None)] *)
Definition find_module (data : Data) (code : string) : option Module :=
  find (fun m => bool_decide (m_code m = code)) (modules data).

(** [next((l for l in data['lecturers'] if l['name'] == name), None)] *)
Definition find_lecturer (data : Data) (name : string) : option Lecturer :=
  find (fun l => bool_decide (l_name l = name)) (lecturers data).

(** [next((r for r in data['rooms']
          if (isinstance(r, dict) and r['name'] == name) or r == name), None)] *)
Definition find_room (data : Data) (name : string) : option Room :=
  find (fun r => bool_decide (room_name r = name)) (rooms data).

(** ** Candidate timetables *)

Record Entry : Type := {
  e_module : string;
  e_lecturer : string;
  e_room : string
}.

#[export] Instance Entry_eq_dec : EqDecision Entry.
Proof. solve_decision. Defined.

(** What a cell [timetable['slots'][day][slot]] can hold: a list whose
    items are entries or [None], or a bare dictionary (an entry, or the
    empty dictionary). *)
Inductive Cell : Type :=
| CellList (es : list (option Entry))
| CellDict (e : option Entry).

#[export] Instance Cell_eq_dec : EqDecision Cell.
Proof. solve_decision. Defined.

(** [Grid A]: a value of type [A] for every cell of the week, the nested
    dictionaries [x[day][slot]]. *)
Abbreviation Grid A := (Day -> Slot -> A) (only parsing).

Definition grid_set {A} (g : Grid A) (day : Day) (slot : Slot) (v : A) : Grid A :=
  fun d s => if decide (d = day ∧ s = slot) then v else g d s.

Record Timetable : Type := {
  slots : Grid Cell;
  lecturer_slots : gmap Z (Grid (option string));
  room_slots : gmap string (Grid (option string))
}.

(** [entry[key]]: subscripting [None] raises [TypeError]. *)
Definition subscript (entry : option Entry) : Result Entry :=
  match entry with
  | Some e => Ok e
  | None => Raise TypeError
  end.

(** [any(t and t['module'] == code for t in cell)] for a list, and
    [cell and cell['module'] == code] for a dictionary. *)
Definition entry_is_module (code : string) (t : option Entry) : bool :=
  match t with
  | Some e => bool_decide (e_module e = code)
  | None => false
  end.

Definition cell_has_module (code : string) (c : Cell) : bool :=
  match c with
  | CellList es => existsb (entry_is_module code) es
  | CellDict t => entry_is_module code t
  end.

(** The cells of the week in the order of the two nested loops
    [for day in DAYS: for slot in TIME_SLOTS]. *)
Definition all_cells : list (Day * Slot) :=
  day ← DAYS; slot ← TIME_SLOTS; [(day, slot)].

(** ** [validate_hard_constraints] *)

(** A loop whose body can [return False] or raise: the items are visited in
    order and the first one that does not pass decides. *)
Fixpoint all_pass {A} (f : A -> Result bool) (l : list A) : Result bool :=
  match l with
  | [] => Ok true
  | x :: l' =>
      match f x with
      | Ok true => all_pass f l'
      | r => r
      end
  end.

(** Runs a check on every cell that holds a list; other cells are skipped
    ([if not isinstance(slot_entries, list): continue]). *)
Definition on_list_cells (tt : Timetable)
    (f : Day -> Slot -> list (option Entry) -> Result bool) : Result bool :=
  all_pass (fun ds : Day * Slot =>
              match slots tt ds.1 ds.2 with
              | CellList es => f ds.1 ds.2 es
              | CellDict _ => Ok true
              end) all_cells.

(** *** 1. Student group conflicts *)

(** [for group in module.get('target_groups', []):
       if group in scheduled_groups: return False
       scheduled_groups.add(group)]; [None] stands for the [return False]. *)
Fixpoint add_groups (scheduled : list Group) (gs : list Group) : option (list Group) :=
  match gs with
  | [] => Some scheduled
  | g :: gs' =>
      if bool_decide (g ∈ scheduled) then None
      else add_groups (g :: scheduled) gs'
  end.

Fixpoint check_group_entries (data : Data) (scheduled_groups : list Group)
    (entries : list (option Entry)) : Result bool :=
  match entries with
  | [] => Ok true
  | entry :: rest =>
      e ← subscript entry;
      match find_module data (e_module e) with
      | None => Ok false
      | Some module =>
          match add_groups scheduled_groups (m_target_groups module) with
          | None => Ok false
          | Some scheduled_groups' => check_group_entries data scheduled_groups' rest
          end
      end
  end.

Definition check_student_groups (tt : Timetable) (data : Data) : Result bool :=
  on_list_cells tt (fun _ _ es => check_group_entries data [] es).

(** *** 2. Lecturer conflicts *)

(** [any(e['lecturer'] == name for e in cell)] over a list. *)
Fixpoint any_lecturer (name : string) (es : list (option Entry)) : Result bool :=
  match es with
  | [] => Ok false
  | t :: rest =>
      e ← subscript t;
      if bool_decide (e_lecturer e = name) then Ok true
      else any_lecturer name rest
  end.

(** The same generator over any cell.  Iterating a dictionary yields its
    keys, and subscripting a key (a string) with ['lecturer'] raises
    [TypeError]; the empty dictionary yields nothing. *)
Definition cell_any_lecturer (name : string) (c : Cell) : Result bool :=
  match c with
  | CellList es => any_lecturer name es
  | CellDict (Some _) => Raise TypeError
  | CellDict None => Ok false
  end.

(** [sum(1 for s in TIME_SLOTS if f(s))] *)
Fixpoint count_slots (f : Slot -> Result bool) (ss : list Slot) : Result Z :=
  match ss with
  | [] => Ok 0
  | s :: rest =>
      b ← f s;
      n ← count_slots f rest;
      Ok (if b : bool then 1 + n else n)
  end.

Definition lecturer_daily_hours (tt : Timetable) (day : Day) (name : string) : Result Z :=
  count_slots (fun s => cell_any_lecturer name (slots tt day s)) TIME_SLOTS.

Fixpoint check_lecturer_entries (tt : Timetable) (day : Day)
    (scheduled_lecturers : list string) (entries : list (option Entry)) : Result bool :=
  match entries with
  | [] => Ok true
  | entry :: rest =>
      e ← subscript entry;
      if bool_decide (e_lecturer e ∈ scheduled_lecturers) then Ok false
      else
        hours ← lecturer_daily_hours tt day (e_lecturer e);
        if bool_decide (hours > FACULTY_DAILY_MAX_HOURS) then Ok false
        else check_lecturer_entries tt day (e_lecturer e :: scheduled_lecturers) rest
  end.

Definition check_lecturers (tt : Timetable) : Result bool :=
  on_list_cells tt (fun day _ es => check_lecturer_entries tt day [] es).

(** *** 3. Room conflicts *)

Fixpoint check_room_entries (scheduled_rooms : list string)
    (entries : list (option Entry)) : Result bool :=
  match entries with
  | [] => Ok true
  | entry :: rest =>
      e ← subscript entry;
      if bool_decide (e_room e ∈ scheduled_rooms) then Ok false
      else check_room_entries (e_room e :: scheduled_rooms) rest
  end.

Definition check_rooms (tt : Timetable) : Result bool :=
  on_list_cells tt (fun _ _ es => check_room_entries [] es).

(** *** 4. Room capacity *)

(** [not room]: no room was found, or the room is the empty string. *)
Definition room_falsy (r : option Room) : bool :=
  match r with
  | None => true
  | Some (RoomStr n) => bool_decide (n = "")
  | Some (RoomDict _ _ _) => false
  end.

(** [room['capacity'] if isinstance(room, dict) else 30] *)
Definition room_capacity_validate (r : Room) : Z :=
  match r with
  | RoomDict _ c _ => c
  | RoomStr _ => 30
  end.

Definition check_capacity_entry (data : Data) (entry : option Entry) : Result bool :=
  e ← subscript entry;
  match find_room data (e_room e) with
  | Some room =>
      if room_falsy (Some room) then Ok false
      else
        match find_module data (e_module e) with
        | None => Ok false
        | Some module =>
            if bool_decide (module_students data module > room_capacity_validate room)
            then Ok false else Ok true
        end
  | None => Ok false
  end.

Definition check_capacity (tt : Timetable) (data : Data) : Result bool :=
  on_list_cells tt (fun _ _ es => all_pass (check_capacity_entry data) es).

(** *** 5. Lecturer qualifications *)

Definition check_qualified_entry (data : Data) (entry : option Entry) : Result bool :=
  e ← subscript entry;
  match find_lecturer data (e_lecturer e) with
  | None => Ok false
  | Some lecturer =>
      if bool_decide (e_module e ∈ lecturer_modules lecturer) then Ok true
      else Ok false
  end.

Definition check_qualifications (tt : Timetable) (data : Data) : Result bool :=
  on_list_cells tt (fun _ _ es => all_pass (check_qualified_entry data) es).

(** *** 6. Module hours *)

(** The cells (in loop order) that count as a session of [code]. *)
Definition module_cells (tt : Timetable) (code : string) : list (Day * Slot) :=
  List.filter (fun ds => cell_has_module code (slots tt ds.1 ds.2)) all_cells.

(** [scheduled_sessions] after the two loops. *)
Definition scheduled_sessions (tt : Timetable) (code : string) : Z :=
  Z.of_nat (length (module_cells tt code)).

(** [daily_counts[day]] after the two loops. *)
Definition daily_counts (tt : Timetable) (code : string) (day : Day) : Z :=
  Z.of_nat (length (List.filter (fun s => cell_has_module code (slots tt day s)) TIME_SLOTS)).

Definition check_module_hours (tt : Timetable) (module : Module) : bool :=
  if bool_decide (m_code module = "") then true
  else if bool_decide (scheduled_sessions tt (m_code module) ≠ required_sessions module)
  then false
  else forallb (fun day => negb (bool_decide (daily_counts tt (m_code module) day > 1))) DAYS.

(** *** The validator *)

(** The body of the [try] block: the six checks in order. *)
Definition validate_checks (tt : Timetable) (data : Data) : Result bool :=
  all_pass (fun check : Result bool => check)
    [ check_student_groups tt data;
      check_lecturers tt;
      check_rooms tt;
      check_capacity tt data;
      check_qualifications tt data;
      Ok (forallb (check_module_hours tt) (modules data)) ].

(** [try: ... except Exception: return False] *)
Definition validate_hard_constraints (tt : Timetable) (data : Data) : bool :=
  match validate_checks tt data with
  | Ok b => b
  | Raise _ => false
  end.

(** ** Random choices

    The global generator of the module [random] is a stream of draws and a
    position in it.  Code that draws lives in [M]: it reads the generator,
    advances it, and can raise. *)

Record Rng : Type := { draws : N -> N; pos : N }.

Definition M (A : Type) : Type := Rng -> Result A * Rng.

Definition retM {A} (a : A) : M A := fun r => (Ok a, r).

Definition bindM {A B} (m : M A) (f : A -> M B) : M B :=
  fun r =>
    match m r with
    | (Ok a, r') => f a r'
    | (Raise e, r') => (Raise e, r')
    end.

Definition raiseM {A} (e : Exn) : M A := fun r => (Raise e, r).

Notation "'let*' x ':=' m 'in' k" := (bindM m (fun x => k))
  (at level 10, x pattern, m at level 100, k at level 200).

Definition draw : M N :=
  fun r => (Ok (draws r (pos r)), {| draws := draws r; pos := N.succ (pos r) |}).

(** [random.choice(l)]; an empty sequence raises [IndexError]. *)
Definition random_choice {A} (l : list A) : M A :=
  match l with
  | [] => raiseM IndexError
  | x :: _ => let* n := draw in retM (nth (N.to_nat (n mod N.of_nat (length l))) l x)
  end.

(** [random.random() < num/100], for a probability given in hundredths. *)
Definition random_below (num : N) : M bool :=
  let* n := draw in retM (bool_decide (n mod 100 < num)%N).

Fixpoint foldM {A B} (f : A -> B -> M A) (l : list B) (a : A) : M A :=
  match l with
  | [] => retM a
  | x :: l' => let* a' := f a x in foldM f l' a'
  end.

(** ** Timetables under construction

    [initialize_population] and [crossover] build a timetable whose cells
    are lists of entry dictionaries; [freeze] gives the finished value. *)

Record Building : Type := {
  b_slots : Grid (list Entry);
  b_lecturer_slots : gmap Z (Grid (option string));
  b_room_slots : gmap string (Grid (option string))
}.

Definition freeze (b : Building) : Timetable :=
  {| slots := fun d s => CellList (map Some (b_slots b d s));
     lecturer_slots := b_lecturer_slots b;
     room_slots := b_room_slots b |}.

(** [{'slots': {day: {slot: [] ...}}, 'lecturer_slots': {l['id']: {... None}},
     'room_slots': {name: {... None}}}] *)
Definition new_timetable (data : Data) : Building :=
  {| b_slots := fun _ _ => [];
     b_lecturer_slots :=
       list_to_map (map (fun l => (l_id l, (fun _ _ => None) : Grid (option string)))
                        (lecturers data));
     b_room_slots :=
       list_to_map (map (fun r => (room_name r, (fun _ _ => None) : Grid (option string)))
                        (rooms data)) |}.

(** [timetable['slots'][day][slot].append(entry)] followed by the two index
    updates [timetable['lecturer_slots'][id][day][slot] = code] and
    [timetable['room_slots'][room][day][slot] = code]. *)
Definition add_entry (b : Building) (day : Day) (slot : Slot)
    (entry : Entry) (lecturer_id : Z) : Building :=
  {| b_slots := grid_set (b_slots b) day slot (b_slots b day slot ++ [entry]);
     b_lecturer_slots :=
       alter (fun g => grid_set g day slot (Some (e_module entry))) lecturer_id
             (b_lecturer_slots b);
     b_room_slots :=
       alter (fun g => grid_set g day slot (Some (e_module entry))) (e_room entry)
             (b_room_slots b) |}.

(** ** [initialize_population] *)

Definition max_attempts : nat := 200.

(** [modules_by_group[(program, level)].append(module)] on a dictionary
    that keeps its keys in insertion order. *)
Fixpoint group_append (acc : list (Group * list Module)) (g : Group) (m : Module)
    : list (Group * list Module) :=
  match acc with
  | [] => [(g, [m])]
  | (k, ms) :: rest =>
      if decide (k = g) then (k, ms ++ [m]) :: rest
      else (k, ms) :: group_append rest g m
  end.

Definition modules_by_group (data : Data) : list (Group * list Module) :=
  foldl (fun acc module =>
           if bool_decide (m_code module = "") then acc
           else foldl (fun acc g => group_append acc g module) acc (m_target_groups module))
        [] (modules data).

(** The sort key [(-hours, -len(target_groups))] and the order of tuples. *)
Definition sort_key (m : Module) : Z * Z :=
  (- module_hours m, - Z.of_nat (length (m_target_groups m))).

Definition key_le (a b : Z * Z) : bool :=
  bool_decide (a.1 < b.1) || (bool_decide (a.1 = b.1) && bool_decide (a.2 <= b.2)).

(** [list.sort] is stable: an item goes before the first later item whose
    key is not smaller. *)
Fixpoint sort_insert (x : Module) (l : list Module) : list Module :=
  match l with
  | [] => [x]
  | y :: l' =>
      if key_le (sort_key x) (sort_key y) then x :: y :: l'
      else y :: sort_insert x l'
  end.

Definition sort_modules (l : list Module) : list Module := foldr sort_insert [] l.

Record InitState : Type := {
  timetable : Building;
  assigned_modules : list string;
  module_daily_sessions : gmap (string * Day) Z
}.

(** [module_daily_sessions[code][day]] of a [defaultdict(int)] *)
Definition daily_sessions (st : InitState) (code : string) (day : Day) : Z :=
  default 0 (module_daily_sessions st !! (code, day)).

(** [sum(module_daily_sessions[code].values())] *)
Definition total_sessions (st : InitState) (code : string) : Z :=
  foldr Z.add 0 (map (daily_sessions st code) DAYS).

(** The student group test of the initializer: some entry of the cell
    belongs to a module whose groups intersect those of [module]. *)
Definition has_conflict (data : Data) (cell : list Entry) (module : Module) : bool :=
  existsb (fun entry =>
             match find_module data (e_module entry) with
             | Some other_module =>
                 existsb (fun g => bool_decide (g ∈ m_target_groups other_module))
                         (m_target_groups module)
             | None => false
             end) cell.

(** [sum(1 for s in TIME_SLOTS
         if any(e['lecturer'] == name for e in timetable['slots'][day][s]))] *)
Definition building_daily_hours (b : Building) (day : Day) (name : string) : Z :=
  Z.of_nat (length (List.filter
    (fun s => existsb (fun e => bool_decide (e_lecturer e = name)) (b_slots b day s))
    TIME_SLOTS)).

Definition available_lecturers (data : Data) (b : Building) (day : Day) (slot : Slot)
    (module : Module) : list Lecturer :=
  List.filter
    (fun lecturer =>
       bool_decide (m_code module ∈ lecturer_modules lecturer)
       && negb (existsb (fun e => bool_decide (e_lecturer e = l_name lecturer))
                        (b_slots b day slot))
       && negb (bool_decide (building_daily_hours b day (l_name lecturer) >= 8)))
    (lecturers data).

(** [room['capacity'] if isinstance(room, dict) else 500] *)
Definition room_capacity (r : Room) : Z :=
  match r with
  | RoomDict _ c _ => c
  | RoomStr _ => 500
  end.

(** The students of [module] plus those of every module already in the cell. *)
Definition total_students (data : Data) (cell : list Entry) (module : Module) : Z :=
  foldl (fun total entry =>
           match find_module data (e_module entry) with
           | Some other_module => total + module_students data other_module
           | None => total
           end)
        (module_students data module) cell.

Definition available_rooms (data : Data) (b : Building) (day : Day) (slot : Slot)
    (module : Module) : list Room :=
  List.filter
    (fun room =>
       negb (existsb (fun e => bool_decide (e_room e = room_name room)) (b_slots b day slot))
       && negb (bool_decide (total_students data (b_slots b day slot) module
                             > room_capacity room)))
    (rooms data).

Definition available_slots (data : Data) (st : InitState) (module : Module)
    : list (Day * Slot * list Lecturer * list Room) :=
  day ← DAYS;
  if bool_decide (daily_sessions st (m_code module) day >= 1) then []
  else
    slot ← TIME_SLOTS;
    let cell := b_slots (timetable st) day slot in
    if bool_decide (Z.of_nat (length cell) >= 10) then []
    else if has_conflict data cell module then []
    else
      match available_lecturers data (timetable st) day slot module with
      | [] => []
      | ls =>
          match available_rooms data (timetable st) day slot module with
          | [] => []
          | rs => [(day, slot, ls, rs)]
          end
      end.

(** One pass of the [while] loop body, after [scheduling_attempts += 1].
    The boolean tells whether the loop body ended in [break]. *)
Definition schedule_attempt (data : Data) (module : Module) (st : InitState)
    : M (InitState * bool) :=
  match available_slots data st module with
  | [] => retM (st, false)
  | choices =>
      let* choice := random_choice choices in
      let '(day, slot, ls, rs) := choice in
      let* lecturer := random_choice ls in
      let* room := random_choice rs in
      let entry := {| e_module := m_code module;
                      e_lecturer := l_name lecturer;
                      e_room := room_name room |} in
      let st1 :=
        {| timetable := add_entry (timetable st) day slot entry (l_id lecturer);
           assigned_modules := assigned_modules st;
           module_daily_sessions :=
             <[(m_code module, day) := daily_sessions st (m_code module) day + 1]>
               (module_daily_sessions st) |} in
      if bool_decide (total_sessions st1 (m_code module) >= required_sessions module)
      then retM ({| timetable := timetable st1;
                    assigned_modules := m_code module :: assigned_modules st1;
                    module_daily_sessions := module_daily_sessions st1 |}, true)
      else retM (st1, false)
  end.

(** [while scheduling_attempts < max_attempts and code not in assigned_modules];
    [attempts_left] is [max_attempts - scheduling_attempts]. *)
Fixpoint schedule_module_loop (data : Data) (module : Module) (attempts_left : nat)
    (st : InitState) : M InitState :=
  match attempts_left with
  | O => retM st
  | S n =>
      if bool_decide (m_code module ∈ assigned_modules st) then retM st
      else
        let* res := schedule_attempt data module st in
        if res.2 : bool then retM res.1
        else schedule_module_loop data module n res.1
  end.

(** The body of [for module in modules]. *)
Definition schedule_module (data : Data) (st : InitState) (module : Module) : M InitState :=
  if bool_decide (m_code module ∈ assigned_modules st) then retM st
  else schedule_module_loop data module max_attempts st.

(** The body of [for group_key, modules in modules_by_group.items()]. *)
Definition schedule_group (data : Data) (st : InitState) (group : Group * list Module)
    : M InitState :=
  foldM (schedule_module data) (sort_modules group.2) st.

(** The candidate built inside the [try] of one iteration of
    [for i in range(POPULATION_SIZE)], before it is validated. *)
Definition build_candidate (data : Data) : M Building :=
  let* st := foldM (schedule_group data) (modules_by_group data)
               {| timetable := new_timetable data;
                  assigned_modules := [];
                  module_daily_sessions := ∅ |} in
  retM (timetable st).

(** One iteration of [for i in range(POPULATION_SIZE)]: the candidate joins
    the population when it was built without an exception and passes
    [validate_hard_constraints]. *)
Definition candidate_step (data : Data) (acc : list Timetable * Rng) : list Timetable * Rng :=
  match build_candidate data acc.2 with
  | (Ok b, r) =>
      if validate_hard_constraints (freeze b) data
      then (acc.1 ++ [freeze b], r)
      else (acc.1, r)
  | (Raise _, r) => (acc.1, r)
  end.

(** The population after [n] iterations of the loop. *)
Definition population_after (data : Data) (n : nat) (r : Rng) : list Timetable * Rng :=
  Nat.iter n (candidate_step data) ([], r).

Definition initialize_population (data : Data) : M (list Timetable) :=
  fun r =>
    match population_after data POPULATION_SIZE r with
    | ([], r') => (Raise (ValueError "Failed to initialize any valid timetables"), r')
    | (population, r') => (Ok population, r')
    end.

(** ** Example inputs *)

(** A generator whose [n]-th draw is [f n]. *)
Definition rng_of (f : N -> N) : Rng := {| draws := f; pos := 0 |}.

(** One module of two weekly sessions, one qualified lecturer, one room of
    50 seats, one group of 30 students. *)
Definition data_A : Data :=
  {| modules := [ {| m_code := "M1"; m_hours := Some 4;
                     m_target_groups := [("CS", "1.1")] |} ];
     lecturers := [ {| l_id := 0; l_name := "Ada"; l_modules := Some ["M1"];
                       l_max_daily := 4; l_max_weekly := 10 |} ];
     rooms := [ RoomDict "R1" 50 [] ];
     students_per_group := {[ ("CS", "1.1") := 30 ]} |}.

Definition entry_A : Entry :=
  {| e_module := "M1"; e_lecturer := "Ada"; e_room := "R1" |}.

(** Sessions on Monday and on Tuesday, both in the first period. *)
Definition timetable_A : Timetable :=
  freeze (add_entry (add_entry (new_timetable data_A) Monday S0800 entry_A 0)
                    Tuesday S0800 entry_A 0).

(** The number of slots of [day] in which the lecturer appears, and the
    programs of a module's target groups: the quantities that the lecturer
    and room invariants of the data model speak about. *)
Definition entry_has_lecturer (name : string) (t : option Entry) : bool :=
  match t with
  | Some e => bool_decide (e_lecturer e = name)
  | None => false
  end.

Definition cell_has_lecturer (name : string) (c : Cell) : bool :=
  match c with
  | CellList es => existsb (entry_has_lecturer name) es
  | CellDict t => entry_has_lecturer name t
  end.

Definition lecturer_day_sessions (tt : Timetable) (name : string) (day : Day) : Z :=
  Z.of_nat (length (List.filter (fun s => cell_has_lecturer name (slots tt day s)) TIME_SLOTS)).

(** [{program for program, _ in module.get('target_groups', [])}] *)
Definition module_programs (m : Module) : list string := map fst (m_target_groups m).

(** A list cell that holds [None]. *)
Definition timetable_with_None : Timetable :=
  {| slots := grid_set (slots timetable_A) Friday S1400 (CellList [None]);
     lecturer_slots := lecturer_slots timetable_A;
     room_slots := room_slots timetable_A |}.

(** Two one-session modules taught by one lecturer whose own cap is one
    session a day; both sessions are on Monday. *)
Definition data_cap : Data :=
  {| modules := [ {| m_code := "M1"; m_hours := Some 2;
                     m_target_groups := [("CS", "1.1")] |};
                  {| m_code := "M2"; m_hours := Some 2;
                     m_target_groups := [("CS", "2.1")] |} ];
     lecturers := [ {| l_id := 0; l_name := "Ada"; l_modules := Some ["M1"; "M2"];
                       l_max_daily := 1; l_max_weekly := 10 |} ];
     rooms := [ RoomDict "R1" 50 [] ];
     students_per_group := {[ ("CS", "1.1") := 30; ("CS", "2.1") := 20 ]} |}.

Definition timetable_cap : Timetable :=
  freeze (add_entry
            (add_entry (new_timetable data_cap) Monday S0800
               {| e_module := "M1"; e_lecturer := "Ada"; e_room := "R1" |} 0)
            Monday S1000
            {| e_module := "M2"; e_lecturer := "Ada"; e_room := "R1" |} 0).

(** Scenario D: room R admits only the program CS; module M targets only
    the group (SWE, 1.1). *)
Definition data_D : Data :=
  {| modules := [ {| m_code := "M"; m_hours := Some 2;
                     m_target_groups := [("SWE", "1.1")] |} ];
     lecturers := [ {| l_id := 0; l_name := "Ada"; l_modules := Some ["M"];
                       l_max_daily := 4; l_max_weekly := 10 |} ];
     rooms := [ RoomDict "R" 50 ["CS"] ];
     students_per_group := {[ ("SWE", "1.1") := 30 ]} |}.

Definition timetable_D : Timetable :=
  freeze (add_entry (new_timetable data_D) Monday S0800
            {| e_module := "M"; e_lecturer := "Ada"; e_room := "R" |} 0).

(** The candidates that the [n] iterations of the loop of
    [initialize_population] build, in order, and the generator after them. *)
Fixpoint candidates (data : Data) (n : nat) (r : Rng) : list (Result Building) * Rng :=
  match n with
  | O => ([], r)
  | S n' =>
      let cr := candidates data n' r in
      let cb := build_candidate data cr.2 in
      (cr.1 ++ [cb.1], cb.2)
  end.

(** A candidate passes when it was built and the validator accepts it. *)
Definition passes (data : Data) (c : Result Building) : bool :=
  match c with
  | Ok b => validate_hard_constraints (freeze b) data
  | Raise _ => false
  end.

Definition accepted (data : Data) (cs : list (Result Building)) : list Timetable :=
  omap (fun c => match c with
                 | Ok b => if validate_hard_constraints (freeze b) data
                           then Some (freeze b) else None
                 | Raise _ => None
                 end) cs.

(** Ten modules of four hours for one student group, taught by one
    lecturer in one room of 500 seats: the twenty sessions fill the
    twenty cells of the week. *)
Definition codes_ten : list string :=
  ["M0"; "M1"; "M2"; "M3"; "M4"; "M5"; "M6"; "M7"; "M8"; "M9"].

Definition data_ten : Data :=
  {| modules := map (fun code => {| m_code := code; m_hours := Some 4;
                                    m_target_groups := [("CS", "1.1")] |}) codes_ten;
     lecturers := [ {| l_id := 0; l_name := "Ada"; l_modules := Some codes_ten;
                       l_max_daily := 4; l_max_weekly := 20 |} ];
     rooms := [ RoomDict "R1" 500 [] ];
     students_per_group := {[ ("CS", "1.1") := 30 ]} |}.

(** ** [crossover] *)

(** [{module['code']: module.get('hours', WEEKLY_MODULE_HOURS) // 2
      for module in data['modules'] if module['code']}]; a later module with
    the same code overwrites an earlier one. *)
Definition module_requirements (data : Data) : gmap string Z :=
  foldl (fun acc module =>
           if bool_decide (m_code module = "") then acc
           else <[m_code module := required_sessions module]> acc)
        ∅ (modules data).

(** [entries = slot_entries] for a list, [[slot_entries]] for a non-empty
    dictionary, [[]] otherwise. *)
Definition source_entries (c : Cell) : list (option Entry) :=
  match c with
  | CellList es => es
  | CellDict (Some e) => [Some e]
  | CellDict None => []
  end.

(** [d[key]] on a dictionary: [KeyError] when the key is absent. *)
Definition getitem `{Countable K} {V} (d : gmap K V) (key : K) : Result V :=
  match d !! key with
  | Some v => Ok v
  | None => Raise KeyError
  end.

(** Truth value of an index cell, which holds [None] or a module code. *)
Definition truthy (v : option string) : bool :=
  match v with
  | Some code => negb (bool_decide (code = ""))
  | None => false
  end.

Record CrossState : Type := {
  child : Building;
  assigned_sessions : gmap string Z      (* defaultdict(int) *)
}.

(** The body of [for entry in entries]. *)
Definition crossover_entry (data : Data) (day : Day) (slot : Slot)
    (st : CrossState) (entry : option Entry) : Result CrossState :=
  e ← subscript entry;
  let module_code := e_module e in
  let assigned := default 0 (assigned_sessions st !! module_code) in
  required ← getitem (module_requirements data) module_code;
  if bool_decide (assigned < required) then
    if existsb (fun t => bool_decide (e_module t = module_code)) (b_slots (child st) day slot)
    then Ok st
    else
      match find_lecturer data (e_lecturer e) with
      | None => Ok st
      | Some lecturer =>
          lecturer_grid ← getitem (b_lecturer_slots (child st)) (l_id lecturer);
          if truthy (lecturer_grid day slot) then Ok st
          else
            room_grid ← getitem (b_room_slots (child st)) (e_room e);
            if truthy (room_grid day slot) then Ok st
            else Ok {| child := add_entry (child st) day slot e (l_id lecturer);
                       assigned_sessions := <[module_code := assigned + 1]> (assigned_sessions st) |}
      end
  else Ok st.

Fixpoint foldR {A B} (f : A -> B -> Result A) (l : list B) (a : A) : Result A :=
  match l with
  | [] => Ok a
  | x :: l' => a' ← f a x; foldR f l' a'
  end.

(** The body of [for slot in TIME_SLOTS] for a given source parent. *)
Definition crossover_slot (data : Data) (source : Timetable) (day : Day)
    (st : CrossState) (slot : Slot) : Result CrossState :=
  foldR (crossover_entry data day slot) (source_entries (slots source day slot)) st.

Definition liftR {A} (x : Result A) : M A := fun r => (x, r).

(** The body of [for day in DAYS]: the source parent is drawn, then the
    slots of the day are copied from it. *)
Definition crossover_day (parent1 parent2 : Timetable) (data : Data)
    (st : CrossState) (day : Day) : M CrossState :=
  let* from_first := random_below 50 in
  let source := if from_first : bool then parent1 else parent2 in
  liftR (foldR (crossover_slot data source day) TIME_SLOTS st).

Definition crossover (parent1 parent2 : Timetable) (data : Data) : M Building :=
  let* st := foldM (crossover_day parent1 parent2 data) DAYS
               {| child := new_timetable data; assigned_sessions := ∅ |} in
  retM (child st).

(** ** [mutate] *)

(** [for key in keys: index[key][day][slot] = None].  The loop stops at the
    first key that the index does not hold ([KeyError]); the updates made
    before stay. *)
Fixpoint clear_index `{Countable K} (keys : list K) (index : gmap K (Grid (option string)))
    (day : Day) (slot : Slot) : gmap K (Grid (option string)) * option Exn :=
  match keys with
  | [] => (index, None)
  | key :: rest =>
      match index !! key with
      | Some g => clear_index rest (<[key := grid_set g day slot None]> index) day slot
      | None => (index, Some KeyError)
      end
  end.

(** "Clear the selected slot": the cell becomes a fresh empty list, then
    the two indices are cleared, lecturers first. *)
Definition mutate_clear (tt : Timetable) (data : Data) (day : Day) (slot : Slot)
    : Timetable * option Exn :=
  let slots1 := grid_set (slots tt) day slot (CellList []) in
  match clear_index (map l_id (lecturers data)) (lecturer_slots tt) day slot with
  | (ls, Some e) =>
      ({| slots := slots1; lecturer_slots := ls; room_slots := room_slots tt |}, Some e)
  | (ls, None) =>
      let rse := clear_index (map room_name (rooms data)) (room_slots tt) day slot in
      ({| slots := slots1; lecturer_slots := ls; room_slots := rse.1 |}, rse.2)
  end.

(** "Find a module that needs rescheduling" *)
Definition mutate_available_modules (tt : Timetable) (data : Data) : list Module :=
  List.filter
    (fun module =>
       negb (bool_decide (m_code module = ""))
       && bool_decide (scheduled_sessions tt (m_code module) < required_sessions module))
    (modules data).

(** [any(t and t['module'] == code for t in cell)], iterating the cell
    whatever it is: the keys of a non-empty dictionary are strings, and
    subscripting one with ['module'] raises [TypeError]. *)
Definition iter_has_module (code : string) (c : Cell) : Result bool :=
  match c with
  | CellList es => Ok (existsb (entry_is_module code) es)
  | CellDict (Some _) => Raise TypeError
  | CellDict None => Ok false
  end.

(** [any(t['module'] == code for t in entries)] *)
Fixpoint any_module (code : string) (es : list (option Entry)) : Result bool :=
  match es with
  | [] => Ok false
  | t :: rest =>
      e ← subscript t;
      if bool_decide (e_module e = code) then Ok true else any_module code rest
  end.

(** What iterating a cell yields when every item is then subscripted. *)
Definition iter_entries (c : Cell) : Result (list (option Entry)) :=
  match c with
  | CellList es => Ok es
  | CellDict (Some _) => Raise TypeError
  | CellDict None => Ok []
  end.

(** The inner loop of the student group test for one [(program, level)]:
    [for t in cell: tmod = next(...); if tmod and group in tmod groups: break]. *)
Fixpoint group_in_entries (data : Data) (g : Group) (es : list (option Entry)) : Result bool :=
  match es with
  | [] => Ok false
  | t :: rest =>
      e ← subscript t;
      match find_module data (e_module e) with
      | Some tmod =>
          if bool_decide (g ∈ m_target_groups tmod) then Ok true
          else group_in_entries data g rest
      | None => group_in_entries data g rest
      end
  end.

(** The outer loop: [group_clash] after all groups were looked at. *)
Fixpoint group_clash (data : Data) (gs : list Group) (es : list (option Entry)) : Result bool :=
  match gs with
  | [] => Ok false
  | g :: rest =>
      here ← group_in_entries data g es;
      later ← group_clash data rest es;
      Ok (here || later)
  end.

(** A list comprehension whose condition can raise. *)
Fixpoint filterR {A} (f : A -> Result bool) (l : list A) : Result (list A) :=
  match l with
  | [] => Ok []
  | x :: rest =>
      keep ← f x;
      kept ← filterR f rest;
      Ok (if keep : bool then x :: kept else kept)
  end.

(** [l['modules']]: [KeyError] when the lecturer has no such key. *)
Definition lecturer_modules_strict (l : Lecturer) : Result (list string) :=
  match l_modules l with
  | Some ms => Ok ms
  | None => Raise KeyError
  end.

(** The condition of the comprehension for [available_lecturers]. *)
Definition mutate_lecturer_ok (tt : Timetable) (day : Day) (slot : Slot)
    (module : Module) (l : Lecturer) : Result bool :=
  ms ← lecturer_modules_strict l;
  if bool_decide (m_code module ∈ ms) then
    g ← getitem (lecturer_slots tt) (l_id l);
    if truthy (g day slot) then Ok false
    else
      Ok (bool_decide (Z.of_nat (length (List.filter (fun s => truthy (g day s)) TIME_SLOTS)) < 4))
  else Ok false.

(** [total_students] in [mutate]: the groups of the module, then the groups
    of the module of every entry of the cell. *)
Fixpoint add_cell_students (data : Data) (total : Z) (es : list (option Entry)) : Result Z :=
  match es with
  | [] => Ok total
  | t :: rest =>
      e ← subscript t;
      match find_module data (e_module e) with
      | Some tmod => add_cell_students data (total + module_students data tmod) rest
      | None => add_cell_students data total rest
      end
  end.

(** The body of [for room in data['rooms']]: does the room join
    [available_rooms]? *)
Definition mutate_room_ok (tt : Timetable) (data : Data) (day : Day) (slot : Slot)
    (module : Module) (room : Room) : Result bool :=
  g ← getitem (room_slots tt) (room_name room);
  if truthy (g day slot) then Ok false
  else
    let restricted :=
      match room with
      | RoomDict _ _ (p :: ps) => Some (p :: ps)
      | _ => None
      end in
    let programs_ok :=
      match restricted with
      | Some allowed =>
          negb (bool_decide (module_programs module = []))
          && forallb (fun program => bool_decide (program ∈ allowed)) (module_programs module)
      | None => bool_decide (module_programs module = [])
      end in
    if programs_ok then
      es ← iter_entries (slots tt day slot);
      total ← add_cell_students data (module_students data module) es;
      Ok (bool_decide (total <= room_capacity room))
    else Ok false.

Definition mutate_available_rooms (tt : Timetable) (data : Data) (day : Day) (slot : Slot)
    (module : Module) : Result (list string) :=
  rs ← filterR (mutate_room_ok tt data day slot module) (rooms data);
  Ok (map room_name rs).

(** Everything after the cell was cleared, up to the choice of the entry
    to add: [None] stands for a [return] that adds nothing. *)
Definition mutate_select (tt : Timetable) (data : Data) (day : Day) (slot : Slot)
    : M (option (Entry * Z)) :=
  match mutate_available_modules tt data with
  | [] => retM None
  | available_modules =>
      let* module := random_choice available_modules in
      let* per_day_count :=
        liftR (count_slots (fun s => iter_has_module (m_code module) (slots tt day s))
                           TIME_SLOTS) in
      if bool_decide (per_day_count >= 1) then retM None
      else
        let* es := liftR (iter_entries (slots tt day slot)) in
        let* same_module := liftR (any_module (m_code module) es) in
        if same_module : bool then retM None
        else
          let* clash := liftR (group_clash data (m_target_groups module) es) in
          if clash : bool then retM None
          else
            let* available_lecturers :=
              liftR (filterR (mutate_lecturer_ok tt day slot module) (lecturers data)) in
            match available_lecturers with
            | [] => retM None
            | _ =>
                let* lecturer := random_choice available_lecturers in
                let* available_rooms :=
                  liftR (mutate_available_rooms tt data day slot module) in
                match available_rooms with
                | [] => retM None
                | _ =>
                    let* room_name := random_choice available_rooms in
                    retM (Some ({| e_module := m_code module;
                                   e_lecturer := l_name lecturer;
                                   e_room := room_name |}, l_id lecturer))
                end
            end
  end.

(** "Add the new entry": the append and the two index updates. *)
Definition mutate_add (tt : Timetable) (day : Day) (slot : Slot)
    (entry : Entry) (lecturer_id : Z) : Timetable :=
  {| slots := grid_set (slots tt) day slot
                (match slots tt day slot with
                 | CellList es => CellList (es ++ [Some entry])
                 | c => c
                 end);
     lecturer_slots :=
       alter (fun g => grid_set g day slot (Some (e_module entry))) lecturer_id
             (lecturer_slots tt);
     room_slots :=
       alter (fun g => grid_set g day slot (Some (e_module entry))) (e_room entry)
             (room_slots tt) |}.

(** The cell that [mutate] picks: [day = random.choice(DAYS)] and
    [slot = random.choice(TIME_SLOTS)]. *)
Definition mutate_pick : M (Day * Slot) :=
  let* day := random_choice DAYS in
  let* slot := random_choice TIME_SLOTS in
  retM (day, slot).

(** [mutate] changes its argument in place and returns nothing: the model
    returns the timetable as the call leaves it, whether it ends normally
    or by an exception. *)
Definition mutate (tt : Timetable) (data : Data) (r : Rng) : Result unit * Timetable * Rng :=
  match mutate_pick r with
  | (Raise e, r1) => (Raise e, tt, r1)
  | (Ok (day, slot), r1) =>
      match mutate_clear tt data day slot with
      | (tt1, Some e) => (Raise e, tt1, r1)
      | (tt1, None) =>
          match mutate_select tt1 data day slot r1 with
          | (Raise e, r2) => (Raise e, tt1, r2)
          | (Ok None, r2) => (Ok (), tt1, r2)
          | (Ok (Some (entry, lecturer_id)), r2) =>
              (Ok (), mutate_add tt1 day slot entry lecturer_id, r2)
          end
      end
  end.

(** ** [calculate_fitness] *)

Definition slot_index (s : Slot) : Z :=
  match s with
  | S0800 => 0 | S1000 => 1 | S1200 => 2 | S1400 => 3
  end.

(** The penalty for sessions in consecutive slots of one day, over the
    successive pairs of [module_slots]. *)
Fixpoint adjacent_penalty (module_slots : list (Day * Slot)) : Z :=
  match module_slots with
  | (day1, slot1) :: (((day2, slot2) :: _) as rest) =>
      (if bool_decide (day1 = day2)
          && bool_decide (Z.abs (slot_index slot1 - slot_index slot2) = 1)
       then 15 else 0) + adjacent_penalty rest
  | _ => 0
  end.

(** What the loop body subtracts from the score for one module. *)
Definition module_penalty (tt : Timetable) (module : Module) : Z :=
  let module_slots := module_cells tt (m_code module) in
  let n := Z.of_nat (length module_slots) in
  let days_with_module := remove_dups (map fst module_slots) in
  (if bool_decide (n ≠ SESSIONS_PER_MODULE) then Z.abs (n - SESSIONS_PER_MODULE) * 100 else 0)
  + (if bool_decide (Z.of_nat (length days_with_module) < n) then 20 else 0)
  + adjacent_penalty module_slots.

(** The modules that the loop does not skip. *)
Definition coded_modules (data : Data) : list Module :=
  List.filter (fun module => negb (bool_decide (m_code module = ""))) (modules data).

(** [max(d.values()) - min(d.values())] for a [defaultdict(int)] given by
    its positive counts; 0 when the dictionary is empty. *)
Definition spread (counts : list Z) : Z :=
  match List.filter (fun c => bool_decide (c > 0)) counts with
  | [] => 0
  | c :: cs => foldr Z.max c cs - foldr Z.min c cs
  end.

(** [day_module_counts[day]] and [slot_usage[slot]] *)
Definition day_module_count (tt : Timetable) (data : Data) (day : Day) : Z :=
  foldr Z.add 0
    (map (fun module =>
            Z.of_nat (length (List.filter (fun ds : Day * Slot => bool_decide (ds.1 = day))
                                          (module_cells tt (m_code module)))))
         (coded_modules data)).

Definition slot_usage (tt : Timetable) (data : Data) (slot : Slot) : Z :=
  foldr Z.add 0
    (map (fun module =>
            Z.of_nat (length (List.filter (fun ds : Day * Slot => bool_decide (ds.2 = slot))
                                          (module_cells tt (m_code module)))))
         (coded_modules data)).

(** The room check of one cell: 50 for every entry whose room was already
    used by an earlier entry of the cell. *)
Fixpoint room_penalty (used : list string) (entries : list (option Entry)) : Result Z :=
  match entries with
  | [] => Ok 0
  | entry :: rest =>
      e ← subscript entry;
      p ← room_penalty (e_room e :: used) rest;
      Ok ((if bool_decide (e_room e ∈ used) then 50 else 0) + p)
  end.

Fixpoint sumR {A} (f : A -> Result Z) (l : list A) : Result Z :=
  match l with
  | [] => Ok 0
  | x :: rest => a ← f x; b ← sumR f rest; Ok (a + b)
  end.

Definition calculate_fitness (tt : Timetable) (data : Data) : Result Z :=
  let score := 1000 - foldr Z.add 0 (map (module_penalty tt) (coded_modules data)) in
  let score := score - spread (map (day_module_count tt data) DAYS) * 10 in
  let score := score - spread (map (slot_usage tt data) TIME_SLOTS) * 5 in
  rooms_penalty ← sumR (fun ds : Day * Slot =>
                         room_penalty [] (source_entries (slots tt ds.1 ds.2))) all_cells;
  Ok (score - rooms_penalty).

(** ** [tournament_selection] *)

(** A fitness score is an integer or [float('-inf')] ([None]). *)
Definition Fitness : Type := option Z.

Definition fitness_lt (a b : Fitness) : bool :=
  match a, b with
  | None, Some _ => true
  | Some x, Some y => bool_decide (x < y)
  | _, None => false
  end.

(** [max(scores)] of a non-empty list: the first of the greatest items. *)
Definition fitness_max (first : Fitness) (rest : list Fitness) : Fitness :=
  foldl (fun best x => if fitness_lt best x then x else best) first rest.

(** [scores.index(x)] *)
Fixpoint index_of (x : Fitness) (scores : list Fitness) : option nat :=
  match scores with
  | [] => None
  | y :: rest => if decide (y = x) then Some O else S <$> index_of x rest
  end.

(** [random.sample(l, k)]: [k] draws without replacement. *)
Fixpoint random_sample {A} (l : list A) (k : nat) : M (list A) :=
  match k with
  | O => retM []
  | S k' =>
      match l with
      | [] => raiseM (ValueError "Sample larger than population or is negative")
      | x :: _ =>
          let* n := draw in
          let i := N.to_nat (n mod N.of_nat (length l)) in
          let* others := random_sample (take i l ++ drop (S i) l) k' in
          retM (nth i l x :: others)
      end
  end.

Definition tournament_size : nat := 3.

Definition tournament_selection (population : list Timetable) (fitness_scores : list Fitness)
    : M Timetable :=
  let valid_indices :=
    List.filter (fun i => bool_decide (i < length fitness_scores)%nat)
                (seq 0 (length population)) in
  match valid_indices with
  | [] =>
      match population with
      | [] => raiseM (ValueError "No valid timetables available for selection")
      | _ => random_choice population
      end
  | _ =>
      let* tournament_indices :=
        random_sample valid_indices (Nat.min tournament_size (length valid_indices)) in
      let tournament_fitness := map (fun i => default None (fitness_scores !! i)) tournament_indices in
      match tournament_fitness with
      | [] => raiseM (ValueError "max() arg is an empty sequence")
      | f :: fs =>
          match index_of (fitness_max f fs) tournament_fitness with
          | Some k =>
              match tournament_indices !! k with
              | Some winner_idx =>
                  match population !! winner_idx with
                  | Some winner => retM winner
                  | None => raiseM IndexError
                  end
              | None => raiseM IndexError
              end
          | None => raiseM (ValueError "not in list")
          end
      end
  end.

(** ** [generate_timetable] *)

Definition MUTATION_RATE_PERCENT : N := 15.   (* MUTATION_RATE = 0.15 *)
Definition STAGNATION_LIMIT : Z := 20.

(** The fitness scores of a population; an exception while scoring an
    individual gives it [float('-inf')]. *)
Definition fitness_batch (population : list Timetable) (data : Data) : list Fitness :=
  map (fun tt => match calculate_fitness tt data with
                 | Ok f => Some f
                 | Raise _ => None
                 end) population.

(** One pass of [while len(new_population) < POPULATION_SIZE]. *)
Definition breed_one (population : list Timetable) (scores : list Fitness) (data : Data)
    : M Timetable :=
  let* parent1 := tournament_selection population scores in
  let* parent2 := tournament_selection population scores in
  let* child := crossover parent1 parent2 data in
  let* do_mutate := random_below MUTATION_RATE_PERCENT in
  if do_mutate : bool then
    fun r =>
      match mutate (freeze child) data r with
      | (Ok _, mutated, r') => (Ok mutated, r')
      | (Raise e, _, r') => (Raise e, r')
      end
  else retM (freeze child).

Fixpoint breed (population : list Timetable) (scores : list Fitness) (data : Data)
    (n : nat) (new_population : list Timetable) : M (list Timetable) :=
  match n with
  | O => retM new_population
  | S n' =>
      let* child := breed_one population scores data in
      breed population scores data n' (new_population ++ [child])
  end.

(** The variables that the generation loop updates. *)
Record GenState : Type := {
  best_fitness : Fitness;
  best_timetable : option Timetable;
  generations_without_improvement : Z;
  new_population : option (list Timetable)       (* unbound before the first pass *)
}.

(** The variables of the generation loop before its first pass. *)
Definition initial_state : GenState :=
  {| best_fitness := None; best_timetable := None;
     generations_without_improvement := 0; new_population := None |}.

(** One pass of [for generation in range(GENERATIONS)] on [population];
    the boolean tells whether the pass ended in [break]. *)
Definition generation_step (population : list Timetable) (data : Data) (st : GenState)
    : M (GenState * bool) :=
  let fitness_scores_batch := fitness_batch population data in
  match fitness_scores_batch with
  | [] => raiseM (ValueError "max() arg is an empty sequence")
  | f :: fs =>
      let max_fitness := fitness_max f fs in
      let st1 :=
        if fitness_lt (best_fitness st) max_fitness then
          {| best_fitness := max_fitness;
             best_timetable :=
               (index_of max_fitness fitness_scores_batch) ≫= (fun i => population !! i);
             generations_without_improvement := 0;
             new_population := new_population st |}
        else
          {| best_fitness := best_fitness st;
             best_timetable := best_timetable st;
             generations_without_improvement := generations_without_improvement st + 1;
             new_population := new_population st |} in
      if bool_decide (generations_without_improvement st1 >= STAGNATION_LIMIT)
      then retM (st1, true)
      else
        let* bred := breed population fitness_scores_batch data POPULATION_SIZE [] in
        retM ({| best_fitness := best_fitness st1;
                 best_timetable := best_timetable st1;
                 generations_without_improvement := generations_without_improvement st1;
                 new_population := Some bred |}, false)
  end.

(** The generation loop.  The variable [population] is assigned before the
    loop and again after it ([population = new_population] stands at the
    indentation of the [for]), so every pass works on the same list. *)
Fixpoint generation_loop (population : list Timetable) (data : Data) (generations : nat)
    (st : GenState) : M GenState :=
  match generations with
  | O => retM st
  | S n =>
      let* res := generation_step population data st in
      if res.2 : bool then retM res.1
      else generation_loop population data n res.1
  end.

(** The body of the [try] block. *)
Definition generate_timetable_body (data : Data) : M (option Timetable) :=
  let* population := initialize_population data in
  match population with
  | [] => retM None
  | _ =>
      let* st := generation_loop population data GENERATIONS initial_state in
      match new_population st with
      | None => raiseM NameError
      | Some _ => retM (best_timetable st)
      end
  end.

(** [try: ... except Exception: return None] *)
Definition generate_timetable (data : Data) (r : Rng) : option Timetable * Rng :=
  match generate_timetable_body data r with
  | (Ok result, r') => (result, r')
  | (Raise _, r') => (None, r')
  end.

(** ** The caller's report ([generate_timetable_section] in [matt.py]) *)





(** ** Student groups within a cell *)

(** The target groups of the module that an entry names. *)
Definition groups_of (data : Data) (code : string) : list Group :=
  match find_module data code with
  | Some m => m_target_groups m
  | None => []
  end.

Definition share_group (data : Data) (e1 e2 : Entry) : Prop :=
  exists g, g ∈ groups_of data (e_module e1) /\ g ∈ groups_of data (e_module e2).

(** No two entries of the list belong to modules that share a target
    group ([share_group] is symmetric, so the ordered pairs suffice). *)
Definition group_free (data : Data) (es : list Entry) : Prop :=
  ForallOrdPairs (fun e1 e2 => ~ share_group data e1 e2) es.

(** The same for every cell of a timetable. *)
Definition timetable_group_free (data : Data) (tt : Timetable) : Prop :=
  forall day slot, group_free data (omap id (source_entries (slots tt day slot))).


Definition entry_clash1 : Entry :=
  {| e_module := "M1"; e_lecturer := "Ada"; e_room := "R1" |}.
Definition entry_clash2 : Entry :=
  {| e_module := "M2"; e_lecturer := "Bob"; e_room := "R2" |}.


(** ** Counting entries *)

(** The number of entries of a cell and of the whole week. *)
Definition cell_size (c : Cell) : Z := Z.of_nat (length (source_entries c)).

Definition total_entries (tt : Timetable) : Z :=
  foldr Z.add 0 (map (fun ds : Day * Slot => cell_size (slots tt ds.1 ds.2)) all_cells).

(** A room that admits only the program CS, and a module of that program;
    no session is placed yet. *)
Definition data_R : Data :=
  {| modules := [ {| m_code := "M1"; m_hours := Some 2;
                     m_target_groups := [("CS", "1.1")] |} ];
     lecturers := [ {| l_id := 0; l_name := "Ada"; l_modules := Some ["M1"];
                       l_max_daily := 4; l_max_weekly := 10 |} ];
     rooms := [ RoomDict "R1" 50 ["CS"] ];
     students_per_group := {[ ("CS", "1.1") := 30 ]} |}.

Definition timetable_R : Timetable := freeze (new_timetable data_R).

(** The timetable of Scenario A's data before any session is placed; its
    only room, R1, has an empty [allowed_programs]. *)
Definition timetable_A0 : Timetable := freeze (new_timetable data_A).

Definition module_A : Module :=
  {| m_code := "M1"; m_hours := Some 4; m_target_groups := [("CS", "1.1")] |}.

(** ** A run whose bred population beats the initial one *)

(** One module of six weekly hours.  A timetable that the validator
    accepts holds three sessions of it, one more than [calculate_fitness]
    wants, so it scores at most 900; a child of [crossover] may hold two. *)
Definition data_H : Data :=
  {| modules := [ {| m_code := "M1"; m_hours := Some 6;
                     m_target_groups := [("CS", "1.1")] |} ];
     lecturers := [ {| l_id := 0; l_name := "Ada"; l_modules := Some ["M1"];
                       l_max_daily := 4; l_max_weekly := 10 |} ];
     rooms := [ RoomDict "R1" 50 [] ];
     students_per_group := {[ ("CS", "1.1") := 30 ]} |}.

Definition rng_H : Rng := rng_of (fun n => n).

(** The initial population of a run ([[]] when the initializer raises) and
    the first pass of the generation loop on it. *)
Definition initial_population (data : Data) (r : Rng) : list Timetable :=
  match (initialize_population data r).1 with
  | Ok population => population
  | Raise _ => []
  end.

Definition first_generation (data : Data) (r : Rng) : Result (GenState * bool) :=
  (generation_step (initial_population data r) data initial_state
     (initialize_population data r).2).1.

(** [max(scores)], or [None] for no scores. *)
Definition greatest (scores : list Fitness) : Fitness :=
  match scores with
  | [] => None
  | f :: fs => fitness_max f fs
  end.

(** Decides, by running the initializer and the first pass, that the
    initial population scores [lo] at best, and that the first pass, which
    resets the stagnation counter and does not stop, breeds an individual
    that scores [hi]. *)
Definition bred_scores (data : Data) (r : Rng) (lo hi : Z) : bool :=
  match (initialize_population data r).1 with
  | Ok _ =>
      bool_decide (greatest (fitness_batch (initial_population data r) data) = Some lo)
      && match first_generation data r with
         | Ok (st1, false) =>
             bool_decide (best_fitness st1 = Some lo)
             && bool_decide (generations_without_improvement st1 = 0)
             && match new_population st1 with
                | Some bred =>
                    existsb (fun child => bool_decide (calculate_fitness child data = Ok hi))
                            bred
                | None => false
                end
         | _ => false
         end
  | Raise _ => false
  end.

(** ** Invariants of the loops *)



(** What holds of the child at every point of the copy loops. *)
Record cross_inv (data : Data) (st : CrossState) : Prop := {
  inv_sessions : forall code,
    scheduled_sessions (freeze (child st)) code <= default 0 (assigned_sessions st !! code);
  inv_assigned : forall code,
    default 0 (assigned_sessions st !! code)
    <= Z.max 0 (default 0 (module_requirements data !! code));
  inv_lecturer : forall day slot e,
    e ∈ b_slots (child st) day slot ->
    exists l g, find_lecturer data (e_lecturer e) = Some l /\
                b_lecturer_slots (child st) !! l_id l = Some g /\
                truthy (g day slot) = true;
  inv_room : forall day slot e,
    e ∈ b_slots (child st) day slot ->
    exists g, b_room_slots (child st) !! e_room e = Some g /\ truthy (g day slot) = true;
  inv_lecturers_distinct : forall day slot, NoDup (e_lecturer <$> b_slots (child st) day slot);
  inv_rooms_distinct : forall day slot, NoDup (e_room <$> b_slots (child st) day slot)
}.

(** The running best is nothing, or an individual of [population] whose
    score is the greatest of [population]. *)
Definition best_of (population : list Timetable) (data : Data) (st : GenState) : Prop :=
  forall t, best_timetable st = Some t ->
    exists i f fs,
      population !! i = Some t /\
      fitness_batch population data = f :: fs /\
      (f :: fs) !! i = Some (fitness_max f fs).

(** ** What the validator demands of a timetable built from lists *)

(** The six demands on a timetable whose cells are lists of entries, in
    the order of the six checks. *)
Record valid_timetable (data : Data) (b : Building) : Prop := {
  valid_groups : forall day slot,
    (forall e, e ∈ b_slots b day slot -> is_Some (find_module data (e_module e))) /\
    NoDup (concat (map (fun e => groups_of data (e_module e)) (b_slots b day slot)));
  valid_lecturers : forall day slot, NoDup (e_lecturer <$> b_slots b day slot);
  valid_rooms : forall day slot, NoDup (e_room <$> b_slots b day slot);
  valid_capacity : forall day slot e,
    e ∈ b_slots b day slot ->
    exists room module,
      find_room data (e_room e) = Some room /\
      room ≠ RoomStr "" /\
      find_module data (e_module e) = Some module /\
      module_students data module
      <= match room with RoomDict _ capacity _ => capacity | RoomStr _ => 30 end;
  valid_qualified : forall day slot e,
    e ∈ b_slots b day slot ->
    exists lecturer,
      find_lecturer data (e_lecturer e) = Some lecturer /\
      e_module e ∈ lecturer_modules lecturer;
  valid_sessions : forall module,
    module ∈ modules data ->
    m_code module ≠ "" ->
    Z.of_nat (length (module_cells (freeze b) (m_code module))) = module_hours module / 2 /\
    (forall day s1 s2,
        (day, s1) ∈ module_cells (freeze b) (m_code module) ->
        (day, s2) ∈ module_cells (freeze b) (m_code module) ->
        s1 = s2)
}.

(** ** Timetables that the genetic operators can work on *)

(** Both indices hold a grid for every lecturer id and every room name of
    the domain data, as in a timetable made by [new_timetable]. *)
Definition indexed (data : Data) (lecturer_index : gmap Z (Grid (option string)))
    (room_index : gmap string (Grid (option string))) : Prop :=
  (forall l, l ∈ lecturers data -> is_Some (lecturer_index !! l_id l)) /\
  (forall room, room ∈ rooms data -> is_Some (room_index !! room_name room)).

(** An entry that names a module with a code and a room of the domain
    data. *)
Definition entry_known (data : Data) (e : Entry) : Prop :=
  (exists module, module ∈ modules data /\ m_code module = e_module e /\ e_module e ≠ "") /\
  (exists room, room ∈ rooms data /\ room_name room = e_room e).

(** A timetable all of whose cells hold such entries. *)
Definition copyable (data : Data) (tt : Timetable) : Prop :=
  forall day slot t, t ∈ source_entries (slots tt day slot) ->
    exists e, t = Some e /\ entry_known data e.

Definition entries_known (data : Data) (b : Building) : Prop :=
  forall day slot e, e ∈ b_slots b day slot -> entry_known data e.

(** A module of twelve hours: six sessions a week. *)
Definition data_long : Data :=
  {| modules := [ {| m_code := "M1"; m_hours := Some 12;
                     m_target_groups := [("CS", "1.1")] |} ];
     lecturers := [ {| l_id := 0; l_name := "Ada"; l_modules := Some ["M1"];
                       l_max_daily := 4; l_max_weekly := 10 |} ];
     rooms := [ RoomDict "R1" 50 [] ];
     students_per_group := {[ ("CS", "1.1") := 30 ]} |}.

(** The module of every entry is a module of the domain data that has a
    target group. *)
Definition entries_grouped (data : Data) (b : Building) : Prop :=
  forall day slot e, e ∈ b_slots b day slot ->
    exists module, module ∈ modules data /\ m_code module = e_module e /\
                   m_target_groups module ≠ [].

(** A module that no student group takes. *)
Definition data_nogroup : Data :=
  {| modules := [ {| m_code := "M1"; m_hours := Some 4; m_target_groups := [] |} ];
     lecturers := [ {| l_id := 0; l_name := "Ada"; l_modules := Some ["M1"];
                       l_max_daily := 4; l_max_weekly := 10 |} ];
     rooms := [ RoomDict "R1" 50 [] ];
     students_per_group := ∅ |}.

(** What [mutate] asks of a room for a module, when the cell is empty. *)
Definition room_admits (data : Data) (module : Module) (room : Room) : Prop :=
  match room with
  | RoomDict _ _ (p :: ps) =>
      module_programs module ≠ [] /\
      forall program, program ∈ module_programs module -> program ∈ p :: ps
  | _ => module_programs module = []
  end /\
  module_students data module <= room_capacity room.

(** The data of scenario A with a second lecturer, whose dictionary has
    no key 'modules'. *)
Definition data_nomodules : Data :=
  {| modules := [ module_A ];
     lecturers := [ {| l_id := 0; l_name := "Ada"; l_modules := Some ["M1"];
                       l_max_daily := 4; l_max_weekly := 10 |};
                    {| l_id := 1; l_name := "Bob"; l_modules := None;
                       l_max_daily := 4; l_max_weekly := 10 |} ];
     rooms := [ RoomDict "R1" 50 [] ];
     students_per_group := {[ ("CS", "1.1") := 30 ]} |}.


(** Two modules of different student groups, each with its own lecturer
    and room, and an accepted timetable that holds both in one cell. *)
Definition data_pair : Data :=
  {| modules := [ {| m_code := "M1"; m_hours := Some 2;
                     m_target_groups := [("CS", "1.1")] |};
                  {| m_code := "M2"; m_hours := Some 2;
                     m_target_groups := [("SWE", "1.1")] |} ];
     lecturers := [ {| l_id := 0; l_name := "Ada"; l_modules := Some ["M1"];
                       l_max_daily := 4; l_max_weekly := 10 |};
                    {| l_id := 1; l_name := "Bob"; l_modules := Some ["M2"];
                       l_max_daily := 4; l_max_weekly := 10 |} ];
     rooms := [ RoomDict "R1" 50 []; RoomDict "R2" 50 [] ];
     students_per_group := {[ ("CS", "1.1") := 30; ("SWE", "1.1") := 30 ]} |}.

Definition parent_pair : Timetable :=
  freeze (add_entry (add_entry (new_timetable data_pair) Monday S0800 entry_clash1 0)
                    Monday S0800 entry_clash2 1).

(** * Properties *)

Lemma elem_of_DAYS (d : Day) : d ∈ DAYS.
Proof. destruct d; apply (bool_decide_unpack _); by vm_compute. Qed.

Lemma elem_of_TIME_SLOTS (s : Slot) : s ∈ TIME_SLOTS.
Proof. destruct s; apply (bool_decide_unpack _); by vm_compute. Qed.

Lemma elem_of_all_cells (d : Day) (s : Slot) : (d, s) ∈ all_cells.
Proof. destruct d, s; apply (bool_decide_unpack _); by vm_compute. Qed.

(** ** Properties of the validator *)

Lemma all_pass_true {A} (f : A -> Result bool) (l : list A) :
  all_pass f l = Ok true -> forall x, x ∈ l -> f x = Ok true.
Proof.
  induction l as [|y l IH]; simpl; intros Hall x Hx.
  - by apply elem_of_nil in Hx.
  - destruct (f y) as [[|]|] eqn:Hy; try discriminate.
    apply elem_of_cons in Hx as [->|Hx]; auto.
Qed.

Lemma on_list_cells_true tt f :
  on_list_cells tt f = Ok true ->
  forall day slot es, slots tt day slot = CellList es -> f day slot es = Ok true.
Proof.
  intros Hall day slot es Hcell.
  pose proof (all_pass_true _ _ Hall (day, slot) (elem_of_all_cells day slot)) as H.
  simpl in H. by rewrite Hcell in H.
Qed.

(** An accepted timetable passed each of the six checks. *)
Lemma validate_true_checks tt data :
  validate_hard_constraints tt data = true ->
  check_student_groups tt data = Ok true /\
  check_lecturers tt = Ok true /\
  check_rooms tt = Ok true /\
  check_capacity tt data = Ok true /\
  check_qualifications tt data = Ok true /\
  forallb (check_module_hours tt) (modules data) = true.
Proof.
  unfold validate_hard_constraints.
  destruct (validate_checks tt data) as [b|] eqn:Hc; [intros ->|discriminate].
  pose proof (all_pass_true _ _ Hc) as H.
  repeat split; try (apply H; set_solver).
  assert (Ok (forallb (check_module_hours tt) (modules data)) = Ok true) as [= ->]
    by (apply H; set_solver).
  done.
Qed.

Lemma module_cells_spec tt code day slot :
  (day, slot) ∈ module_cells tt code <-> cell_has_module code (slots tt day slot) = true.
Proof.
  unfold module_cells. rewrite list_elem_of_In, filter_In, <- list_elem_of_In. simpl.
  pose proof (elem_of_all_cells day slot). tauto.
Qed.

Lemma module_cells_NoDup tt code : NoDup (module_cells tt code).
Proof.
  unfold module_cells. apply NoDup_ListNoDup, List.NoDup_filter, NoDup_ListNoDup.
  apply (bool_decide_unpack _). by vm_compute.
Qed.

Lemma daily_counts_le_1 tt code day s1 s2 :
  daily_counts tt code day <= 1 ->
  cell_has_module code (slots tt day s1) = true ->
  cell_has_module code (slots tt day s2) = true ->
  s1 = s2.
Proof.
  unfold daily_counts, TIME_SLOTS. simpl.
  destruct s1, s2; intros Hle H1 H2; try reflexivity;
    rewrite ?H1, ?H2 in Hle;
    repeat (match type of Hle with
            | context [if ?b then _ else _] => destruct b
            end; simpl in Hle); lia.
Qed.

Lemma forallb_elem_of {A} (f : A -> bool) (l : list A) (x : A) :
  forallb f l = true -> x ∈ l -> f x = true.
Proof.
  rewrite forallb_forall. intros H Hx. apply H. by apply list_elem_of_In.
Qed.

(** The sixth check, read off an accepted timetable. *)
Lemma accepted_module_sessions (tt : Timetable) (data : Data) (module : Module) :
  validate_hard_constraints tt data = true ->
  module ∈ modules data ->
  m_code module ≠ "" ->
  scheduled_sessions tt (m_code module) = required_sessions module /\
  (forall day, daily_counts tt (m_code module) day <= 1).
Proof.
  intros Hv Hin Hcode.
  destruct (validate_true_checks _ _ Hv) as (_ & _ & _ & _ & _ & H6).
  pose proof (forallb_elem_of _ _ _ H6 Hin) as Hm.
  unfold check_module_hours in Hm.
  rewrite bool_decide_eq_false_2 in Hm by done.
  destruct (bool_decide (scheduled_sessions tt (m_code module) ≠ required_sessions module))
    eqn:Hs; [discriminate|].
  apply bool_decide_eq_false in Hs. apply dec_stable in Hs.
  split; [exact Hs|].
  intros day.
  pose proof (forallb_elem_of _ _ day Hm (elem_of_DAYS day)) as Hd.
  apply negb_true_iff, bool_decide_eq_false in Hd. lia.
Qed.

(** C2. An accepted timetable gives every module with a non-empty code
    exactly [hours // 2] cells that contain an entry for it, and no two of
    these cells fall on the same day. *)
Theorem validate_module_sessions (tt : Timetable) (data : Data) (module : Module) :
  validate_hard_constraints tt data = true ->
  module ∈ modules data ->
  m_code module ≠ "" ->
  Z.of_nat (length (module_cells tt (m_code module))) = module_hours module / 2 /\
  (forall day s1 s2,
      (day, s1) ∈ module_cells tt (m_code module) ->
      (day, s2) ∈ module_cells tt (m_code module) ->
      s1 = s2).
Proof.
  intros Hv Hin Hcode.
  destruct (accepted_module_sessions _ _ _ Hv Hin Hcode) as [Hs Hd].
  split; [exact Hs|].
  intros day s1 s2 H1 H2.
  apply module_cells_spec in H1, H2.
  by apply (daily_counts_le_1 tt (m_code module) day).
Qed.

Lemma validate_module_sessions_witness :
  Z.of_nat (length (module_cells timetable_A "M1")) = 4 / 2 /\
  (forall day s1 s2,
      (day, s1) ∈ module_cells timetable_A "M1" ->
      (day, s2) ∈ module_cells timetable_A "M1" ->
      s1 = s2).
Proof.
  apply (validate_module_sessions timetable_A data_A
           {| m_code := "M1"; m_hours := Some 4; m_target_groups := [("CS", "1.1")] |}).
  - vm_compute. reflexivity.
  - apply (bool_decide_unpack _). vm_compute. exact I.
  - discriminate.
Defined.

(** *** References that the domain data do not resolve *)

Lemma check_group_entries_found data scheduled es :
  check_group_entries data scheduled es = Ok true ->
  forall t, t ∈ es -> exists e, t = Some e /\ is_Some (find_module data (e_module e)).
Proof.
  revert scheduled. induction es as [|t0 es IH]; simpl; intros scheduled Hc t Ht.
  - by apply elem_of_nil in Ht.
  - destruct t0 as [e0|]; simpl in Hc; [|discriminate].
    destruct (find_module data (e_module e0)) as [m|] eqn:Hm; [|discriminate].
    destruct (add_groups scheduled (m_target_groups m)) as [scheduled'|]; [|discriminate].
    apply elem_of_cons in Ht as [->|Ht]; [|by eapply IH].
    exists e0. by rewrite Hm.
Qed.

Lemma check_capacity_entry_found data t :
  check_capacity_entry data t = Ok true ->
  exists e, t = Some e /\ is_Some (find_room data (e_room e)).
Proof.
  unfold check_capacity_entry. destruct t as [e|]; simpl; [|discriminate].
  destruct (find_room data (e_room e)) eqn:Hr; [|discriminate].
  intros _. exists e. by rewrite Hr.
Qed.

Lemma check_qualified_entry_found data t :
  check_qualified_entry data t = Ok true ->
  exists e l, t = Some e /\ find_lecturer data (e_lecturer e) = Some l /\
              e_module e ∈ lecturer_modules l.
Proof.
  unfold check_qualified_entry. destruct t as [e|]; simpl; [|discriminate].
  destruct (find_lecturer data (e_lecturer e)) as [l|] eqn:Hl; [|discriminate].
  case_bool_decide; [|discriminate].
  intros _. by exists e, l.
Qed.

(** Every item of a list cell of an accepted timetable is an entry whose
    module, lecturer and room are found in the domain data. *)
Lemma validate_entries_resolved tt data day slot es t :
  validate_hard_constraints tt data = true ->
  slots tt day slot = CellList es ->
  t ∈ es ->
  exists e, t = Some e /\
            is_Some (find_module data (e_module e)) /\
            is_Some (find_lecturer data (e_lecturer e)) /\
            is_Some (find_room data (e_room e)).
Proof.
  intros Hv Hcell Ht.
  destruct (validate_true_checks _ _ Hv) as (H1 & _ & _ & H4 & H5 & _).
  pose proof (on_list_cells_true _ _ H1 _ _ _ Hcell) as G1.
  pose proof (on_list_cells_true _ _ H4 _ _ _ Hcell) as G4.
  pose proof (on_list_cells_true _ _ H5 _ _ _ Hcell) as G5.
  simpl in G1, G4, G5.
  destruct (check_group_entries_found _ _ _ G1 _ Ht) as (e & -> & Hm).
  destruct (check_capacity_entry_found _ _ (all_pass_true _ _ G4 _ Ht)) as (e4 & [= <-] & Hr).
  destruct (check_qualified_entry_found _ _ (all_pass_true _ _ G5 _ Ht))
    as (e5 & l & [= <-] & Hl & _).
  exists e. by rewrite Hl.
Qed.

(** C10. The validator is a total function to [bool]: it answers [true] or
    [false] on every timetable and every domain data, an exception raised
    inside the checks makes it answer [false], and so does an entry of a
    list cell that names a module, a lecturer or a room that the domain
    data do not contain. *)
Theorem validate_never_raises (tt : Timetable) (data : Data) :
  (validate_hard_constraints tt data = true \/ validate_hard_constraints tt data = false) /\
  (forall e, validate_checks tt data = Raise e ->
             validate_hard_constraints tt data = false) /\
  (forall day slot es entry,
      slots tt day slot = CellList es ->
      Some entry ∈ es ->
      find_module data (e_module entry) = None \/
      find_lecturer data (e_lecturer entry) = None \/
      find_room data (e_room entry) = None ->
      validate_hard_constraints tt data = false).
Proof.
  split; [|split].
  - destruct (validate_hard_constraints tt data); auto.
  - intros e He. unfold validate_hard_constraints. by rewrite He.
  - intros day slot es entry Hcell Hin Habsent.
    destruct (validate_hard_constraints tt data) eqn:Hv; [|done].
    destruct (validate_entries_resolved _ _ _ _ _ _ Hv Hcell Hin)
      as (e & [= <-] & [m Hm] & [l Hl] & [r Hr]).
    destruct Habsent as [H|[H|H]]; congruence.
Qed.

Lemma validate_never_raises_witness :
  validate_checks timetable_with_None data_A = Raise TypeError /\
  validate_hard_constraints timetable_with_None data_A = false.
Proof.
  assert (validate_checks timetable_with_None data_A = Raise TypeError) as H
    by (vm_compute; reflexivity).
  split; [exact H|].
  exact (proj1 (proj2 (validate_never_raises timetable_with_None data_A)) TypeError H).
Defined.

(** *** Lecturers within a cell *)

Lemma check_lecturer_entries_distinct tt day scheduled es :
  check_lecturer_entries tt day scheduled es = Ok true ->
  exists entries, es = Some <$> entries /\
                  NoDup (e_lecturer <$> entries) /\
                  (forall e, e ∈ entries -> e_lecturer e ∉ scheduled).
Proof.
  revert scheduled. induction es as [|t es IH]; simpl; intros scheduled Hc.
  - exists []. split; [done|]. split; [constructor|]. intros e He. by apply elem_of_nil in He.
  - destruct t as [e0|]; simpl in Hc; [|discriminate].
    case_bool_decide as Hin; [discriminate|].
    destruct (lecturer_daily_hours tt day (e_lecturer e0)) as [h|]; simpl in Hc; [|discriminate].
    case_bool_decide; [discriminate|].
    destruct (IH _ Hc) as (entries & -> & Hnd & Hfresh).
    exists (e0 :: entries). split; [done|]. split.
    + simpl. constructor; [|done].
      intros Hdup. apply list_elem_of_fmap in Hdup as (e & Heq & He).
      apply (Hfresh e He). rewrite <- Heq. set_solver.
    + intros e He. apply elem_of_cons in He as [->|He]; [done|].
      intros Hs. apply (Hfresh e He). set_solver.
Qed.

(** X2. In a list cell of an accepted timetable no lecturer appears twice. *)
Lemma validate_lecturers_distinct tt data day slot es :
  validate_hard_constraints tt data = true ->
  slots tt day slot = CellList es ->
  exists entries, es = Some <$> entries /\ NoDup (e_lecturer <$> entries).
Proof.
  intros Hv Hcell.
  destruct (validate_true_checks _ _ Hv) as (_ & H2 & _).
  pose proof (on_list_cells_true _ _ H2 _ _ _ Hcell) as G. simpl in G.
  destruct (check_lecturer_entries_distinct _ _ _ _ G) as (entries & ? & ? & _).
  by exists entries.
Qed.

(** C6. The validator accepts a timetable in which a lecturer whose own
    [max_daily] is 1 teaches in two slots of Monday: the daily check
    compares the number of slots with [FACULTY_DAILY_MAX_HOURS = 8]. *)
Theorem validate_ignores_max_daily :
  validate_hard_constraints timetable_cap data_cap = true /\
  (forall l, l ∈ lecturers data_cap -> l_name l = "Ada" /\ l_max_daily l = 1) /\
  lecturer_day_sessions timetable_cap "Ada" Monday = 2.
Proof.
  split; [by vm_compute|]. split; [|by vm_compute].
  intros l Hl. unfold data_cap in Hl. simpl in Hl.
  apply list_elem_of_singleton in Hl as ->. done.
Qed.

(** A decidable property of the value that a computation returns can be
    established by evaluation. *)
Lemma Result_check {A} (r : Result A) (P : A -> Prop) `{forall a, Decision (P a)} :
  match r with Ok a => bool_decide (P a) | Raise _ => false end = true ->
  exists a, r = Ok a /\ P a.
Proof.
  destruct r as [a|e]; [|discriminate].
  intros HP. exists a. split; [done|]. by apply bool_decide_eq_true in HP.
Qed.

(** C1. The validator accepts the timetable of Scenario D, in which module
    M, whose only target program is SWE, sits in room R, whose
    [allowed_programs] is [["CS"]]; and with this domain data there are
    draws for which all 200 timetables that [initialize_population] returns
    hold M in R. *)
Theorem validate_ignores_allowed_programs :
  validate_hard_constraints timetable_D data_D = true /\
  slots timetable_D Monday S0800
    = CellList [Some {| e_module := "M"; e_lecturer := "Ada"; e_room := "R" |}] /\
  find_room data_D "R" = Some (RoomDict "R" 50 ["CS"]) /\
  (module_programs <$> find_module data_D "M") = Some ["SWE"] /\
  exists population,
    (initialize_population data_D (rng_of (fun _ => 0%N))).1 = Ok population /\
    length population = POPULATION_SIZE /\
    Forall (fun tt => slots tt Monday S0800
                      = CellList [Some {| e_module := "M"; e_lecturer := "Ada";
                                          e_room := "R" |}]) population.
Proof.
  split; [by vm_compute|]. split; [by vm_compute|].
  split; [by vm_compute|]. split; [by vm_compute|].
  apply (Result_check _ (fun population => _ /\ _)). by vm_compute.
Qed.

(** ** Properties of [initialize_population] *)

Lemma candidates_length data n r : length (candidates data n r).1 = n.
Proof.
  induction n as [|n IH]; simpl; [done|].
  rewrite length_app, IH. simpl. lia.
Qed.

(** The population after [n] iterations holds, in order, the candidates
    that pass. *)
Lemma population_after_candidates data n r :
  population_after data n r
  = (accepted data (candidates data n r).1, (candidates data n r).2).
Proof.
  unfold population_after.
  induction n as [|n IH]; [done|].
  rewrite Nat.iter_succ, IH. unfold candidate_step, accepted. simpl.
  destruct (build_candidate data (candidates data n r).2) as [[b|e] r'] eqn:Hb; simpl.
  - rewrite omap_app. simpl.
    destruct (validate_hard_constraints (freeze b) data); simpl; [done|].
    by rewrite app_nil_r.
  - rewrite omap_app. simpl. by rewrite app_nil_r.
Qed.

Lemma accepted_length data cs : (length (accepted data cs) <= length cs)%nat.
Proof.
  induction cs as [|c cs IH]; simpl; [done|].
  unfold accepted in *. simpl.
  destruct c as [b|]; [destruct (validate_hard_constraints (freeze b) data)|];
    simpl; lia.
Qed.

Lemma accepted_valid data cs :
  Forall (fun tt => validate_hard_constraints tt data = true) (accepted data cs).
Proof.
  induction cs as [|c cs IH]; [constructor|].
  unfold accepted in *. simpl.
  destruct c as [b|]; [|done].
  destruct (validate_hard_constraints (freeze b) data) eqn:Hv; [|done].
  by constructor.
Qed.

Lemma accepted_nil data cs :
  accepted data cs = [] <-> Forall (fun c => passes data c = false) cs.
Proof.
  induction cs as [|c cs IH].
  - split; [constructor|done].
  - unfold accepted in *. simpl. rewrite Forall_cons, <- IH.
    destruct c as [b|]; simpl.
    + destruct (validate_hard_constraints (freeze b) data); simpl; [|tauto].
      split; [discriminate|]. intros [? _]. discriminate.
    + tauto.
Qed.

(** C3 as stated fails: for the ten modules of [data_ten] and these draws
    the initializer returns normally, and its population has 189 members,
    not 200.  A candidate is dropped when the placement loop gives up on
    a module whose remaining free cells lie on a day that the module
    already uses: the module stays under-scheduled and the validator
    rejects the candidate. *)
Lemma initialize_population_smaller :
  exists population,
    (initialize_population data_ten (rng_of (fun n => n))).1 = Ok population /\
    length population = 189%nat /\
    length population <> POPULATION_SIZE.
Proof.
  apply (Result_check _ (fun population => _ /\ _)). by vm_compute.
Qed.

(** C3, amended.  [POPULATION_SIZE] candidates are generated.  When the
    initializer returns, its population is the list of those candidates
    that pass [validate_hard_constraints]: between 1 and [POPULATION_SIZE]
    timetables, each of which the validator accepts.  It raises exactly
    when none of the candidates passes. *)
Theorem initialize_population_accepted (data : Data) (r : Rng) :
  let cs := (candidates data POPULATION_SIZE r).1 in
  length cs = POPULATION_SIZE /\
  match (initialize_population data r).1 with
  | Ok population =>
      population = accepted data cs /\
      (1 <= length population <= POPULATION_SIZE)%nat /\
      Forall (fun tt => validate_hard_constraints tt data = true) population
  | Raise e => e = ValueError "Failed to initialize any valid timetables"
  end /\
  ((exists e, (initialize_population data r).1 = Raise e)
   <-> Forall (fun c => passes data c = false) cs).
Proof.
  intros cs.
  assert (length cs = POPULATION_SIZE) as Hlen by apply candidates_length.
  split; [exact Hlen|].
  unfold initialize_population. rewrite population_after_candidates. fold cs.
  pose proof (accepted_length data cs) as Hle.
  pose proof (accepted_valid data cs) as Hval.
  pose proof (accepted_nil data cs) as Hnil.
  destruct (accepted data cs) as [|tt population] eqn:Hacc; cbn [fst].
  - split; [reflexivity|]. split; [intros _; by apply Hnil|by eexists].
  - split.
    + split; [reflexivity|]. split; [|exact Hval].
      cbn [length] in *. rewrite Hlen in Hle. lia.
    + split; [intros [e ?]; discriminate|].
      intros Hnone. apply Hnil in Hnone. discriminate.
Qed.

(** ** Computations that draw *)

Lemma bindM_Ok {A B} (m : M A) (f : A -> M B) r b r' :
  bindM m f r = (Ok b, r') ->
  exists a r1, m r = (Ok a, r1) /\ f a r1 = (Ok b, r').
Proof.
  unfold bindM. destruct (m r) as [[a|e] r1]; [|discriminate].
  intros H. by exists a, r1.
Qed.

Lemma retM_Ok {A} (a b : A) r r' : retM a r = (Ok b, r') -> a = b /\ r = r'.
Proof. unfold retM. by intros [= -> ->]. Qed.

Lemma liftR_Ok {A} (x : Result A) a r r' : liftR x r = (Ok a, r') -> x = Ok a /\ r = r'.
Proof. unfold liftR. by intros [= -> ->]. Qed.

Lemma random_choice_elem {A} (l : list A) r x r' :
  random_choice l r = (Ok x, r') -> x ∈ l.
Proof.
  destruct l as [|y l]; [discriminate|].
  unfold random_choice. intros H.
  apply bindM_Ok in H as (n & r1 & _ & H). apply retM_Ok in H as [<- _].
  apply list_elem_of_In, nth_In.
  pose proof (N.mod_lt n (N.of_nat (length (y :: l)))) as Hlt.
  simpl in *. lia.
Qed.

Lemma foldM_invariant {A B} (P : A -> Prop) (f : A -> B -> M A) (l : list B) :
  (forall a x r a' r', P a -> x ∈ l -> f a x r = (Ok a', r') -> P a') ->
  forall a r a' r', P a -> foldM f l a r = (Ok a', r') -> P a'.
Proof.
  induction l as [|x l IH]; simpl; intros Hstep a r a' r' Ha Hfold.
  - apply retM_Ok in Hfold as [<- _]. done.
  - apply bindM_Ok in Hfold as (a1 & r1 & Hf & Hfold).
    eapply IH; [|eapply Hstep; [exact Ha| |exact Hf]|exact Hfold].
    + intros ? ? ? ? ? ? ?. apply Hstep; [done|]. by apply list_elem_of_further.
    + apply list_elem_of_here.
Qed.

(** ** Entries placed by the initializer *)

Lemma grid_set_eq {A} (g : Grid A) day slot v : grid_set g day slot v day slot = v.
Proof. unfold grid_set. by rewrite decide_True. Qed.

Lemma grid_set_ne {A} (g : Grid A) day slot v d s :
  (d, s) ≠ (day, slot) -> grid_set g day slot v d s = g d s.
Proof.
  intros Hne. unfold grid_set. rewrite decide_False; [done|].
  intros [-> ->]. by apply Hne.
Qed.

Lemma add_entry_slots b day slot entry lid d s e :
  e ∈ b_slots (add_entry b day slot entry lid) d s ->
  e ∈ b_slots b d s \/ (e = entry /\ d = day /\ s = slot).
Proof.
  unfold add_entry. simpl. unfold grid_set.
  case_decide as Hd.
  - destruct Hd as [-> ->]. rewrite elem_of_app, list_elem_of_singleton. tauto.
  - tauto.
Qed.





(** ** A module that no lecturer can teach *)


Lemma candidates_all_fail data (P : Result Building -> Prop) n r :
  (forall r0, P (build_candidate data r0).1) ->
  Forall P (candidates data n r).1.
Proof.
  intros HP. induction n as [|n IH]; simpl; [constructor|].
  apply Forall_app. split; [done|]. constructor; [apply HP|constructor].
Qed.

Lemma initialize_population_raises data r :
  Forall (fun c => passes data c = false) (candidates data POPULATION_SIZE r).1 ->
  (initialize_population data r).1
  = Raise (ValueError "Failed to initialize any valid timetables").
Proof.
  intros Hnone. apply accepted_nil in Hnone.
  unfold initialize_population. rewrite population_after_candidates, Hnone. done.
Qed.

Lemma generate_timetable_init_raises data r e :
  (initialize_population data r).1 = Raise e ->
  (generate_timetable data r).1 = None.
Proof.
  intros Hinit. unfold generate_timetable, generate_timetable_body, bindM.
  destruct (initialize_population data r) as [res r']. simpl in Hinit. by subst res.
Qed.



(** ** Properties of [crossover] *)

Lemma foldR_invariant {A B} (P : A -> Prop) (f : A -> B -> Result A) (l : list B) :
  (forall a x a', P a -> f a x = Ok a' -> P a') ->
  forall a a', P a -> foldR f l a = Ok a' -> P a'.
Proof.
  intros Hstep. induction l as [|x l IH]; simpl; intros a a' Ha Hfold.
  - by injection Hfold as <-.
  - destruct (f a x) as [a1|] eqn:Hf; simpl in Hfold; [|discriminate].
    eapply IH; [|exact Hfold]. by eapply Hstep.
Qed.

Lemma getitem_Ok `{Countable K} {V} (d : gmap K V) key v :
  getitem d key = Ok v -> d !! key = Some v.
Proof. unfold getitem. destruct (d !! key); [by intros [= ->]|discriminate]. Qed.

(** No requirement is recorded for the empty code. *)
Lemma module_requirements_code data code required :
  module_requirements data !! code = Some required -> code ≠ "".
Proof.
  unfold module_requirements.
  assert (forall ms (acc : gmap string Z),
             acc !! "" = None ->
             foldl (fun acc module =>
                      if bool_decide (m_code module = "") then acc
                      else <[m_code module := required_sessions module]> acc) acc ms
               !! "" = None) as Hempty.
  { induction ms as [|m ms IH]; simpl; intros acc Hacc; [done|].
    apply IH. case_bool_decide; [done|]. by rewrite lookup_insert_ne. }
  intros Hreq ->. by rewrite Hempty in Hreq.
Qed.

(** With pairwise distinct codes, the requirement recorded for the code of
    a module is the one of that module. *)
Lemma module_requirements_unique data module :
  NoDup (m_code <$> modules data) ->
  module ∈ modules data ->
  m_code module ≠ "" ->
  module_requirements data !! m_code module = Some (required_sessions module).
Proof.
  unfold module_requirements.
  set (f := fun (acc : gmap string Z) m =>
              if bool_decide (m_code m = "") then acc
              else <[m_code m := required_sessions m]> acc).
  assert (forall ms acc code, code ∉ m_code <$> ms -> foldl f acc ms !! code = acc !! code)
    as Hother.
  { induction ms as [|m ms IH]; simpl; intros acc code Hcode; [done|].
    apply not_elem_of_cons in Hcode as [Hne Hcode].
    rewrite IH by done. unfold f. case_bool_decide; [done|]. by rewrite lookup_insert_ne. }
  generalize (∅ : gmap string Z).
  induction (modules data) as [|m ms IH]; simpl; intros acc Hnd Hin Hcode.
  - by apply elem_of_nil in Hin.
  - apply NoDup_cons in Hnd as [Hfresh Hnd].
    apply elem_of_cons in Hin as [->|Hin].
    + rewrite Hother by done. unfold f.
      rewrite bool_decide_eq_false_2 by done. by rewrite lookup_insert_eq.
    + by apply IH.
Qed.

(** Whether a cell of the child holds a module, after an entry was added. *)
Lemma add_entry_has_module b day slot e lid code d s :
  cell_has_module code (slots (freeze (add_entry b day slot e lid)) d s)
  = cell_has_module code (slots (freeze b) d s)
    || (bool_decide ((d, s) = (day, slot)) && bool_decide (e_module e = code)).
Proof.
  simpl. unfold grid_set. case_decide as Hd.
  - destruct Hd as [-> ->]. rewrite bool_decide_eq_true_2 by done.
    rewrite map_app, existsb_app. simpl. by rewrite orb_false_r.
  - rewrite (bool_decide_eq_false_2 ((d, s) = (day, slot))); [by rewrite orb_false_r|].
    intros [= -> ->]. by apply Hd.
Qed.

Lemma filter_length_le_S `{EqDecision A} (f g : A -> bool) (x : A) (l : list A) :
  NoDup l ->
  (forall y, y ≠ x -> g y = f y) ->
  (length (List.filter g l) <= S (length (List.filter f l)))%nat.
Proof.
  intros Hnd Hext.
  assert (forall l, x ∉ l -> List.filter g l = List.filter f l) as Hsame.
  { clear Hnd l. induction l as [|y l IH]; simpl; intros Hx; [done|].
    apply not_elem_of_cons in Hx as [Hne Hx]. rewrite Hext, IH by done. done. }
  induction l as [|y l IH]; simpl; [lia|].
  apply NoDup_cons in Hnd as [Hy Hnd].
  destruct (decide (y = x)) as [->|Hne].
  - rewrite Hsame by done. destruct (g x), (f x); simpl; lia.
  - rewrite Hext by done. specialize (IH Hnd). destruct (f y); simpl; lia.
Qed.

Lemma all_cells_NoDup : NoDup all_cells.
Proof. apply (bool_decide_unpack _). by vm_compute. Qed.

Lemma add_entry_sessions b day slot e lid code :
  scheduled_sessions (freeze (add_entry b day slot e lid)) code
  <= scheduled_sessions (freeze b) code + (if decide (e_module e = code) then 1 else 0).
Proof.
  unfold scheduled_sessions, module_cells.
  destruct (decide (e_module e = code)) as [Heq|Hne].
  - pose proof (filter_length_le_S
                  (fun ds : Day * Slot => cell_has_module code (slots (freeze b) ds.1 ds.2))
                  (fun ds : Day * Slot =>
                     cell_has_module code (slots (freeze (add_entry b day slot e lid)) ds.1 ds.2))
                  (day, slot) all_cells all_cells_NoDup) as Hle.
    assert (forall y : Day * Slot, y ≠ (day, slot) ->
              cell_has_module code (slots (freeze (add_entry b day slot e lid)) y.1 y.2)
              = cell_has_module code (slots (freeze b) y.1 y.2)) as Hext.
    { intros [d s] Hy. rewrite add_entry_has_module.
      rewrite (bool_decide_eq_false_2 ((d, s) = (day, slot))) by done.
      by rewrite orb_false_r. }
    specialize (Hle Hext). lia.
  - rewrite (filter_ext
               (fun ds : Day * Slot =>
                  cell_has_module code (slots (freeze (add_entry b day slot e lid)) ds.1 ds.2))
               (fun ds : Day * Slot => cell_has_module code (slots (freeze b) ds.1 ds.2)));
      [lia|].
    intros [d s]. rewrite add_entry_has_module.
    rewrite (bool_decide_eq_false_2 (e_module e = code)) by done.
    by rewrite andb_false_r, orb_false_r.
Qed.

Lemma cross_inv_init data :
  cross_inv data {| child := new_timetable data; assigned_sessions := ∅ |}.
Proof.
  split; simpl.
  - intros code. unfold scheduled_sessions, module_cells.
    rewrite (filter_ext _ (fun _ => false)) by done.
    assert (forall l : list (Day * Slot), List.filter (fun _ => false) l = []) as ->
      by (induction l; simpl; auto).
    rewrite lookup_empty. simpl. lia.
  - intros code. rewrite lookup_empty. simpl. lia.
  - intros day slot e He. by apply elem_of_nil in He.
  - intros day slot e He. by apply elem_of_nil in He.
  - intros. constructor.
  - intros. constructor.
Qed.

Lemma truthy_grid_set (g : Grid (option string)) day slot code d s :
  code ≠ "" ->
  truthy (g d s) = true ->
  truthy (grid_set g day slot (Some code) d s) = true.
Proof.
  intros Hcode Ht. unfold grid_set. case_decide; [|done].
  simpl. by rewrite bool_decide_eq_false_2.
Qed.

(** The shape of one step of the copy loop: either nothing changes or the
    entry is appended to the cell. *)
Lemma crossover_entry_cases data day slot st entry st' :
  crossover_entry data day slot st entry = Ok st' ->
  st' = st \/
  exists e required l lg rg,
    entry = Some e /\
    module_requirements data !! e_module e = Some required /\
    default 0 (assigned_sessions st !! e_module e) < required /\
    existsb (fun t => bool_decide (e_module t = e_module e)) (b_slots (child st) day slot)
      = false /\
    find_lecturer data (e_lecturer e) = Some l /\
    b_lecturer_slots (child st) !! l_id l = Some lg /\ truthy (lg day slot) = false /\
    b_room_slots (child st) !! e_room e = Some rg /\ truthy (rg day slot) = false /\
    st' = {| child := add_entry (child st) day slot e (l_id l);
             assigned_sessions :=
               <[e_module e := default 0 (assigned_sessions st !! e_module e) + 1]>
                 (assigned_sessions st) |}.
Proof.
  unfold crossover_entry.
  destruct entry as [e|]; simpl; [|discriminate].
  destruct (getitem (module_requirements data) (e_module e)) as [required|] eqn:Hreq;
    simpl; [|discriminate].
  apply getitem_Ok in Hreq.
  case_bool_decide as Hlt; [|intros [= <-]; by left].
  destruct (existsb _ (b_slots (child st) day slot)) eqn:Hex; [intros [= <-]; by left|].
  destruct (find_lecturer data (e_lecturer e)) as [l|] eqn:Hl; [|intros [= <-]; by left].
  destruct (getitem (b_lecturer_slots (child st)) (l_id l)) as [lg|] eqn:Hlg;
    simpl; [|discriminate].
  apply getitem_Ok in Hlg.
  destruct (truthy (lg day slot)) eqn:Htl; [intros [= <-]; by left|].
  destruct (getitem (b_room_slots (child st)) (e_room e)) as [rg|] eqn:Hrg;
    simpl; [|discriminate].
  apply getitem_Ok in Hrg.
  destruct (truthy (rg day slot)) eqn:Htr; [intros [= <-]; by left|].
  intros [= <-]. right. by exists e, required, l, lg, rg.
Qed.

Lemma find_lecturer_name data name l : find_lecturer data name = Some l -> l_name l = name.
Proof.
  unfold find_lecturer. intros H. apply find_some in H as [_ H].
  by apply bool_decide_eq_true in H.
Qed.

Lemma crossover_entry_inv data day slot st entry st' :
  cross_inv data st ->
  crossover_entry data day slot st entry = Ok st' ->
  cross_inv data st'.
Proof.
  intros Hinv Hstep.
  apply crossover_entry_cases in Hstep
    as [->|(e & required & l & lg & rg & -> & Hreq & Hlt & Hex & Hl & Hlg & Htl & Hrg & Htr & ->)];
    [done|].
  pose proof (module_requirements_code _ _ _ Hreq) as Hcode.
  destruct Hinv as [I1 I2 I3 I4 I5 I6].
  split; simpl.
  - intros code.
    pose proof (add_entry_sessions (child st) day slot e (l_id l) code) as Hle.
    specialize (I1 code).
    destruct (decide (e_module e = code)) as [<-|Hne].
    + rewrite lookup_insert_eq. simpl. specialize (I1). lia.
    + rewrite lookup_insert_ne by done. lia.
  - intros code. destruct (decide (e_module e = code)) as [<-|Hne].
    + rewrite lookup_insert_eq, Hreq. simpl. lia.
    + rewrite lookup_insert_ne by done. apply I2.
  - intros d s e' He'. apply (add_entry_slots _ _ _ _ (l_id l)) in He' as [He'|(-> & -> & ->)].
    + destruct (I3 _ _ _ He') as (l' & g' & Hl' & Hg' & Ht').
      exists l'. destruct (decide (l_id l' = l_id l)) as [Hid|Hid].
      * exists (grid_set g' day slot (Some (e_module e))).
        split; [done|]. split; [|by apply truthy_grid_set].
        rewrite Hid in Hg' |- *. by rewrite lookup_alter_eq, Hg'.
      * exists g'. split; [done|]. split; [|done].
        by rewrite lookup_alter_ne.
    + exists l, (grid_set lg day slot (Some (e_module e))).
      split; [done|]. split; [by rewrite lookup_alter_eq, Hlg|].
      rewrite grid_set_eq. simpl. by rewrite bool_decide_eq_false_2.
  - intros d s e' He'. apply (add_entry_slots _ _ _ _ (l_id l)) in He' as [He'|(-> & -> & ->)].
    + destruct (I4 _ _ _ He') as (g' & Hg' & Ht').
      destruct (decide (e_room e' = e_room e)) as [Hid|Hid].
      * exists (grid_set g' day slot (Some (e_module e))).
        split; [|by apply truthy_grid_set].
        rewrite Hid in Hg' |- *. by rewrite lookup_alter_eq, Hg'.
      * exists g'. split; [|done]. by rewrite lookup_alter_ne.
    + exists (grid_set rg day slot (Some (e_module e))).
      split; [by rewrite lookup_alter_eq, Hrg|].
      rewrite grid_set_eq. simpl. by rewrite bool_decide_eq_false_2.
  - intros d s. unfold grid_set. case_decide as Hd; [|apply I5].
    destruct Hd as [-> ->]. rewrite fmap_app. apply NoDup_app.
    split; [apply I5|]. split; [|apply NoDup_singleton].
    intros name Hname Hdup. apply list_elem_of_singleton in Hdup as ->.
    apply list_elem_of_fmap in Hname as (e' & Hname & He').
    destruct (I3 _ _ _ He') as (l' & g' & Hl' & Hg' & Ht').
    rewrite <- Hname, Hl in Hl'. injection Hl' as <-.
    rewrite Hlg in Hg'. injection Hg' as <-. congruence.
  - intros d s. unfold grid_set. case_decide as Hd; [|apply I6].
    destruct Hd as [-> ->]. rewrite fmap_app. apply NoDup_app.
    split; [apply I6|]. split; [|apply NoDup_singleton].
    intros name Hname Hdup. apply list_elem_of_singleton in Hdup as ->.
    apply list_elem_of_fmap in Hname as (e' & Hname & He').
    destruct (I4 _ _ _ He') as (g' & Hg' & Ht').
    rewrite <- Hname, Hrg in Hg'. injection Hg' as <-. congruence.
Qed.

Lemma crossover_day_inv parent1 parent2 data st day r st' r' :
  cross_inv data st ->
  crossover_day parent1 parent2 data st day r = (Ok st', r') ->
  cross_inv data st'.
Proof.
  intros Hinv H. unfold crossover_day in H.
  apply bindM_Ok in H as (from_first & r1 & _ & H).
  apply liftR_Ok in H as [H _].
  revert H. apply foldR_invariant; [|done].
  intros st1 slot st2 Hinv1. unfold crossover_slot.
  apply foldR_invariant; [|done].
  intros st3 entry st4. apply crossover_entry_inv.
Qed.

Lemma crossover_inv parent1 parent2 data r c r' :
  crossover parent1 parent2 data r = (Ok c, r') ->
  exists assigned, cross_inv data {| child := c; assigned_sessions := assigned |}.
Proof.
  unfold crossover. intros H.
  apply bindM_Ok in H as ([c' assigned] & r1 & Hfold & H).
  apply retM_Ok in H as [<- _]. simpl. exists assigned.
  revert Hfold. apply foldM_invariant with (P := cross_inv data).
  - intros st day r0 st' r0' Hinv _. by apply crossover_day_inv.
  - apply cross_inv_init.
Qed.

(** *** Where the entries of the child come from *)

Lemma crossover_cell_origin data day slot es st st' :
  foldR (crossover_entry data day slot) es st = Ok st' ->
  (forall d s, (d, s) ≠ (day, slot) -> b_slots (child st') d s = b_slots (child st) d s) /\
  exists added,
    b_slots (child st') day slot = b_slots (child st) day slot ++ added /\
    (Some <$> added) `sublist_of` es.
Proof.
  revert st. induction es as [|entry es IH]; simpl; intros st Hfold.
  - injection Hfold as <-. split; [done|]. exists []. by rewrite app_nil_r.
  - destruct (crossover_entry data day slot st entry) as [st1|] eqn:Hstep;
      simpl in Hfold; [|discriminate].
    destruct (IH _ Hfold) as (Hother & added & Hcell & Hsub).
    apply crossover_entry_cases in Hstep
      as [->|(e & required & l & lg & rg & -> & _ & _ & _ & _ & _ & _ & _ & _ & ->)].
    + split; [done|]. exists added. split; [done|]. by apply sublist_cons.
    + split.
      * intros d s Hne. rewrite Hother by done. simpl. by rewrite grid_set_ne.
      * exists (e :: added). simpl in Hcell. rewrite grid_set_eq in Hcell.
        rewrite Hcell, <- app_assoc. split; [done|]. by apply sublist_skip.
Qed.

Lemma crossover_slots_origin data source day ss st st' :
  NoDup ss ->
  foldR (crossover_slot data source day) ss st = Ok st' ->
  (forall d s, d ≠ day \/ s ∉ ss -> b_slots (child st') d s = b_slots (child st) d s) /\
  (forall s, s ∈ ss ->
     exists added,
       b_slots (child st') day s = b_slots (child st) day s ++ added /\
       (Some <$> added) `sublist_of` source_entries (slots source day s)).
Proof.
  revert st. induction ss as [|slot ss IH]; simpl; intros st Hnd Hfold.
  - injection Hfold as <-. split; [done|]. intros s Hs. by apply elem_of_nil in Hs.
  - apply NoDup_cons in Hnd as [Hfresh Hnd].
    destruct (crossover_slot data source day st slot) as [st1|] eqn:Hstep;
      simpl in Hfold; [|discriminate].
    destruct (IH _ Hnd Hfold) as [Hother Hin].
    apply crossover_cell_origin in Hstep as (Hother1 & added & Hcell & Hsub).
    split.
    + intros d s Hds. rewrite Hother, Hother1; [done| |].
      * intros [= -> ->]. destruct Hds as [?|Hs]; [done|]. apply Hs, list_elem_of_here.
      * destruct Hds as [?|Hs]; [by left|]. right. intros ?. by apply Hs, list_elem_of_further.
    + intros s Hs. apply elem_of_cons in Hs as [->|Hs].
      * exists added. rewrite Hother by (by right). done.
      * destruct (Hin s Hs) as (added' & Hcell' & Hsub').
        exists added'. rewrite Hcell', Hother1; [done|].
        intros [= ->]. done.
Qed.

Lemma crossover_days_origin parent1 parent2 data days st r st' r' :
  NoDup days ->
  foldM (crossover_day parent1 parent2 data) days st r = (Ok st', r') ->
  (forall d s, d ∉ days -> b_slots (child st') d s = b_slots (child st) d s) /\
  (forall d, d ∈ days ->
     exists source, (source = parent1 \/ source = parent2) /\
       forall s, exists added,
         b_slots (child st') d s = b_slots (child st) d s ++ added /\
         (Some <$> added) `sublist_of` source_entries (slots source d s)).
Proof.
  revert st r. induction days as [|day days IH]; simpl; intros st r Hnd Hfold.
  - apply retM_Ok in Hfold as [<- _]. split; [done|]. intros d Hd. by apply elem_of_nil in Hd.
  - apply NoDup_cons in Hnd as [Hfresh Hnd].
    apply bindM_Ok in Hfold as (st1 & r1 & Hday & Hfold).
    destruct (IH _ _ Hnd Hfold) as [Hother Hin].
    unfold crossover_day in Hday.
    apply bindM_Ok in Hday as (from_first & r2 & _ & Hday).
    apply liftR_Ok in Hday as [Hday _].
    apply crossover_slots_origin in Hday as [Hother1 Hin1];
      [|apply (bool_decide_unpack _); by vm_compute].
    split.
    + intros d s Hd. apply not_elem_of_cons in Hd as [Hne Hd].
      rewrite Hother, Hother1 by auto. done.
    + intros d Hd. apply elem_of_cons in Hd as [->|Hd].
      * exists (if from_first then parent1 else parent2).
        split; [destruct from_first; auto|].
        intros s. destruct (Hin1 s (elem_of_TIME_SLOTS s)) as (added & Hcell & Hsub).
        exists added. by rewrite Hother.
      * destruct (Hin d Hd) as (source & Hsource & Hcells).
        exists source. split; [done|].
        intros s. destruct (Hcells s) as (added & Hcell & Hsub).
        exists added. rewrite Hcell, Hother1; [done|].
        left. intros ->. done.
Qed.

(** Every day of the child is copied from one of the two parents: each of
    its cells on that day is a subsequence of the parent's cell. *)
Lemma crossover_origin parent1 parent2 data r c r' :
  crossover parent1 parent2 data r = (Ok c, r') ->
  forall day,
    exists source, (source = parent1 \/ source = parent2) /\
      forall slot, (Some <$> b_slots c day slot)
                     `sublist_of` source_entries (slots source day slot).
Proof.
  unfold crossover. intros H day.
  apply bindM_Ok in H as (st & r1 & Hfold & H). apply retM_Ok in H as [<- _].
  apply crossover_days_origin in Hfold as [_ Hin];
    [|apply (bool_decide_unpack _); by vm_compute].
  destruct (Hin day (elem_of_DAYS day)) as (source & Hsource & Hcells).
  exists source. split; [done|].
  intros slot. destruct (Hcells slot) as (added & Hcell & Hsub).
  simpl in Hcell. by rewrite Hcell.
Qed.

Lemma sublist_Some_omap (l : list Entry) (es : list (option Entry)) :
  (Some <$> l) `sublist_of` es -> l `sublist_of` omap id es.
Proof.
  revert l. induction es as [|t es IH]; intros l Hsub.
  - apply sublist_nil_r in Hsub. destruct l; [constructor|discriminate].
  - apply sublist_cons_r in Hsub as [Hsub|(l' & Hl & Hsub)].
    + destruct t as [e|]; simpl; [apply sublist_cons|]; by apply IH.
    + destruct l as [|e l]; [discriminate|]. simpl in Hl. injection Hl as <- <-.
      simpl. apply sublist_skip. by apply IH.
Qed.

Lemma ForallOrdPairs_sublist {A} (R : A -> A -> Prop) (l1 l2 : list A) :
  l1 `sublist_of` l2 -> ForallOrdPairs R l2 -> ForallOrdPairs R l1.
Proof.
  induction 1 as [|x l1 l2 Hsub IH|x l1 l2 Hsub IH]; intros Hall.
  - constructor.
  - inversion Hall as [|? ? Hx Hrest]; subst. constructor; [|by apply IH].
    apply List.Forall_forall. intros y Hy.
    rewrite List.Forall_forall in Hx. apply Hx.
    apply list_elem_of_In. apply list_elem_of_In in Hy.
    by eapply elem_of_sublist.
  - inversion Hall; subst. by apply IH.
Qed.

(** Whenever [crossover] returns a child:
    - for every module code, the number of cells of the child that hold an
      entry for it is at most the session count that [crossover] records
      for the code; when the module codes of the data are pairwise
      distinct and no module has negative hours, this is [hours // 2] of
      the module, for every module;
    - in every cell of the child, no two entries share a lecturer and no
      two entries share a room;
    - in every cell of the child, no two entries belong to modules that
      share a target group, provided this holds in every cell of both
      parents. *)
Lemma crossover_child_constraints
    (parent1 parent2 : Timetable) (data : Data) (r : Rng) (c : Building) :
  (crossover parent1 parent2 data r).1 = Ok c ->
  (forall code,
      scheduled_sessions (freeze c) code
      <= Z.max 0 (default 0 (module_requirements data !! code))) /\
  (NoDup (m_code <$> modules data) ->
   (forall module, module ∈ modules data -> 0 <= module_hours module) ->
   forall module, module ∈ modules data ->
     Z.of_nat (length (module_cells (freeze c) (m_code module))) <= module_hours module / 2) /\
  (forall day slot,
      NoDup (e_lecturer <$> b_slots c day slot) /\
      NoDup (e_room <$> b_slots c day slot)) /\
  (timetable_group_free data parent1 ->
   timetable_group_free data parent2 ->
   forall day slot, group_free data (b_slots c day slot)).
Proof.
  intros Hc.
  destruct (crossover parent1 parent2 data r) as [res r'] eqn:Hcross.
  simpl in Hc. subst res.
  destruct (crossover_inv _ _ _ _ _ _ Hcross) as (assigned & [I1 I2 _ _ I5 I6]).
  simpl in *.
  assert (forall code,
             scheduled_sessions (freeze c) code
             <= Z.max 0 (default 0 (module_requirements data !! code))) as Hbound.
  { intros code. specialize (I1 code). specialize (I2 code). lia. }
  split; [exact Hbound|]. split; [|split].
  - intros Hnd Hhours module Hin.
    fold (scheduled_sessions (freeze c) (m_code module)).
    fold (required_sessions module).
    specialize (Hbound (m_code module)).
    assert (0 <= required_sessions module) as Hreq.
    { unfold required_sessions. apply Z.div_pos; [by apply Hhours|lia]. }
    destruct (decide (m_code module = "")) as [Hempty|Hcode].
    + destruct (module_requirements data !! m_code module) as [required|] eqn:Hlook.
      * apply module_requirements_code in Hlook. done.
      * simpl in Hbound. lia.
    + rewrite (module_requirements_unique data module) in Hbound by done.
      simpl in Hbound. lia.
  - intros day slot. split; [apply I5|apply I6].
  - intros Hfree1 Hfree2 day slot.
    destruct (crossover_origin _ _ _ _ _ _ Hcross day) as (source & Hsource & Hsub).
    apply (ForallOrdPairs_sublist _ _ (omap id (source_entries (slots source day slot)))).
    + apply sublist_Some_omap, Hsub.
    + destruct Hsource as [->| ->]; [apply Hfree1|apply Hfree2].
Qed.

(** ** Properties of [mutate] *)

Lemma mutate_pick_Ok r :
  exists day slot r', mutate_pick r = (Ok (day, slot), r').
Proof.
  unfold mutate_pick, random_choice, bindM, draw, retM, DAYS, TIME_SLOTS. simpl.
  by eexists _, _, _.
Qed.

Lemma mutate_clear_slots tt data day slot :
  slots (mutate_clear tt data day slot).1 = grid_set (slots tt) day slot (CellList []).
Proof.
  unfold mutate_clear.
  destruct (clear_index (map l_id (lecturers data)) (lecturer_slots tt) day slot)
    as [ls [e|]]; done.
Qed.

(** After the call the timetable differs from the one before in the chosen
    cell only, which holds no entry or the one new entry. *)
Lemma mutate_slots tt data r :
  exists day slot r1 cell,
    mutate_pick r = (Ok (day, slot), r1) /\
    (cell = CellList [] \/ exists e, cell = CellList [Some e]) /\
    forall d s, slots (mutate tt data r).1.2 d s = grid_set (slots tt) day slot cell d s.
Proof.
  destruct (mutate_pick_Ok r) as (day & slot & r1 & Hpick).
  exists day, slot, r1. unfold mutate. rewrite Hpick.
  pose proof (mutate_clear_slots tt data day slot) as Hclear.
  destruct (mutate_clear tt data day slot) as [tt1 [e|]]; simpl in Hclear.
  { exists (CellList []). simpl. rewrite Hclear. auto. }
  destruct (mutate_select tt1 data day slot r1) as [[[[entry lid]|]|e] r2]; simpl.
  - exists (CellList [Some entry]). split; [done|]. split; [by right; eexists|].
    intros d s. rewrite Hclear, grid_set_eq. simpl.
    unfold grid_set. by case_decide.
  - exists (CellList []). rewrite Hclear. auto.
  - exists (CellList []). rewrite Hclear. auto.
Qed.

Lemma sum_single_change `{EqDecision A} (f g : A -> Z) (x : A) (l : list A) :
  NoDup l -> x ∈ l ->
  (forall y, y ≠ x -> g y = f y) ->
  foldr Z.add 0 (map g l) + f x = foldr Z.add 0 (map f l) + g x.
Proof.
  intros Hnd Hx Hext.
  assert (forall l, x ∉ l -> foldr Z.add 0 (map g l) = foldr Z.add 0 (map f l)) as Hsame.
  { clear Hnd Hx l. induction l as [|y l IH]; simpl; intros Hx; [done|].
    apply not_elem_of_cons in Hx as [Hne Hx]. rewrite Hext, IH by done. done. }
  induction l as [|y l IH]; simpl; [by apply elem_of_nil in Hx|].
  apply NoDup_cons in Hnd as [Hy Hnd].
  destruct (decide (y = x)) as [->|Hne].
  - rewrite Hsame by done. lia.
  - apply elem_of_cons in Hx as [->|Hx]; [done|].
    rewrite Hext by done. specialize (IH Hnd Hx). lia.
Qed.

(** C5 as stated fails: the timetable holds no entry, and after one call
    of [mutate] it holds one. *)
Lemma mutate_adds_entry :
  total_entries timetable_R = 0 /\
  (mutate timetable_R data_R (rng_of (fun n => n))).1.1 = Ok () /\
  total_entries (mutate timetable_R data_R (rng_of (fun n => n))).1.2 = 1.
Proof. repeat split; by vm_compute. Qed.

(** C5, amended.  One call of [mutate], however it ends, changes the
    chosen cell only and leaves at most one entry in it; so the total
    number of entries after the call is the total before, less the entries
    that the chosen cell held, plus the at most one entry that it holds
    now: at most one more than before, and not more than before when the
    chosen cell was not empty. *)
Theorem mutate_total_entries (tt : Timetable) (data : Data) (r : Rng) :
  exists day slot,
    (mutate_pick r).1 = Ok (day, slot) /\
    let tt' := (mutate tt data r).1.2 in
    (forall d s, (d, s) ≠ (day, slot) -> slots tt' d s = slots tt d s) /\
    cell_size (slots tt' day slot) <= 1 /\
    total_entries tt' + cell_size (slots tt day slot)
      = total_entries tt + cell_size (slots tt' day slot) /\
    total_entries tt' <= total_entries tt + 1 /\
    (1 <= cell_size (slots tt day slot) -> total_entries tt' <= total_entries tt).
Proof.
  destruct (mutate_slots tt data r) as (day & slot & r1 & cell & Hpick & Hcell & Hslots).
  exists day, slot. rewrite Hpick. split; [done|]. cbv zeta.
  set (tt' := (mutate tt data r).1.2) in *.
  assert (slots tt' day slot = cell) as Hnew by (rewrite Hslots; apply grid_set_eq).
  assert (forall d s, (d, s) ≠ (day, slot) -> slots tt' d s = slots tt d s) as Hother
    by (intros d s Hne; rewrite Hslots; by apply grid_set_ne).
  assert (0 <= cell_size (slots tt' day slot) <= 1) as Hsize.
  { rewrite Hnew. destruct Hcell as [->|[e ->]]; by vm_compute. }
  assert (0 <= cell_size (slots tt day slot)) as Hold by (unfold cell_size; lia).
  pose proof (sum_single_change
                (fun ds : Day * Slot => cell_size (slots tt ds.1 ds.2))
                (fun ds : Day * Slot => cell_size (slots tt' ds.1 ds.2))
                (day, slot) all_cells all_cells_NoDup (elem_of_all_cells day slot)) as Hsum.
  simpl in Hsum. fold (total_entries tt) (total_entries tt') in Hsum.
  assert (total_entries tt' + cell_size (slots tt day slot)
          = total_entries tt + cell_size (slots tt' day slot)) as Htotal.
  { apply Hsum. intros [d s] Hne. simpl. by rewrite Hother. }
  repeat split; try done; lia.
Qed.

(** C9. In the timetable of Scenario A without sessions, room R1 is free in
    every cell, its capacity of 50 covers the 30 students of the groups
    in the cell, and its [allowed_programs] is empty; the room search of
    [mutate] still rejects it for module M1, whose target program is CS,
    and finds no room at all, so that [mutate] places nothing. *)
Theorem mutate_rejects_unrestricted_room :
  find_room data_A "R1" = Some (RoomDict "R1" 50 []) /\
  module_students data_A module_A = 30 /\
  (forall day slot,
      (exists g, room_slots timetable_A0 !! "R1" = Some g /\ g day slot = None) /\
      slots timetable_A0 day slot = CellList [] /\
      mutate_room_ok timetable_A0 data_A day slot module_A (RoomDict "R1" 50 []) = Ok false /\
      mutate_available_rooms timetable_A0 data_A day slot module_A = Ok []) /\
  (mutate timetable_A0 data_A (rng_of (fun n => n))).1.1 = Ok () /\
  total_entries (mutate timetable_A0 data_A (rng_of (fun n => n))).1.2 = 0.
Proof.
  split; [by vm_compute|]. split; [by vm_compute|]. split; [|split; by vm_compute].
  intros day slot. split; [|split; [|split]].
  - eexists. split; [by vm_compute|]. done.
  - done.
  - destruct day, slot; by vm_compute.
  - destruct day, slot; by vm_compute.
Qed.

(** ** Properties of [generate_timetable] *)

Lemma index_of_lookup x scores i : index_of x scores = Some i -> scores !! i = Some x.
Proof.
  revert i. induction scores as [|y scores IH]; simpl; intros i Hi; [discriminate|].
  destruct (decide (y = x)) as [->|Hne].
  - by injection Hi as <-.
  - destruct (index_of x scores) as [j|]; [|discriminate].
    injection Hi as <-. simpl. by apply IH.
Qed.

(** What one pass of the generation loop does to the running best: it is
    replaced, and the stagnation counter reset, exactly when the greatest
    score of the pass is strictly greater than the running best; otherwise
    the counter grows by one; the pass ends the loop exactly when the
    counter has reached 20. *)
Lemma generation_step_tracking population data st r st' stop r' :
  generation_step population data st r = (Ok (st', stop), r') ->
  exists f fs,
    fitness_batch population data = f :: fs /\
    let max_fitness := fitness_max f fs in
    (if fitness_lt (best_fitness st) max_fitness
     then best_fitness st' = max_fitness /\
          best_timetable st'
            = index_of max_fitness (f :: fs) ≫= (fun i => population !! i) /\
          generations_without_improvement st' = 0
     else best_fitness st' = best_fitness st /\
          best_timetable st' = best_timetable st /\
          generations_without_improvement st'
            = generations_without_improvement st + 1) /\
    (stop = true <-> generations_without_improvement st' >= STAGNATION_LIMIT).
Proof.
  unfold generation_step.
  destruct (fitness_batch population data) as [|f fs] eqn:Hbatch; [discriminate|].
  intros H. exists f, fs. split; [done|]. cbv zeta.
  set (max_fitness := fitness_max f fs) in *.
  destruct (fitness_lt (best_fitness st) max_fitness);
    cbn [generations_without_improvement best_fitness best_timetable new_population] in H.
  - rewrite bool_decide_eq_false_2 in H by (unfold STAGNATION_LIMIT; lia).
    apply bindM_Ok in H as (bred & r1 & _ & H).
    apply retM_Ok in H as [[= <- <-] _]. simpl. split; [done|].
    split; [discriminate|unfold STAGNATION_LIMIT; lia].
  - case_bool_decide as Hstop.
    + apply retM_Ok in H as [[= <- <-] _]. simpl in *. done.
    + apply bindM_Ok in H as (bred & r1 & _ & H).
      apply retM_Ok in H as [[= <- <-] _]. simpl in *. split; [done|].
      split; [discriminate|done].
Qed.

Lemma generation_step_best population data st r st' stop r' :
  best_of population data st ->
  generation_step population data st r = (Ok (st', stop), r') ->
  best_of population data st'.
Proof.
  intros Hbest Hstep.
  apply generation_step_tracking in Hstep as (f & fs & Hbatch & Hupd & _).
  cbv zeta in Hupd.
  destruct (fitness_lt (best_fitness st) (fitness_max f fs)).
  - destruct Hupd as (_ & Ht & _). intros t Hsome. rewrite Ht in Hsome.
    destruct (index_of (fitness_max f fs) (f :: fs)) as [i|] eqn:Hi; [|discriminate].
    simpl in Hsome. exists i, f, fs. split; [done|]. split; [done|].
    by apply index_of_lookup.
  - destruct Hupd as (_ & Ht & _). intros t Hsome. rewrite Ht in Hsome. by apply Hbest.
Qed.

Lemma generation_loop_best population data n st r st' r' :
  best_of population data st ->
  generation_loop population data n st r = (Ok st', r') ->
  best_of population data st'.
Proof.
  revert st r. induction n as [|n IH]; simpl; intros st r Hbest H.
  - apply retM_Ok in H as [<- _]. done.
  - apply bindM_Ok in H as ([st1 stop] & r1 & Hstep & H).
    apply generation_step_best in Hstep; [|done].
    destruct stop; simpl in H.
    + apply retM_Ok in H as [<- _]. done.
    + by eapply IH.
Qed.

(** Whatever the draws, the timetable that [generate_timetable] returns is
    an individual of the population that [initialize_population] returned,
    with the greatest score of that population: the populations bred in
    the generations are never scored. *)
Lemma generate_timetable_returns_initial (data : Data) (r : Rng) (t : Timetable) :
  (generate_timetable data r).1 = Some t ->
  exists population i f fs,
    (initialize_population data r).1 = Ok population /\
    population !! i = Some t /\
    fitness_batch population data = f :: fs /\
    (f :: fs) !! i = Some (fitness_max f fs).
Proof.
  unfold generate_timetable, generate_timetable_body, bindM.
  destruct (initialize_population data r) as [[population|e] r0]; [|discriminate].
  destruct population as [|t0 population]; [discriminate|].
  set (pop := t0 :: population).
  destruct (generation_loop pop data GENERATIONS _ r0) as [[st|e] r1] eqn:Hloop;
    [|discriminate].
  apply generation_loop_best in Hloop; [|intros ? ?; discriminate].
  destruct (new_population st); [|discriminate].
  simpl. intros Hbest.
  destruct (Hloop t Hbest) as (i & f & fs & Hi & Hbatch & Hmax).
  by exists pop, i, f, fs.
Qed.

(** The general statement, for every input: what [generate_timetable]
    returns is nothing or an individual of the initial population that
    has the greatest score of that population. *)
Lemma generate_timetable_from_initial (data : Data) (r : Rng) :
  match (generate_timetable data r).1 with
  | None => True
  | Some t =>
      exists population,
        (initialize_population data r).1 = Ok population /\
        t ∈ population /\
        match calculate_fitness t data with Ok f => Some f | Raise _ => None end
          = greatest (fitness_batch population data)
  end.
Proof.
  destruct (generate_timetable data r).1 as [t|] eqn:Hgen; [|done].
  destruct (generate_timetable_returns_initial _ _ _ Hgen)
    as (population & i & f & fs & Hinit & Hi & Hbatch & Hmax).
  exists population. split; [done|]. split; [by eapply list_elem_of_lookup_2|].
  rewrite Hbatch. simpl.
  rewrite <- Hbatch in Hmax. unfold fitness_batch in Hmax.
  rewrite list_lookup_fmap, Hi in Hmax. simpl in Hmax. by injection Hmax.
Qed.

(** A run in which the first bred population beats the initial one. *)
Lemma bred_scores_spec (data : Data) (r : Rng) (lo hi : Z) :
  bred_scores data r lo hi = true ->
  (initialize_population data r).1 = Ok (initial_population data r) /\
  greatest (fitness_batch (initial_population data r) data) = Some lo /\
  (exists st1 bred child,
      first_generation data r = Ok (st1, false) /\
      best_fitness st1 = Some lo /\
      generations_without_improvement st1 = 0 /\
      new_population st1 = Some bred /\
      child ∈ bred /\
      calculate_fitness child data = Ok hi) /\
  (forall t, (generate_timetable data r).1 = Some t ->
             t ∈ initial_population data r /\ calculate_fitness t data = Ok lo).
Proof.
  unfold bred_scores, initial_population at 1 2 5.
  destruct (initialize_population data r).1 as [population|e] eqn:Hinit; [|discriminate].
  intros Hcheck.
  apply andb_true_iff in Hcheck as [Hgreatest Hcheck].
  apply bool_decide_eq_true in Hgreatest.
  assert (initial_population data r = population) as Hpop
    by (unfold initial_population; by rewrite Hinit).
  rewrite Hpop in *.
  split; [done|]. split; [done|]. split.
  - destruct (first_generation data r) as [[st1 [|]]|]; try discriminate.
    apply andb_true_iff in Hcheck as [Hcheck Hbred].
    apply andb_true_iff in Hcheck as [Hbest Hcount].
    apply bool_decide_eq_true in Hbest, Hcount.
    destruct (new_population st1) as [bred|] eqn:Hnew; [|discriminate].
    apply existsb_exists in Hbred as (child & Hin & Hfit).
    apply bool_decide_eq_true in Hfit. apply list_elem_of_In in Hin.
    by exists st1, bred, child.
  - intros t Hgen.
    pose proof (generate_timetable_from_initial data r) as Hfrom.
    rewrite Hgen in Hfrom. destruct Hfrom as (population' & Hinit' & Hin & Hscore).
    rewrite Hinit in Hinit'. injection Hinit' as <-. split; [done|].
    rewrite Hgreatest in Hscore.
    destruct (calculate_fitness t data) as [f|]; [|discriminate].
    by injection Hscore as ->.
Qed.

(** C7. For the data with one module of six hours: the initial population
    scores 900 at best; the first pass of the generation loop takes that
    score as the running best, resets the stagnation counter, does not
    stop, and breeds a new population that holds an individual scoring
    1000; yet a timetable that [generate_timetable] returns is an
    individual of the initial population and scores 900, because every
    pass scores the initial population again. *)
Theorem generate_timetable_ignores_bred :
  (initialize_population data_H rng_H).1 = Ok (initial_population data_H rng_H) /\
  greatest (fitness_batch (initial_population data_H rng_H) data_H) = Some 900 /\
  (exists st1 bred child,
      first_generation data_H rng_H = Ok (st1, false) /\
      best_fitness st1 = Some 900 /\
      generations_without_improvement st1 = 0 /\
      new_population st1 = Some bred /\
      child ∈ bred /\
      calculate_fitness child data_H = Ok 1000) /\
  (forall t, (generate_timetable data_H rng_H).1 = Some t ->
             t ∈ initial_population data_H rng_H /\ calculate_fitness t data_H = Ok 900).
Proof.
  apply (bred_scores_spec data_H rng_H 900 1000). vm_compute. reflexivity.
Qed.

(** * Further properties of the validator *)

Lemma check_room_entries_distinct scheduled es :
  check_room_entries scheduled es = Ok true ->
  exists entries, es = Some <$> entries /\
                  NoDup (e_room <$> entries) /\
                  (forall e, e ∈ entries -> e_room e ∉ scheduled).
Proof.
  revert scheduled. induction es as [|t es IH]; simpl; intros scheduled Hc.
  - exists []. split; [done|]. split; [constructor|]. intros e He. by apply elem_of_nil in He.
  - destruct t as [e0|]; simpl in Hc; [|discriminate].
    case_bool_decide as Hin; [discriminate|].
    destruct (IH _ Hc) as (entries & -> & Hnd & Hfresh).
    exists (e0 :: entries). split; [done|]. split.
    + simpl. constructor; [|done].
      intros Hdup. apply list_elem_of_fmap in Hdup as (e & Heq & He).
      apply (Hfresh e He). rewrite <- Heq. apply list_elem_of_here.
    + intros e He. apply elem_of_cons in He as [->|He]; [done|].
      intros Hs. apply (Hfresh e He). by apply list_elem_of_further.
Qed.

(** X3. In a list cell of an accepted timetable no room appears twice. *)
Theorem validate_rooms_distinct (tt : Timetable) (data : Data) (day : Day) (slot : Slot)
    (es : list (option Entry)) :
  validate_hard_constraints tt data = true ->
  slots tt day slot = CellList es ->
  exists entries, es = Some <$> entries /\ NoDup (e_room <$> entries).
Proof.
  intros Hv Hcell.
  destruct (validate_true_checks _ _ Hv) as (_ & _ & H3 & _).
  pose proof (on_list_cells_true _ _ H3 _ _ _ Hcell) as G. simpl in G.
  destruct (check_room_entries_distinct _ _ G) as (entries & ? & ? & _).
  by exists entries.
Qed.

Lemma validate_rooms_distinct_witness :
  exists entries,
    [Some entry_A] = Some <$> entries /\ NoDup (e_room <$> entries).
Proof.
  apply (validate_rooms_distinct timetable_A data_A Monday S0800).
  - vm_compute. reflexivity.
  - vm_compute. reflexivity.
Defined.

(** The groups that the entries of a cell bring together. *)
Lemma add_groups_spec scheduled gs scheduled' :
  add_groups scheduled gs = Some scheduled' ->
  scheduled' = reverse gs ++ scheduled /\ NoDup gs /\ (forall g, g ∈ gs -> g ∉ scheduled).
Proof.
  revert scheduled. induction gs as [|g gs IH]; simpl; intros scheduled H.
  - injection H as <-. split; [done|]. split; [constructor|].
    intros g Hg. by apply elem_of_nil in Hg.
  - case_bool_decide as Hin; [discriminate|].
    destruct (IH _ H) as (-> & Hnd & Hfresh).
    split; [by rewrite reverse_cons, <- app_assoc|]. split.
    + constructor; [|done]. intros Hg. apply (Hfresh g Hg), list_elem_of_here.
    + intros g' Hg'. apply elem_of_cons in Hg' as [->|Hg']; [done|].
      intros Hs. apply (Hfresh g' Hg'). by apply list_elem_of_further.
Qed.

Lemma check_group_entries_disjoint data scheduled es :
  check_group_entries data scheduled es = Ok true ->
  exists entries,
    es = Some <$> entries /\
    (forall e, e ∈ entries -> is_Some (find_module data (e_module e))) /\
    NoDup (concat (map (fun e => groups_of data (e_module e)) entries)) /\
    (forall g, g ∈ concat (map (fun e => groups_of data (e_module e)) entries) ->
               g ∉ scheduled).
Proof.
  revert scheduled. induction es as [|t es IH]; simpl; intros scheduled Hc.
  - exists []. split; [done|]. split; [intros e He; by apply elem_of_nil in He|].
    split; [constructor|]. intros g Hg. by apply elem_of_nil in Hg.
  - destruct t as [e0|]; simpl in Hc; [|discriminate].
    destruct (find_module data (e_module e0)) as [m|] eqn:Hm; [|discriminate].
    destruct (add_groups scheduled (m_target_groups m)) as [scheduled'|] eqn:Hadd;
      [|discriminate].
    apply add_groups_spec in Hadd as (-> & Hnd0 & Hfresh0).
    destruct (IH _ Hc) as (entries & -> & Hfound & Hnd & Hfresh).
    exists (e0 :: entries). split; [done|].
    assert (groups_of data (e_module e0) = m_target_groups m) as Hg0
      by (unfold groups_of; by rewrite Hm).
    split; [|split].
    + intros e He. apply elem_of_cons in He as [->|He]; [by rewrite Hm|by apply Hfound].
    + simpl. rewrite Hg0. apply NoDup_app. split; [done|]. split; [|done].
      intros g Hg Hg'. apply (Hfresh g Hg'). apply elem_of_app. left.
      by apply elem_of_reverse.
    + simpl. rewrite Hg0. intros g Hg. apply elem_of_app in Hg as [Hg|Hg].
      * by apply Hfresh0.
      * intros Hs. apply (Hfresh g Hg). apply elem_of_app. by right.
Qed.

Lemma NoDup_concat_group_free data (entries : list Entry) :
  NoDup (concat (map (fun e => groups_of data (e_module e)) entries)) ->
  group_free data entries.
Proof.
  unfold group_free. induction entries as [|e entries IH]; simpl; intros Hnd.
  - constructor.
  - apply NoDup_app in Hnd as (_ & Hdisj & Hnd).
    constructor; [|by apply IH].
    apply List.Forall_forall. intros e' He' (g & Hg & Hg').
    apply (Hdisj g Hg). apply list_elem_of_In, in_concat.
    exists (groups_of data (e_module e')). split; [|by apply list_elem_of_In].
    apply in_map_iff. by exists e'.
Qed.

(** X1. In a list cell of an accepted timetable the target groups of the
    modules of the entries, taken together, hold no group twice; hence no
    two entries belong to modules that share a target group. *)
Theorem validate_groups_disjoint (tt : Timetable) (data : Data) (day : Day) (slot : Slot)
    (es : list (option Entry)) :
  validate_hard_constraints tt data = true ->
  slots tt day slot = CellList es ->
  exists entries,
    es = Some <$> entries /\
    NoDup (concat (map (fun e => groups_of data (e_module e)) entries)) /\
    group_free data entries.
Proof.
  intros Hv Hcell.
  destruct (validate_true_checks _ _ Hv) as (H1 & _).
  pose proof (on_list_cells_true _ _ H1 _ _ _ Hcell) as G. simpl in G.
  destruct (check_group_entries_disjoint _ _ _ G) as (entries & ? & _ & Hnd & _).
  exists entries. split; [done|]. split; [done|]. by apply NoDup_concat_group_free.
Qed.

Lemma validate_groups_disjoint_witness :
  exists entries,
    [Some entry_A] = Some <$> entries /\
    NoDup (concat (map (fun e => groups_of data_A (e_module e)) entries)) /\
    group_free data_A entries.
Proof.
  apply (validate_groups_disjoint timetable_A data_A Monday S0800).
  - vm_compute. reflexivity.
  - vm_compute. reflexivity.
Defined.

Lemma validate_lecturers_distinct_witness :
  exists entries,
    [Some entry_A] = Some <$> entries /\ NoDup (e_lecturer <$> entries).
Proof.
  apply (validate_lecturers_distinct timetable_A data_A Monday S0800).
  - vm_compute. reflexivity.
  - vm_compute. reflexivity.
Defined.

Lemma check_capacity_entry_fits data t :
  check_capacity_entry data t = Ok true ->
  exists e room module,
    t = Some e /\
    find_room data (e_room e) = Some room /\
    room_falsy (Some room) = false /\
    find_module data (e_module e) = Some module /\
    module_students data module <= room_capacity_validate room.
Proof.
  unfold check_capacity_entry. destruct t as [e|]; cbn -[room_falsy]; [|discriminate].
  destruct (find_room data (e_room e)) as [room|] eqn:Hr; [|discriminate].
  destruct (room_falsy (Some room)) eqn:Hf; [intros; discriminate|].
  destruct (find_module data (e_module e)) as [m|] eqn:Hm; [|intros; discriminate].
  case_bool_decide; [intros; discriminate|].
  intros _. exists e, room, m. repeat split; try done.
Qed.

(** X4. Every entry of a list cell of an accepted timetable sits in a room of
    the domain data whose capacity (30 for a room given as a bare name)
    is at least the number of students of the target groups of the entry's
    module. *)
Theorem validate_capacity (tt : Timetable) (data : Data) (day : Day) (slot : Slot)
    (es : list (option Entry)) (e : Entry) :
  validate_hard_constraints tt data = true ->
  slots tt day slot = CellList es ->
  Some e ∈ es ->
  exists room module,
    find_room data (e_room e) = Some room /\
    find_module data (e_module e) = Some module /\
    module_students data module
    <= match room with RoomDict _ capacity _ => capacity | RoomStr _ => 30 end.
Proof.
  intros Hv Hcell Hin.
  destruct (validate_true_checks _ _ Hv) as (_ & _ & _ & H4 & _).
  pose proof (on_list_cells_true _ _ H4 _ _ _ Hcell) as G. simpl in G.
  destruct (check_capacity_entry_fits _ _ (all_pass_true _ _ G _ Hin))
    as (e' & room & m & [= <-] & Hr & _ & Hm & Hle).
  exists room, m. by destruct room.
Qed.

Lemma validate_capacity_witness :
  exists room module,
    find_room data_A (e_room entry_A) = Some room /\
    find_module data_A (e_module entry_A) = Some module /\
    module_students data_A module
    <= match room with RoomDict _ capacity _ => capacity | RoomStr _ => 30 end.
Proof.
  apply (validate_capacity timetable_A data_A Monday S0800 [Some entry_A]).
  - vm_compute. reflexivity.
  - vm_compute. reflexivity.
  - apply list_elem_of_here.
Defined.

(** X5. For every entry of a list cell of an accepted timetable, the first
    lecturer of the domain data who bears the entry's lecturer name lists
    the entry's module among the modules he or she teaches. *)
Theorem validate_qualified (tt : Timetable) (data : Data) (day : Day) (slot : Slot)
    (es : list (option Entry)) (e : Entry) :
  validate_hard_constraints tt data = true ->
  slots tt day slot = CellList es ->
  Some e ∈ es ->
  exists lecturer,
    find_lecturer data (e_lecturer e) = Some lecturer /\
    lecturer ∈ lecturers data /\
    l_name lecturer = e_lecturer e /\
    e_module e ∈ lecturer_modules lecturer.
Proof.
  intros Hv Hcell Hin.
  destruct (validate_true_checks _ _ Hv) as (_ & _ & _ & _ & H5 & _).
  pose proof (on_list_cells_true _ _ H5 _ _ _ Hcell) as G. simpl in G.
  destruct (check_qualified_entry_found _ _ (all_pass_true _ _ G _ Hin))
    as (e' & l & [= <-] & Hl & Hq).
  exists l. split; [done|]. split; [|split; [by eapply find_lecturer_name|done]].
  unfold find_lecturer in Hl. apply find_some in Hl as [Hl _]. by apply list_elem_of_In.
Qed.

Lemma validate_qualified_witness :
  exists lecturer,
    find_lecturer data_A (e_lecturer entry_A) = Some lecturer /\
    lecturer ∈ lecturers data_A /\
    l_name lecturer = e_lecturer entry_A /\
    e_module entry_A ∈ lecturer_modules lecturer.
Proof.
  apply (validate_qualified timetable_A data_A Monday S0800 [Some entry_A]).
  - vm_compute. reflexivity.
  - vm_compute. reflexivity.
  - apply list_elem_of_here.
Defined.

(** *** The validator on timetables built from lists *)

Lemma all_pass_intro {A} (f : A -> Result bool) (l : list A) :
  (forall x, x ∈ l -> f x = Ok true) -> all_pass f l = Ok true.
Proof.
  induction l as [|x l IH]; simpl; intros Hall; [done|].
  rewrite Hall by apply list_elem_of_here.
  apply IH. intros y Hy. apply Hall. by apply list_elem_of_further.
Qed.

Lemma on_list_cells_freeze b f :
  on_list_cells (freeze b) f = Ok true <->
  forall day slot, f day slot (Some <$> b_slots b day slot) = Ok true.
Proof.
  split.
  - intros H day slot. by apply (on_list_cells_true _ _ H day slot).
  - intros H. apply all_pass_intro. intros [day slot] _. simpl. apply H.
Qed.

Lemma add_groups_complete scheduled gs :
  NoDup gs -> (forall g, g ∈ gs -> g ∉ scheduled) ->
  add_groups scheduled gs = Some (reverse gs ++ scheduled).
Proof.
  revert scheduled. induction gs as [|g gs IH]; simpl; intros scheduled Hnd Hfresh; [done|].
  apply NoDup_cons in Hnd as [Hg Hnd].
  rewrite bool_decide_eq_false_2 by (apply Hfresh, list_elem_of_here).
  rewrite IH; [by rewrite reverse_cons, <- app_assoc|done|].
  intros g' Hg' Hin. apply elem_of_cons in Hin as [->|Hin]; [done|].
  by apply (Hfresh g' (list_elem_of_further _ _ _ Hg')).
Qed.

Lemma check_group_entries_complete data scheduled (entries : list Entry) :
  (forall e, e ∈ entries -> is_Some (find_module data (e_module e))) ->
  NoDup (concat (map (fun e => groups_of data (e_module e)) entries)) ->
  (forall g, g ∈ concat (map (fun e => groups_of data (e_module e)) entries) ->
             g ∉ scheduled) ->
  check_group_entries data scheduled (Some <$> entries) = Ok true.
Proof.
  revert scheduled. induction entries as [|e entries IH]; simpl;
    intros scheduled Hfound Hnd Hfresh; [done|].
  destruct (Hfound e (list_elem_of_here _ _)) as [m Hm].
  assert (groups_of data (e_module e) = m_target_groups m) as Hg
    by (unfold groups_of; by rewrite Hm).
  rewrite Hg in Hnd, Hfresh. rewrite Hm.
  apply NoDup_app in Hnd as (Hnd0 & Hdisj & Hnd).
  rewrite add_groups_complete; [|done|].
  - apply IH; [|done|].
    + intros e' He'. apply Hfound. by apply list_elem_of_further.
    + intros g Hg' Hin. apply elem_of_app in Hin as [Hin|Hin].
      * rewrite elem_of_reverse in Hin. by apply (Hdisj g Hin).
      * apply (Hfresh g); [|done]. apply elem_of_app. by right.
  - intros g Hg'. apply Hfresh. apply elem_of_app. by left.
Qed.

Lemma any_lecturer_Some name (entries : list Entry) :
  any_lecturer name (Some <$> entries)
  = Ok (existsb (fun e => bool_decide (e_lecturer e = name)) entries).
Proof.
  induction entries as [|e entries IH]; csimpl; [done|].
  case_bool_decide; [done|]. by rewrite IH.
Qed.

(** On a timetable built from lists the daily count of the validator is
    the one of the initializer, a number from 0 to 4. *)
Lemma lecturer_daily_hours_freeze b day name :
  lecturer_daily_hours (freeze b) day name = Ok (building_daily_hours b day name) /\
  0 <= building_daily_hours b day name <= 4.
Proof.
  unfold lecturer_daily_hours, building_daily_hours, TIME_SLOTS. simpl.
  rewrite !any_lecturer_Some. simpl.
  repeat match goal with
         | |- context [existsb ?f ?l] => destruct (existsb f l)
         end; simpl; split; (reflexivity || lia).
Qed.

Lemma check_lecturer_entries_complete b day scheduled (entries : list Entry) :
  NoDup (e_lecturer <$> entries) ->
  (forall e, e ∈ entries -> e_lecturer e ∉ scheduled) ->
  check_lecturer_entries (freeze b) day scheduled (Some <$> entries) = Ok true.
Proof.
  revert scheduled. induction entries as [|e entries IH];
    intros scheduled Hnd Hfresh; [done|].
  cbn [fmap list_fmap check_lecturer_entries subscript mbind Result_bind].
  simpl in Hnd. apply NoDup_cons in Hnd as [He Hnd].
  rewrite bool_decide_eq_false_2 by (apply Hfresh, list_elem_of_here).
  destruct (lecturer_daily_hours_freeze b day (e_lecturer e)) as [-> Hle].
  cbn [mbind Result_bind].
  rewrite bool_decide_eq_false_2 by (unfold FACULTY_DAILY_MAX_HOURS; lia).
  apply IH; [done|].
  intros e' He' Hin. apply elem_of_cons in Hin as [Heq|Hin].
  - apply He. rewrite <- Heq. apply list_elem_of_fmap. by exists e'.
  - by apply (Hfresh e' (list_elem_of_further _ _ _ He')).
Qed.

Lemma check_room_entries_complete scheduled (entries : list Entry) :
  NoDup (e_room <$> entries) ->
  (forall e, e ∈ entries -> e_room e ∉ scheduled) ->
  check_room_entries scheduled (Some <$> entries) = Ok true.
Proof.
  revert scheduled. induction entries as [|e entries IH]; simpl;
    intros scheduled Hnd Hfresh; [done|].
  apply NoDup_cons in Hnd as [He Hnd].
  rewrite bool_decide_eq_false_2 by (apply Hfresh, list_elem_of_here).
  apply IH; [done|].
  intros e' He' Hin. apply elem_of_cons in Hin as [Heq|Hin].
  - apply He. rewrite <- Heq. apply list_elem_of_fmap. by exists e'.
  - by apply (Hfresh e' (list_elem_of_further _ _ _ He')).
Qed.

Lemma validate_checks_true tt data :
  check_student_groups tt data = Ok true ->
  check_lecturers tt = Ok true ->
  check_rooms tt = Ok true ->
  check_capacity tt data = Ok true ->
  check_qualifications tt data = Ok true ->
  forallb (check_module_hours tt) (modules data) = true ->
  validate_hard_constraints tt data = true.
Proof.
  intros H1 H2 H3 H4 H5 H6.
  unfold validate_hard_constraints, validate_checks. simpl.
  by rewrite H1, H2, H3, H4, H5, H6.
Qed.

Lemma daily_counts_unique tt code day :
  (forall s1 s2,
      cell_has_module code (slots tt day s1) = true ->
      cell_has_module code (slots tt day s2) = true -> s1 = s2) ->
  daily_counts tt code day <= 1.
Proof.
  unfold daily_counts, TIME_SLOTS. simpl. intros Huniq.
  destruct (cell_has_module code (slots tt day S0800)) eqn:H0;
  destruct (cell_has_module code (slots tt day S1000)) eqn:H1;
  destruct (cell_has_module code (slots tt day S1200)) eqn:H2;
  destruct (cell_has_module code (slots tt day S1400)) eqn:H3;
  simpl; try lia;
  first [ discriminate (Huniq S0800 S1000 H0 H1) | discriminate (Huniq S0800 S1200 H0 H2)
        | discriminate (Huniq S0800 S1400 H0 H3) | discriminate (Huniq S1000 S1200 H1 H2)
        | discriminate (Huniq S1000 S1400 H1 H3) | discriminate (Huniq S1200 S1400 H2 H3) ].
Qed.

(** X6. The validator accepts a timetable built from lists exactly when the
    timetable meets the six demands of [valid_timetable]. *)
Theorem validate_characterised (data : Data) (b : Building) :
  validate_hard_constraints (freeze b) data = true <-> valid_timetable data b.
Proof.
  split.
  - intros Hv.
    destruct (validate_true_checks _ _ Hv) as (H1 & H2 & H3 & H4 & H5 & H6).
    unfold check_student_groups, check_lecturers, check_rooms, check_capacity,
      check_qualifications in H1, H2, H3, H4, H5.
    rewrite on_list_cells_freeze in H1, H2, H3, H4, H5.
    split.
    + intros day slot.
      destruct (check_group_entries_disjoint _ _ _ (H1 day slot))
        as (entries & Heq & Hfound & Hnd & _).
      apply (inj (fmap Some)) in Heq. by subst entries.
    + intros day slot.
      destruct (check_lecturer_entries_distinct _ _ _ _ (H2 day slot))
        as (entries & Heq & Hnd & _).
      apply (inj (fmap Some)) in Heq. by subst entries.
    + intros day slot.
      destruct (check_room_entries_distinct _ _ (H3 day slot)) as (entries & Heq & Hnd & _).
      apply (inj (fmap Some)) in Heq. by subst entries.
    + intros day slot e He.
      assert (Some e ∈ Some <$> b_slots b day slot) as Hin
        by (apply list_elem_of_fmap; by exists e).
      destruct (check_capacity_entry_fits _ _ (all_pass_true _ _ (H4 day slot) _ Hin))
        as (e' & room & m & [= <-] & Hr & Hf & Hm & Hle).
      exists room, m. split; [done|]. split; [|split; [done|by destruct room]].
      intros ->. by vm_compute in Hf.
    + intros day slot e He.
      assert (Some e ∈ Some <$> b_slots b day slot) as Hin
        by (apply list_elem_of_fmap; by exists e).
      destruct (check_qualified_entry_found _ _ (all_pass_true _ _ (H5 day slot) _ Hin))
        as (e' & l & [= <-] & Hl & Hq).
      by exists l.
    + intros module Hin Hcode.
      destruct (accepted_module_sessions _ _ _ Hv Hin Hcode) as [Hs Hd].
      split; [exact Hs|].
      intros day s1 s2 Hc1 Hc2. apply module_cells_spec in Hc1, Hc2.
      by apply (daily_counts_le_1 (freeze b) (m_code module) day).
  - intros [V1 V2 V3 V4 V5 V6].
    apply validate_checks_true.
    + apply on_list_cells_freeze. intros day slot.
      destruct (V1 day slot) as [Hfound Hnd].
      apply check_group_entries_complete; [done|done|].
      intros g _ Hg. by apply elem_of_nil in Hg.
    + apply on_list_cells_freeze. intros day slot.
      apply check_lecturer_entries_complete; [apply V2|].
      intros e _ He. by apply elem_of_nil in He.
    + apply on_list_cells_freeze. intros day slot.
      apply check_room_entries_complete; [apply V3|].
      intros e _ He. by apply elem_of_nil in He.
    + apply on_list_cells_freeze. intros day slot. apply all_pass_intro.
      intros t Ht. apply list_elem_of_fmap in Ht as (e & -> & He).
      destruct (V4 _ _ _ He) as (room & m & Hr & Hne & Hm & Hle).
      unfold check_capacity_entry. cbn -[room_falsy]. rewrite Hr, Hm.
      assert (room_falsy (Some room) = false) as ->.
      { destruct room as [? ? ?|n]; [done|]. simpl.
        apply bool_decide_eq_false_2. intros ->. done. }
      rewrite bool_decide_eq_false_2; [done|]. destruct room; simpl; lia.
    + apply on_list_cells_freeze. intros day slot. apply all_pass_intro.
      intros t Ht. apply list_elem_of_fmap in Ht as (e & -> & He).
      destruct (V5 _ _ _ He) as (l & Hl & Hq).
      unfold check_qualified_entry. simpl. rewrite Hl.
      by rewrite bool_decide_eq_true_2.
    + apply forallb_forall. intros module Hin. apply list_elem_of_In in Hin.
      unfold check_module_hours. case_bool_decide as Hcode; [done|].
      destruct (V6 module Hin Hcode) as [Hs Hd].
      rewrite bool_decide_eq_false_2; [|intros Hne; by apply Hne].
      apply forallb_forall. intros day _. apply negb_true_iff, bool_decide_eq_false_2.
      assert (daily_counts (freeze b) (m_code module) day <= 1); [|lia].
      apply daily_counts_unique. intros s1 s2 Hc1 Hc2.
      apply (Hd day); by apply module_cells_spec.
Qed.


(** * Further properties of [generate_timetable] *)

Lemma initialize_population_valid data r population :
  (initialize_population data r).1 = Ok population ->
  Forall (fun t => validate_hard_constraints t data = true) population.
Proof.
  unfold initialize_population. rewrite population_after_candidates.
  pose proof (accepted_valid data (candidates data POPULATION_SIZE r).1) as Hval.
  destruct (accepted data (candidates data POPULATION_SIZE r).1) as [|t0 rest];
    cbn [fst]; [discriminate|].
  by intros [= <-].
Qed.

(** X19. Whatever [generate_timetable] returns, if it returns a timetable at
    all, is accepted by [validate_hard_constraints]. *)
Theorem generate_timetable_accepted (data : Data) (r : Rng) :
  match (generate_timetable data r).1 with
  | Some t => validate_hard_constraints t data = true
  | None => True
  end.
Proof.
  destruct (generate_timetable data r).1 as [t|] eqn:Hgen; [|done].
  destruct (generate_timetable_returns_initial _ _ _ Hgen)
    as (population & i & f & fs & Hinit & Hi & _).
  apply initialize_population_valid in Hinit.
  rewrite Forall_forall in Hinit. apply Hinit. by eapply list_elem_of_lookup_2.
Qed.

Lemma fitness_lt_irrefl f : fitness_lt f f = false.
Proof. destruct f as [x|]; simpl; [|done]. apply bool_decide_eq_false_2. lia. Qed.

Lemma generation_loop_S population data n st r :
  generation_loop population data (S n) st r
  = match generation_step population data st r with
    | (Ok res, r') =>
        if res.2 : bool then (Ok res.1, r') else generation_loop population data n res.1 r'
    | (Raise e, r') => (Raise e, r')
    end.
Proof.
  cbn [generation_loop]. unfold bindM.
  destruct (generation_step population data st r) as [[[st1 [|]]|e] r']; reflexivity.
Qed.

(** A pass that cannot improve on the running best. *)
Lemma generation_step_stagnant population data f fs st r :
  fitness_batch population data = f :: fs ->
  fitness_lt (best_fitness st) (fitness_max f fs) = false ->
  generation_step population data st r
  = if bool_decide (generations_without_improvement st + 1 >= STAGNATION_LIMIT)
    then (Ok ({| best_fitness := best_fitness st;
                 best_timetable := best_timetable st;
                 generations_without_improvement := generations_without_improvement st + 1;
                 new_population := new_population st |}, true), r)
    else match breed population (f :: fs) data POPULATION_SIZE [] r with
         | (Ok bred, r') =>
             (Ok ({| best_fitness := best_fitness st;
                     best_timetable := best_timetable st;
                     generations_without_improvement :=
                       generations_without_improvement st + 1;
                     new_population := Some bred |}, false), r')
         | (Raise e, r') => (Raise e, r')
         end.
Proof.
  intros Hbatch Hlt. unfold generation_step. rewrite Hbatch, Hlt.
  cbn [generations_without_improvement best_fitness best_timetable new_population].
  case_bool_decide; [reflexivity|].
  unfold bindM.
  destruct (breed population (f :: fs) data POPULATION_SIZE [] r) as [[bred|e] r'];
    reflexivity.
Qed.

(** Once the running best cannot be beaten, the loop ends within the
    passes that the stagnation counter still allows. *)
Lemma generation_loop_stagnant population data f fs :
  fitness_batch population data = f :: fs ->
  forall (j : nat) st r k,
    fitness_lt (best_fitness st) (fitness_max f fs) = false ->
    STAGNATION_LIMIT - generations_without_improvement st <= Z.of_nat (S j) ->
    generation_loop population data (S j + k) st r
    = generation_loop population data (S j) st r.
Proof.
  intros Hbatch. induction j as [|j IH]; intros st r k Hlt Hc.
  - change (1 + k)%nat with (S k).
    rewrite !generation_loop_S, (generation_step_stagnant _ _ f fs) by done.
    rewrite bool_decide_eq_true_2 by lia. reflexivity.
  - change (S (S j) + k)%nat with (S (S j + k)).
    rewrite (generation_loop_S _ _ (S j + k)), (generation_loop_S _ _ (S j)).
    rewrite (generation_step_stagnant _ _ f fs) by done.
    case_bool_decide as Hstop; [reflexivity|].
    destruct (breed population (f :: fs) data POPULATION_SIZE [] r) as [[bred|e] r1];
      [|reflexivity].
    cbn [snd fst]. apply IH; cbn [best_fitness generations_without_improvement]; [done|lia].
Qed.

(** The first pass on the initial state. *)
Lemma generation_step_first population data f fs r :
  fitness_batch population data = f :: fs ->
  exists st1,
    fitness_lt (best_fitness st1) (fitness_max f fs) = false /\
    0 <= generations_without_improvement st1 <= 1 /\
      generation_step population data initial_state r
      = match breed population (f :: fs) data POPULATION_SIZE [] r with
        | (Ok bred, r') =>
            (Ok ({| best_fitness := best_fitness st1;
                    best_timetable := best_timetable st1;
                    generations_without_improvement := generations_without_improvement st1;
                    new_population := Some bred |}, false), r')
        | (Raise e, r') => (Raise e, r')
        end.
Proof.
  intros Hbatch. unfold generation_step. rewrite Hbatch.
  cbn [initial_state best_fitness generations_without_improvement best_timetable
       new_population].
  destruct (fitness_lt None (fitness_max f fs)) eqn:Hlt.
  - exists {| best_fitness := fitness_max f fs;
              best_timetable :=
                index_of (fitness_max f fs) (f :: fs) ≫= (fun i => population !! i);
              generations_without_improvement := 0;
              new_population := None |}.
    cbn [best_fitness generations_without_improvement best_timetable new_population].
    split; [apply fitness_lt_irrefl|]. split; [lia|].
    rewrite bool_decide_eq_false_2 by (unfold STAGNATION_LIMIT; lia).
    unfold bindM.
    destruct (breed population (f :: fs) data POPULATION_SIZE [] r) as [[bred|e] r'];
      reflexivity.
  - exists {| best_fitness := None; best_timetable := None;
              generations_without_improvement := 0 + 1; new_population := None |}.
    cbn [best_fitness generations_without_improvement best_timetable new_population].
    split; [done|]. split; [lia|].
    rewrite bool_decide_eq_false_2 by (unfold STAGNATION_LIMIT; lia).
    unfold bindM.
    destruct (breed population (f :: fs) data POPULATION_SIZE [] r) as [[bred|e] r'];
      reflexivity.
Qed.

Lemma generation_loop_from_initial population data r (j k : nat) :
  (19 <= j)%nat ->
  generation_loop population data (S (S j) + k) initial_state r
  = generation_loop population data (S (S j)) initial_state r.
Proof.
  intros Hj.
  change (S (S j) + k)%nat with (S (S j + k)).
  rewrite (generation_loop_S _ _ (S j + k)), (generation_loop_S _ _ (S j)).
  destruct (fitness_batch population data) as [|f fs] eqn:Hbatch.
  { unfold generation_step. rewrite Hbatch. reflexivity. }
  destruct (generation_step_first population data f fs r Hbatch) as (st1 & Hlt & Hc & Hstep).
  rewrite Hstep.
  destruct (breed population (f :: fs) data POPULATION_SIZE [] r) as [[bred|e] r1];
    [|reflexivity].
  cbn [snd fst].
  apply (generation_loop_stagnant population data f fs Hbatch j);
    cbn [best_fitness generations_without_improvement];
    [done|unfold STAGNATION_LIMIT; lia].
Qed.

(** X21. The generation loop never makes more than 21 passes: from the initial
    state, any number of allowed generations from 21 on gives the same
    run, so the 1000 allowed generations have the effect of 21. *)
Theorem generation_loop_21_passes (population : list Timetable) (data : Data) (r : Rng)
    (k : nat) :
  generation_loop population data (21 + k) initial_state r
  = generation_loop population data 21 initial_state r.
Proof. exact (generation_loop_from_initial population data r 19 k (le_n 19)). Qed.

(** In particular the 1000 generations that [generate_timetable] allows
    give the run that 21 would give. *)
Theorem GENERATIONS_as_21 (population : list Timetable) (data : Data) (r : Rng) :
  generation_loop population data GENERATIONS initial_state r
  = generation_loop population data 21 initial_state r.
Proof. exact (generation_loop_from_initial population data r 19 979 (le_n 19)). Qed.


(** * Properties of [tournament_selection] *)

Lemma draw_Ok r : exists n r', draw r = (Ok n, r').
Proof. unfold draw. by eexists _, _. Qed.

Lemma random_choice_Ok {A} (l : list A) r :
  l ≠ [] -> exists x r', random_choice l r = (Ok x, r').
Proof.
  destruct l as [|y l]; [done|]. intros _.
  unfold random_choice, bindM, draw, retM. by eexists _, _.
Qed.

(** [random.sample(l, k)] with [k <= len(l)] returns [k] items taken from
    distinct positions of [l]. *)
Lemma random_sample_spec {A} (k : nat) :
  forall (l : list A) r,
    (k <= length l)%nat ->
    exists s r', random_sample l k r = (Ok s, r') /\ length s = k /\ s ⊆+ l.
Proof.
  induction k as [|k IH]; intros l r Hk.
  - exists [], r. split; [done|]. split; [done|]. apply submseteq_nil_l.
  - destruct l as [|x l]; [simpl in Hk; lia|].
    cbn [random_sample]. unfold bindM at 1. unfold draw.
    set (n := draws r (pos r)). set (r1 := {| draws := draws r; pos := N.succ (pos r) |}).
    set (i := N.to_nat (n mod N.of_nat (length (x :: l)))).
    assert (i < length (x :: l))%nat as Hi.
    { unfold i. pose proof (N.mod_lt n (N.of_nat (length (x :: l)))). simpl in *. lia. }
    destruct (lookup_lt_is_Some_2 (x :: l) i Hi) as [y Hy].
    assert (length (take i (x :: l) ++ drop (S i) (x :: l)) = length l) as Hlen.
    { rewrite length_app, length_take, length_drop. simpl in *. lia. }
    destruct (IH (take i (x :: l) ++ drop (S i) (x :: l)) r1) as (s & r' & Hs & Hls & Hsub).
    { rewrite Hlen. simpl in Hk. lia. }
    exists (y :: s), r'. unfold bindM. rewrite Hs. unfold retM.
    rewrite (nth_lookup_Some _ _ _ _ Hy).
    split; [done|]. split; [simpl; lia|].
    rewrite <- (take_drop_middle (x :: l) i y Hy).
    rewrite <- Permutation_middle. by apply submseteq_skip.
Qed.

Lemma fitness_max_elem f fs : fitness_max f fs ∈ f :: fs.
Proof.
  unfold fitness_max. revert f. induction fs as [|x fs IH]; intros f; simpl.
  - apply list_elem_of_here.
  - destruct (fitness_lt f x).
    + apply list_elem_of_further, IH.
    + specialize (IH f). apply elem_of_cons in IH as [->|IH].
      * apply list_elem_of_here.
      * by do 2 apply list_elem_of_further.
Qed.

Lemma fitness_lt_le_trans a b c :
  fitness_lt a b = false -> fitness_lt b c = false -> fitness_lt a c = false.
Proof.
  destruct a as [x|], b as [y|], c as [z|]; simpl; try done.
  intros H1 H2. apply bool_decide_eq_false in H1, H2. apply bool_decide_eq_false. lia.
Qed.

Lemma fitness_lt_false_flip a b : fitness_lt a b = true -> fitness_lt b a = false.
Proof.
  destruct a as [x|], b as [y|]; simpl; try done.
  intros H. apply bool_decide_eq_true in H. apply bool_decide_eq_false. lia.
Qed.

(** No score of the list is greater than [max(scores)]. *)
Lemma fitness_max_greatest f fs x :
  x ∈ f :: fs -> fitness_lt (fitness_max f fs) x = false.
Proof.
  unfold fitness_max.
  assert (forall fs f, fitness_lt
                         (foldl (fun best x => if fitness_lt best x then x else best) f fs) f
                       = false) as Hmono.
  { clear. induction fs as [|y fs IH]; intros f; simpl; [apply fitness_lt_irrefl|].
    destruct (fitness_lt f y) eqn:Hlt; [|apply IH].
    eapply fitness_lt_le_trans; [apply IH|]. by apply fitness_lt_false_flip. }
  revert f. induction fs as [|y fs IH]; intros f Hx; simpl.
  - apply list_elem_of_singleton in Hx as ->. apply fitness_lt_irrefl.
  - apply elem_of_cons in Hx as [->|Hx].
    + destruct (fitness_lt f y) eqn:Hlt; [|apply Hmono].
      eapply fitness_lt_le_trans; [apply Hmono|]. by apply fitness_lt_false_flip.
    + destruct (fitness_lt f y) eqn:Hlt.
      * apply IH. done.
      * apply elem_of_cons in Hx as [->|Hx].
        -- eapply fitness_lt_le_trans; [apply Hmono|done].
        -- apply IH. by apply list_elem_of_further.
Qed.

Lemma index_of_elem x scores : x ∈ scores -> is_Some (index_of x scores).
Proof.
  induction scores as [|y scores IH]; intros Hx; [by apply elem_of_nil in Hx|].
  simpl. destruct (decide (y = x)) as [|Hne]; [by eexists|].
  apply elem_of_cons in Hx as [->|Hx]; [done|].
  destruct (IH Hx) as [i ->]. by eexists.
Qed.

(** The positions that a tournament can draw from. *)
Lemma valid_indices_spec (population : list Timetable) (scores : list Fitness) i :
  i ∈ List.filter (fun i => bool_decide (i < length scores)%nat) (seq 0 (length population))
  <-> (i < length population)%nat /\ (i < length scores)%nat.
Proof.
  rewrite list_elem_of_In, filter_In, in_seq, bool_decide_eq_true. lia.
Qed.

Lemma valid_indices_length (m n start : nat) :
  length (List.filter (fun i => bool_decide (i < m)%nat) (seq start n))
  = Nat.min n (m - start).
Proof.
  revert start. induction n as [|n IH]; intros start; [done|].
  cbn [seq List.filter]. case_bool_decide as Hlt.
  - cbn [length]. rewrite IH. lia.
  - rewrite IH. lia.
Qed.

(** What a call of [tournament_selection] on a population that is not
    empty does: it draws a sample of distinct positions, as many as the
    tournament size allows, and returns the individual at the position of
    the sample whose score no other position of the sample beats.  When
    there are no scores it returns some individual of the population. *)
Lemma tournament_selection_cases population scores r :
  population ≠ [] ->
  exists t r',
    tournament_selection population scores r = (Ok t, r') /\
    t ∈ population /\
    (scores = [] \/
     exists sample w,
       NoDup sample /\
       length sample = Nat.min tournament_size (Nat.min (length population) (length scores)) /\
       (forall i, i ∈ sample -> (i < length population)%nat /\ (i < length scores)%nat) /\
       w ∈ sample /\
       population !! w = Some t /\
       (forall i, i ∈ sample ->
          fitness_lt (default None (scores !! w)) (default None (scores !! i)) = false) /\
       ((length population <= tournament_size)%nat ->
        forall i, (i < length population)%nat -> (i < length scores)%nat -> i ∈ sample)).
Proof.
  intros Hne. unfold tournament_selection.
  set (valid := List.filter (fun i => bool_decide (i < length scores)%nat)
                            (seq 0 (length population))).
  assert (NoDup valid) as Hnd
    by (apply NoDup_ListNoDup, List.NoDup_filter, seq_NoDup).
  assert (length valid = Nat.min (length population) (length scores)) as Hlen.
  { unfold valid. rewrite valid_indices_length. lia. }
  assert (forall i, i ∈ valid -> (i < length population)%nat /\ (i < length scores)%nat)
    as Hvalid by (intros i; apply valid_indices_spec).
  destruct valid as [|v0 valid'] eqn:Hv.
  - destruct population as [|t0 population']; [done|].
    destruct (random_choice_Ok (t0 :: population') r) as (t & r' & Hc); [done|].
    exists t, r'. split; [done|]. split; [by eapply random_choice_elem|].
    left. simpl in Hlen. destruct scores; [done|simpl in Hlen; lia].
  - rewrite <- Hv in *.
    destruct (random_sample_spec (Nat.min tournament_size (length valid)) valid r)
      as (sample & r' & Hs & Hls & Hsub); [lia|].
    unfold bindM. rewrite Hs.
    assert (NoDup sample) as Hnds.
    { apply submseteq_Permutation in Hsub as [rest Hrest].
      rewrite Hrest in Hnd. by apply NoDup_app in Hnd as [? _]. }
    assert (forall i, i ∈ sample -> i ∈ valid) as Hin
      by (intros i Hi; eapply elem_of_submseteq; eauto).
    destruct sample as [|i0 sample'] eqn:Hsample.
    { rewrite Hv in Hls. unfold tournament_size in Hls. simpl in Hls. lia. }
    rewrite <- Hsample in *.
    set (score := fun i : nat => default None (scores !! i)).
    assert (map score sample = score i0 :: map score sample') as Hmap by (by rewrite Hsample).
    cbv zeta. fold score. rewrite Hmap. cbv beta iota.
    pose proof (fitness_max_elem (score i0) (map score sample')) as Hmax.
    destruct (index_of_elem _ _ Hmax) as [k Hk].
    unfold Fitness in *. rewrite Hk.
    pose proof (index_of_lookup _ _ _ Hk) as Hlook.
    rewrite <- Hmap in Hlook.
    rewrite list_lookup_fmap in Hlook.
    destruct (sample !! k) as [w|] eqn:Hw; [|done].
    simpl in Hlook. injection Hlook as Hlook.
    assert (w ∈ sample) as Hws by (eapply list_elem_of_lookup_2; eauto).
    destruct (Hvalid w (Hin w Hws)) as [Hwp Hwsc].
    destruct (lookup_lt_is_Some_2 population w Hwp) as [t Ht]. rewrite Ht.
    exists t, r'. split; [done|].
    split; [eapply list_elem_of_lookup_2; eauto|].
    right. exists sample, w.
    split; [done|]. split; [rewrite Hls, Hlen; done|].
    split; [intros i Hi; apply Hvalid, Hin, Hi|].
    split; [done|]. split; [done|]. split.
    + intros i Hi. fold (score w) (score i). rewrite Hlook.
      assert (score i ∈ map score sample) as Hsi
        by (apply list_elem_of_fmap; by exists i).
      rewrite Hmap in Hsi. exact (fitness_max_greatest _ _ _ Hsi).
    + intros Hsmall i Hip His.
      assert (sample ≡ₚ valid) as Hperm
        by (apply submseteq_length_Permutation; [done|lia]).
      rewrite Hperm. by apply valid_indices_spec.
Qed.

(** X11. On a population that is not empty
    [tournament_selection] raises nothing and returns a member of the
    population, whatever the scores and the random draws; on an empty
    population it raises [ValueError]. *)
Theorem tournament_selection_member (population : list Timetable) (scores : list Fitness)
    (r : Rng) :
  match (tournament_selection population scores r).1 with
  | Ok t => t ∈ population
  | Raise e => population = []
               /\ e = ValueError "No valid timetables available for selection"
  end.
Proof.
  destruct population as [|t0 population'].
  - by cbn.
  - destruct (tournament_selection_cases (t0 :: population') scores r)
      as (t & r' & -> & Ht & _); done.
Qed.

(** X12. When every individual has a score, the
    individual returned is at a position [w] of a sample of
    [min(3, len(population))] distinct positions, and no position of the
    sample has a score greater than that of [w]. *)
Theorem tournament_selection_winner (population : list Timetable) (scores : list Fitness)
    (r : Rng) :
  population ≠ [] ->
  length scores = length population ->
  exists t r' sample w,
    tournament_selection population scores r = (Ok t, r') /\
    NoDup sample /\
    length sample = Nat.min 3 (length population) /\
    w ∈ sample /\
    population !! w = Some t /\
    forall i, i ∈ sample ->
      exists fw fi, scores !! w = Some fw /\ scores !! i = Some fi
                    /\ fitness_lt fw fi = false.
Proof.
  intros Hne Hlen.
  destruct (tournament_selection_cases population scores r Hne)
    as (t & r' & Hsel & _ & [->|(sample & w & Hnd & Hls & Hrange & Hw & Ht & Hbest & _)]).
  { destruct population; [done|simpl in Hlen; lia]. }
  exists t, r', sample, w. split; [done|]. split; [done|].
  split; [rewrite Hls; unfold tournament_size; lia|].
  split; [done|]. split; [done|].
  intros i Hi. specialize (Hbest i Hi).
  destruct (Hrange w Hw) as [_ Hw'], (Hrange i Hi) as [_ Hi'].
  destruct (lookup_lt_is_Some_2 scores w Hw') as [fw Hfw].
  destruct (lookup_lt_is_Some_2 scores i Hi') as [fi Hfi].
  unfold Fitness in *. rewrite Hfw, Hfi in Hbest. by exists fw, fi.
Qed.

(** X13. With at most three individuals the tournament is the whole
    population: the individual returned has a greatest score. *)
Theorem tournament_selection_small (population : list Timetable) (scores : list Fitness)
    (r : Rng) :
  population ≠ [] ->
  length scores = length population ->
  (length population <= 3)%nat ->
  exists t r' w fw,
    tournament_selection population scores r = (Ok t, r') /\
    population !! w = Some t /\ scores !! w = Some fw /\
    forall f, f ∈ scores -> fitness_lt fw f = false.
Proof.
  intros Hne Hlen Hsmall.
  destruct (tournament_selection_cases population scores r Hne)
    as (t & r' & Hsel & _ & [->|(sample & w & Hnd & Hls & Hrange & Hw & Ht & Hbest & Hall)]).
  { destruct population; [done|simpl in Hlen; lia]. }
  destruct (Hrange w Hw) as [_ Hw'].
  destruct (lookup_lt_is_Some_2 scores w Hw') as [fw Hfw].
  exists t, r', w, fw. split; [done|]. split; [done|]. split; [done|].
  intros f Hf. apply list_elem_of_lookup_1 in Hf as [i Hi].
  assert (i < length scores)%nat as Hlt by (eapply lookup_lt_Some; eauto).
  assert (i ∈ sample) as Hisample by (apply Hall; [done|lia|done]).
  specialize (Hbest i Hisample). unfold Fitness in *. by rewrite Hfw, Hi in Hbest.
Qed.

Lemma tournament_selection_winner_witness :
  exists t r' sample w,
    tournament_selection [timetable_A; timetable_A0] [Some 5; Some 7] (rng_of (fun n => n)) = (Ok t, r') /\
    NoDup sample /\
    length sample = Nat.min 3 (length [timetable_A; timetable_A0]) /\
    w ∈ sample /\
    [timetable_A; timetable_A0] !! w = Some t /\
    forall i, i ∈ sample ->
      exists fw fi, [Some 5; Some 7] !! w = Some fw /\ [Some 5; Some 7] !! i = Some fi
                    /\ fitness_lt fw fi = false.
Proof.
  apply (tournament_selection_winner [timetable_A; timetable_A0] [Some 5; Some 7]
           (rng_of (fun n => n))); [done|reflexivity].
Defined.

Lemma tournament_selection_small_witness :
  exists t r' w fw,
    tournament_selection [timetable_A; timetable_A0] [Some 5; Some 7] (rng_of (fun n => n)) = (Ok t, r') /\
    [timetable_A; timetable_A0] !! w = Some t /\ [Some 5; Some 7] !! w = Some fw /\
    forall f, f ∈ [Some 5; Some 7] -> fitness_lt fw f = false.
Proof.
  apply (tournament_selection_small [timetable_A; timetable_A0] [Some 5; Some 7]
           (rng_of (fun n => n))); [done|reflexivity|simpl; lia].
Defined.


(** * Properties of [calculate_fitness] *)

Lemma room_penalty_Ok used entries :
  (forall t, t ∈ entries -> is_Some t) ->
  exists p, room_penalty used entries = Ok p /\ 0 <= p.
Proof.
  revert used. induction entries as [|t entries IH]; intros used Hall; simpl.
  - exists 0. split; [done|lia].
  - destruct (Hall t (list_elem_of_here _ _)) as [e ->]. simpl.
    destruct (IH (e_room e :: used)) as (p & -> & Hp).
    { intros t' Ht'. apply Hall. by apply list_elem_of_further. }
    simpl. eexists. split; [done|]. case_bool_decide; lia.
Qed.

Lemma room_penalty_Raise used entries e :
  room_penalty used entries = Raise e -> e = TypeError /\ None ∈ entries.
Proof.
  revert used. induction entries as [|t entries IH]; intros used; simpl; [done|].
  destruct t as [e0|]; simpl.
  - destruct (room_penalty (e_room e0 :: used) entries) as [p|e'] eqn:Hp; simpl; [done|].
    intros [= <-]. destruct (IH _ Hp) as [-> Hin].
    split; [done|]. by apply list_elem_of_further.
  - intros [= <-]. split; [done|]. apply list_elem_of_here.
Qed.

Lemma room_penalty_distinct used entries :
  NoDup (e_room <$> entries) ->
  (forall e, e ∈ entries -> e_room e ∉ used) ->
  room_penalty used (Some <$> entries) = Ok 0.
Proof.
  revert used. induction entries as [|e entries IH]; intros used Hnd Hfresh; [done|].
  csimpl in *. apply NoDup_cons in Hnd as [Hne Hnd].
  rewrite IH; [|done|].
  - simpl. rewrite bool_decide_eq_false_2; [done|].
    apply Hfresh, list_elem_of_here.
  - intros e' He'. rewrite elem_of_cons. intros [Heq|Hu].
    + apply Hne. rewrite <- Heq. apply list_elem_of_fmap. by exists e'.
    + apply (Hfresh e'); [by apply list_elem_of_further|done].
Qed.

Lemma sumR_Ok {A} (f : A -> Result Z) (l : list A) :
  (forall x, x ∈ l -> exists p, f x = Ok p /\ 0 <= p) ->
  exists s, sumR f l = Ok s /\ 0 <= s.
Proof.
  induction l as [|x l IH]; intros Hall; simpl.
  - exists 0. split; [done|lia].
  - destruct (Hall x (list_elem_of_here _ _)) as (p & -> & Hp).
    destruct IH as (s & -> & Hs).
    { intros y Hy. apply Hall. by apply list_elem_of_further. }
    simpl. exists (p + s). split; [done|lia].
Qed.

Lemma sumR_zero {A} (f : A -> Result Z) (l : list A) :
  (forall x, x ∈ l -> f x = Ok 0) -> sumR f l = Ok 0.
Proof.
  induction l as [|x l IH]; intros Hall; simpl; [done|].
  rewrite (Hall x (list_elem_of_here _ _)). simpl.
  rewrite IH; [done|]. intros y Hy. apply Hall. by apply list_elem_of_further.
Qed.

Lemma sumR_Raise {A} (f : A -> Result Z) (l : list A) e :
  sumR f l = Raise e -> exists x, x ∈ l /\ f x = Raise e.
Proof.
  induction l as [|x l IH]; simpl; [done|].
  destruct (f x) as [p|e'] eqn:Hx; simpl.
  - destruct (sumR f l) as [s|e'] eqn:Hs; simpl; [done|].
    intros [= <-]. destruct (IH eq_refl) as (y & Hy & Hfy).
    exists y. split; [by apply list_elem_of_further|done].
  - intros [= <-]. exists x. split; [apply list_elem_of_here|done].
Qed.

Lemma sumR_Ok_inv {A} (f : A -> Result Z) (l : list A) s :
  sumR f l = Ok s -> forall x, x ∈ l -> exists p, f x = Ok p.
Proof.
  revert s. induction l as [|x l IH]; simpl; intros s Hs y Hy.
  - by apply elem_of_nil in Hy.
  - destruct (f x) as [p|] eqn:Hx; simpl in Hs; [|done].
    destruct (sumR f l) as [s'|] eqn:Hs'; simpl in Hs; [|done].
    apply elem_of_cons in Hy as [->|Hy]; [by exists p|]. by eapply IH.
Qed.

Lemma adjacent_penalty_nonneg module_slots : 0 <= adjacent_penalty module_slots.
Proof.
  induction module_slots as [|[d1 s1] [|[d2 s2] rest] IH]; simpl in *; try lia.
  destruct (bool_decide (d1 = d2) && _); lia.
Qed.

Lemma module_penalty_nonneg tt module : 0 <= module_penalty tt module.
Proof.
  unfold module_penalty. cbv zeta.
  pose proof (adjacent_penalty_nonneg (module_cells tt (m_code module))).
  repeat case_bool_decide; lia.
Qed.

Lemma sum_nonneg (l : list Z) : (forall x, x ∈ l -> 0 <= x) -> 0 <= foldr Z.add 0 l.
Proof.
  induction l as [|x l IH]; simpl; intros Hall; [lia|].
  pose proof (Hall x (list_elem_of_here _ _)).
  assert (0 <= foldr Z.add 0 l)
    by (apply IH; intros y Hy; apply Hall; by apply list_elem_of_further).
  lia.
Qed.

Lemma spread_nonneg counts : 0 <= spread counts.
Proof.
  unfold spread. destruct (List.filter _ counts) as [|c cs]; [lia|].
  assert (foldr Z.min c cs <= c <= foldr Z.max c cs) as H; [|lia].
  induction cs as [|x cs IH]; simpl; lia.
Qed.

Lemma room_penalty_nonneg used entries p :
  room_penalty used entries = Ok p -> 0 <= p.
Proof.
  revert used p. induction entries as [|t entries IH]; intros used p; simpl.
  - intros [= <-]. lia.
  - destruct t as [e|]; simpl; [|done].
    destruct (room_penalty (e_room e :: used) entries) as [q|] eqn:Hq; simpl; [|done].
    intros [= <-]. specialize (IH _ _ Hq). case_bool_decide; lia.
Qed.

Lemma sumR_nonneg {A} (f : A -> Result Z) (l : list A) s :
  (forall x p, f x = Ok p -> 0 <= p) -> sumR f l = Ok s -> 0 <= s.
Proof.
  intros Hf. revert s. induction l as [|x l IH]; simpl; intros s.
  - intros [= <-]. lia.
  - destruct (f x) as [p|] eqn:Hx; simpl; [|done].
    destruct (sumR f l) as [q|] eqn:Hq; simpl; [|done].
    intros [= <-]. specialize (Hf _ _ Hx). specialize (IH _ eq_refl). lia.
Qed.

(** The part of the score that does not depend on the rooms. *)
Lemma calculate_fitness_eq tt data :
  calculate_fitness tt data
  = p ← sumR (fun ds : Day * Slot => room_penalty [] (source_entries (slots tt ds.1 ds.2)))
            all_cells;
    Ok (1000 - foldr Z.add 0 (map (module_penalty tt) (coded_modules data))
        - spread (map (day_module_count tt data) DAYS) * 10
        - spread (map (slot_usage tt data) TIME_SLOTS) * 5
        - p).
Proof. reflexivity. Qed.

Lemma calculate_fitness_bound tt data score :
  calculate_fitness tt data = Ok score -> score <= 1000.
Proof.
  rewrite calculate_fitness_eq.
  pose proof (spread_nonneg (map (day_module_count tt data) DAYS)) as Hdays.
  pose proof (spread_nonneg (map (slot_usage tt data) TIME_SLOTS)) as Hslots.
  assert (0 <= foldr Z.add 0 (map (module_penalty tt) (coded_modules data))) as Hmods.
  { apply sum_nonneg. intros x Hx. apply list_elem_of_fmap in Hx as (m & -> & _).
    apply module_penalty_nonneg. }
  revert Hdays Hslots Hmods.
  generalize (spread (map (day_module_count tt data) DAYS)).
  generalize (spread (map (slot_usage tt data) TIME_SLOTS)).
  generalize (foldr Z.add 0 (map (module_penalty tt) (coded_modules data))).
  intros a b c Hc Hb Ha Hs.
  destruct (sumR _ all_cells) as [p|] eqn:Hp; simpl in Hs; [|done].
  injection Hs as <-.
  assert (0 <= p).
  { eapply sumR_nonneg; [|exact Hp]. intros ds q Hq. exact (room_penalty_nonneg _ _ _ Hq). }
  lia.
Qed.

(** X8. A score that [calculate_fitness] returns is at
    most the base score 1000: every term of the computation is a
    penalty. *)
Theorem calculate_fitness_le_1000 (tt : Timetable) (data : Data) (score : Z) :
  calculate_fitness tt data = Ok score -> score <= 1000.
Proof. apply calculate_fitness_bound. Qed.

Lemma calculate_fitness_le_1000_witness :
  calculate_fitness timetable_D data_D = Ok 900 /\ 900 <= 1000.
Proof.
  assert (calculate_fitness timetable_D data_D = Ok 900) as H by (by vm_compute).
  split; [exact H|]. exact (calculate_fitness_le_1000 timetable_D data_D 900 H).
Defined.

Lemma None_in_source_entries (c : Cell) :
  None ∈ source_entries c <-> exists es, c = CellList es /\ None ∈ es.
Proof.
  destruct c as [es|[e|]]; simpl.
  - split; [by exists es|]. by intros (es' & [= <-] & ?).
  - split; [|by intros (? & ? & _)].
    intros H. by apply list_elem_of_singleton in H.
  - split; [|by intros (? & ? & _)]. intros H. by apply elem_of_nil in H.
Qed.

Lemma room_penalty_Ok_inv used entries p :
  room_penalty used entries = Ok p -> None ∉ entries.
Proof.
  revert used p. induction entries as [|t es IH]; intros used p Hq Hin;
    [by apply elem_of_nil in Hin|].
  apply elem_of_cons in Hin as [<-|Hin]; [done|].
  simpl in Hq. destruct t as [e|]; simpl in Hq; [|done].
  destruct (room_penalty (e_room e :: used) es) as [q'|] eqn:Hq'; [|done].
  by eapply IH.
Qed.

(** X9. [calculate_fitness] raises exactly when a
    list cell of the timetable holds [None], and then it raises
    [TypeError]; on every other timetable it returns a score. *)
Theorem calculate_fitness_raises (tt : Timetable) (data : Data) :
  match calculate_fitness tt data with
  | Ok _ => forall day slot es, slots tt day slot = CellList es -> None ∉ es
  | Raise e => e = TypeError
               /\ exists day slot es, slots tt day slot = CellList es /\ None ∈ es
  end.
Proof.
  rewrite calculate_fitness_eq.
  destruct (sumR _ all_cells) as [p|e] eqn:Hp; simpl.
  - intros day slot es Hcell.
    destruct (sumR_Ok_inv _ _ _ Hp (day, slot) (elem_of_all_cells day slot)) as [q Hq].
    simpl in Hq. rewrite Hcell in Hq. simpl in Hq.
    by eapply room_penalty_Ok_inv.
  - apply sumR_Raise in Hp as ([day slot] & _ & Hr).
    apply room_penalty_Raise in Hr as [-> Hin]. split; [done|].
    apply None_in_source_entries in Hin as (es & Hcell & Hin).
    by exists day, slot, es.
Qed.

(** [calculate_fitness] returns a score for every
    timetable made of lists of entries, as the initializer and
    [crossover] build them. *)
Theorem calculate_fitness_freeze (b : Building) (data : Data) :
  exists score, calculate_fitness (freeze b) data = Ok score /\ score <= 1000.
Proof.
  destruct (calculate_fitness (freeze b) data) as [score|e] eqn:Hs.
  - exists score. split; [done|]. by eapply calculate_fitness_bound.
  - exfalso. rewrite calculate_fitness_eq in Hs.
    destruct (sumR _ all_cells) as [p|e'] eqn:Hp; simpl in Hs; [done|].
    apply sumR_Raise in Hp as ([day slot] & _ & Hr).
    apply room_penalty_Raise in Hr as [_ Hin]. simpl in Hin.
    apply list_elem_of_fmap in Hin as (? & ? & _). done.
Qed.

Lemma remove_dups_NoDup_id `{EqDecision A} (l : list A) : NoDup l -> remove_dups l = l.
Proof.
  induction 1 as [|x l Hx Hnd IH]; simpl; [done|].
  destruct (decide_rel _ x l) as [Hin|_]; [done|]. by rewrite IH.
Qed.

Lemma adjacent_penalty_distinct_days (module_slots : list (Day * Slot)) :
  NoDup (module_slots.*1) -> adjacent_penalty module_slots = 0.
Proof.
  induction module_slots as [|[d1 s1] [|[d2 s2] rest] IH]; intros Hnd; try done.
  change (adjacent_penalty ((d1, s1) :: (d2, s2) :: rest))
    with ((if bool_decide (d1 = d2)
              && bool_decide (Z.abs (slot_index s1 - slot_index s2) = 1)
           then 15 else 0) + adjacent_penalty ((d2, s2) :: rest)).
  csimpl in Hnd. apply NoDup_cons in Hnd as [Hne Hnd].
  rewrite (bool_decide_eq_false_2 (d1 = d2)).
  - rewrite IH by done. done.
  - intros ->. apply Hne, list_elem_of_here.
Qed.

Lemma sum_map_ext {A} (f g : A -> Z) (l : list A) :
  (forall x, x ∈ l -> f x = g x) ->
  foldr Z.add 0 (map f l) = foldr Z.add 0 (map g l).
Proof.
  induction l as [|x l IH]; intros Hext; simpl; [done|].
  rewrite (Hext x (list_elem_of_here _ _)), IH; [done|].
  intros y Hy. apply Hext. by apply list_elem_of_further.
Qed.

Lemma elem_of_coded_modules data module :
  module ∈ coded_modules data <-> module ∈ modules data /\ m_code module ≠ "".
Proof.
  unfold coded_modules. rewrite list_elem_of_In, filter_In, <- list_elem_of_In.
  rewrite negb_true_iff, bool_decide_eq_false. done.
Qed.

(** In an accepted timetable the only penalty of a module is the one for
    a number of sessions other than two. *)
Lemma module_penalty_accepted tt data module :
  validate_hard_constraints tt data = true ->
  module ∈ coded_modules data ->
  module_penalty tt module
  = Z.abs (required_sessions module - SESSIONS_PER_MODULE) * 100.
Proof.
  intros Hv Hin. apply elem_of_coded_modules in Hin as [Hin Hcode].
  destruct (accepted_module_sessions tt data module Hv Hin Hcode) as [Hn Hdaily].
  unfold scheduled_sessions in Hn.
  assert (NoDup ((module_cells tt (m_code module)).*1)) as Hdays.
  { apply NoDup_fmap_fst; [|apply module_cells_NoDup].
    intros day s1 s2 H1 H2. apply module_cells_spec in H1, H2.
    by eapply daily_counts_le_1. }
  unfold module_penalty. cbv zeta.
  change (map fst (module_cells tt (m_code module)))
    with ((module_cells tt (m_code module)).*1).
  rewrite (remove_dups_NoDup_id _ Hdays), length_fmap.
  rewrite (adjacent_penalty_distinct_days _ Hdays), Hn.
  rewrite (bool_decide_eq_false_2 (_ < _)) by lia.
  case_bool_decide as Hne; lia.
Qed.

Lemma room_penalty_accepted tt data day slot :
  validate_hard_constraints tt data = true ->
  room_penalty [] (source_entries (slots tt day slot)) = Ok 0.
Proof.
  intros Hv. destruct (validate_true_checks _ _ Hv) as (_ & _ & H3 & _).
  destruct (slots tt day slot) as [es|[e|]] eqn:Hcell; simpl; [| |done].
  - pose proof (on_list_cells_true _ _ H3 _ _ _ Hcell) as G. simpl in G.
    destruct (check_room_entries_distinct _ _ G) as (entries & -> & Hnd & Hfresh).
    by apply room_penalty_distinct.
  - done.
Qed.

(** X10. The score of a timetable that
    [validate_hard_constraints] accepts.  No module is penalised for two
    sessions on one day or in consecutive slots, and no room for a double
    booking; what is left is 100 for each session by which a module's
    required number differs from two, and the two terms for the uneven
    use of days and of slots. *)
Theorem calculate_fitness_accepted (tt : Timetable) (data : Data) :
  validate_hard_constraints tt data = true ->
  calculate_fitness tt data
  = Ok (1000
        - foldr Z.add 0
            (map (fun module => Z.abs (required_sessions module - SESSIONS_PER_MODULE) * 100)
                 (coded_modules data))
        - spread (map (day_module_count tt data) DAYS) * 10
        - spread (map (slot_usage tt data) TIME_SLOTS) * 5).
Proof.
  intros Hv. rewrite calculate_fitness_eq.
  rewrite (sumR_zero _ all_cells).
  2:{ intros [day slot] _. by eapply room_penalty_accepted. }
  rewrite (sum_map_ext (module_penalty tt)
             (fun module => Z.abs (required_sessions module - SESSIONS_PER_MODULE) * 100)).
  2:{ intros module Hin. by eapply module_penalty_accepted. }
  generalize (spread (map (day_module_count tt data) DAYS)).
  generalize (spread (map (slot_usage tt data) TIME_SLOTS)).
  generalize (foldr Z.add 0
    (map (fun module => Z.abs (required_sessions module - SESSIONS_PER_MODULE) * 100)
       (coded_modules data))).
  intros a b c. cbn [mbind]. simpl. f_equal. lia.
Qed.

Lemma calculate_fitness_accepted_witness :
  calculate_fitness timetable_D data_D
  = Ok (1000
        - foldr Z.add 0
            (map (fun module => Z.abs (required_sessions module - SESSIONS_PER_MODULE) * 100)
                 (coded_modules data_D))
        - spread (map (day_module_count timetable_D data_D) DAYS) * 10
        - spread (map (slot_usage timetable_D data_D) TIME_SLOTS) * 5).
Proof. apply (calculate_fitness_accepted timetable_D data_D). by vm_compute. Defined.


(** * Runs of the generation loop that do not fail *)

Lemma find_lecturer_elem data name l :
  find_lecturer data name = Some l -> l ∈ lecturers data.
Proof. intros H. apply find_some in H as [H _]. by apply list_elem_of_In. Qed.

Lemma new_timetable_indexed data :
  indexed data (b_lecturer_slots (new_timetable data)) (b_room_slots (new_timetable data)).
Proof.
  split; simpl.
  - intros l Hl. apply not_eq_None_Some. intros Hnone.
    apply not_elem_of_list_to_map in Hnone. apply Hnone.
    rewrite <- list_fmap_compose. apply list_elem_of_fmap. by exists l.
  - intros room Hroom. apply not_eq_None_Some. intros Hnone.
    apply not_elem_of_list_to_map in Hnone. apply Hnone.
    rewrite <- list_fmap_compose. apply list_elem_of_fmap. by exists room.
Qed.

Lemma add_entry_indexed data b day slot e lid :
  indexed data (b_lecturer_slots b) (b_room_slots b) ->
  indexed data (b_lecturer_slots (add_entry b day slot e lid))
               (b_room_slots (add_entry b day slot e lid)).
Proof.
  intros [Hl Hr]. split; simpl.
  - intros l Hin. apply lookup_alter_is_Some. by apply Hl.
  - intros room Hin. apply lookup_alter_is_Some. by apply Hr.
Qed.

Lemma module_requirements_Some data module :
  module ∈ modules data -> m_code module ≠ "" ->
  is_Some (module_requirements data !! m_code module).
Proof.
  unfold module_requirements. generalize (∅ : gmap string Z).
  induction (modules data) as [|m ms IH]; intros acc Hin Hcode.
  - by apply elem_of_nil in Hin.
  - assert (forall ms (acc : gmap string Z), is_Some (acc !! m_code module) ->
              is_Some (foldl (fun (acc : gmap string Z) module =>
                                if bool_decide (m_code module = "") then acc
                                else <[m_code module := required_sessions module]> acc)
                             acc ms !! m_code module)) as Hkeep.
    { clear. induction ms as [|m ms IH]; intros acc Hacc; [done|].
      simpl. apply IH. case_bool_decide; [done|].
      destruct (decide (m_code m = m_code module)) as [->|Hne].
      - rewrite lookup_insert_eq. by eexists.
      - by rewrite lookup_insert_ne. }
    simpl. apply elem_of_cons in Hin as [<-|Hin].
    + apply Hkeep. rewrite bool_decide_eq_false_2 by done.
      rewrite lookup_insert_eq. by eexists.
    + by apply IH.
Qed.

Lemma foldR_Ok {A B} (P : A -> Prop) (f : A -> B -> Result A) (l : list B) :
  (forall a x, P a -> x ∈ l -> exists a', f a x = Ok a' /\ P a') ->
  forall a, P a -> exists a', foldR f l a = Ok a' /\ P a'.
Proof.
  induction l as [|x l IH]; intros Hstep a Ha; simpl.
  - by exists a.
  - destruct (Hstep a x Ha (list_elem_of_here _ _)) as (a1 & -> & Ha1). simpl.
    apply IH; [|done]. intros a2 y Ha2 Hy. apply Hstep; [done|].
    by apply list_elem_of_further.
Qed.

Lemma foldM_Ok {A B} (P : A -> Prop) (f : A -> B -> M A) (l : list B) :
  (forall a x r, P a -> x ∈ l -> exists a' r', f a x r = (Ok a', r') /\ P a') ->
  forall a r, P a -> exists a' r', foldM f l a r = (Ok a', r') /\ P a'.
Proof.
  induction l as [|x l IH]; intros Hstep a r Ha; simpl.
  - by exists a, r.
  - destruct (Hstep a x r Ha (list_elem_of_here _ _)) as (a1 & r1 & Hf & Ha1).
    unfold bindM. rewrite Hf.
    apply IH; [|done]. intros a2 y r2 Ha2 Hy. apply Hstep; [done|].
    by apply list_elem_of_further.
Qed.

Lemma getitem_Some `{Countable K} {V} (d : gmap K V) key v :
  d !! key = Some v -> getitem d key = Ok v.
Proof. unfold getitem. by intros ->. Qed.

Lemma crossover_entry_Ok data day slot st e :
  indexed data (b_lecturer_slots (child st)) (b_room_slots (child st)) ->
  entry_known data e ->
  exists st', crossover_entry data day slot st (Some e) = Ok st' /\
              indexed data (b_lecturer_slots (child st')) (b_room_slots (child st')).
Proof.
  intros Hidx [(module & Hm & Hcode & Hne) (room & Hroom & Hname)].
  unfold crossover_entry. simpl.
  destruct (module_requirements_Some data module Hm) as [required Hreq];
    [by rewrite Hcode|].
  rewrite Hcode in Hreq. rewrite (getitem_Some _ _ _ Hreq). simpl.
  case_bool_decide; [|by exists st].
  destruct (existsb _ _); [by exists st|].
  destruct (find_lecturer data (e_lecturer e)) as [l|] eqn:Hl; [|by exists st].
  destruct (proj1 Hidx l (find_lecturer_elem _ _ _ Hl)) as [lg Hlg].
  rewrite (getitem_Some _ _ _ Hlg). simpl.
  destruct (truthy (lg day slot)); [by exists st|].
  destruct (proj2 Hidx room Hroom) as [rg Hrg]. rewrite Hname in Hrg.
  rewrite (getitem_Some _ _ _ Hrg). simpl.
  destruct (truthy (rg day slot)); [by exists st|].
  eexists. split; [done|]. simpl. by apply add_entry_indexed.
Qed.

Lemma crossover_slot_Ok data source day st slot :
  copyable data source ->
  indexed data (b_lecturer_slots (child st)) (b_room_slots (child st)) ->
  exists st', crossover_slot data source day st slot = Ok st' /\
              indexed data (b_lecturer_slots (child st')) (b_room_slots (child st')).
Proof.
  intros Hsrc Hidx. unfold crossover_slot.
  apply (foldR_Ok (fun st => indexed data (b_lecturer_slots (child st))
                                     (b_room_slots (child st)))); [|done].
  intros st0 t Hidx0 Ht. destruct (Hsrc day slot t Ht) as (e & -> & Hknown).
  by apply crossover_entry_Ok.
Qed.

Lemma random_below_Ok num r : exists b r', random_below num r = (Ok b, r').
Proof. unfold random_below, bindM, draw, retM. by eexists _, _. Qed.

Lemma crossover_day_Ok parent1 parent2 data st day r :
  copyable data parent1 -> copyable data parent2 ->
  indexed data (b_lecturer_slots (child st)) (b_room_slots (child st)) ->
  exists st' r', crossover_day parent1 parent2 data st day r = (Ok st', r') /\
                 indexed data (b_lecturer_slots (child st')) (b_room_slots (child st')).
Proof.
  intros H1 H2 Hidx. unfold crossover_day, bindM, liftR.
  destruct (random_below_Ok 50 r) as (from_first & r1 & ->).
  assert (copyable data (if from_first then parent1 else parent2)) as Hsrc
    by (by destruct from_first).
  destruct (foldR_Ok (fun st => indexed data (b_lecturer_slots (child st))
                                        (b_room_slots (child st)))
              (crossover_slot data (if from_first then parent1 else parent2) day)
              TIME_SLOTS) with (a := st) as (st' & Hfold & Hidx'); [|done|].
  - intros st0 slot Hidx0 _. by apply crossover_slot_Ok.
  - rewrite Hfold. by eexists _, _.
Qed.

(** [crossover] raises nothing on parents whose entries name modules and
    rooms of the domain data, and its child has the two indices of a new
    timetable. *)
Lemma crossover_Ok parent1 parent2 data r :
  copyable data parent1 -> copyable data parent2 ->
  exists c r', crossover parent1 parent2 data r = (Ok c, r') /\
               indexed data (b_lecturer_slots c) (b_room_slots c).
Proof.
  intros H1 H2. unfold crossover.
  destruct (foldM_Ok (fun st => indexed data (b_lecturer_slots (child st))
                                        (b_room_slots (child st)))
              (crossover_day parent1 parent2 data) DAYS)
    with (a := {| child := new_timetable data; assigned_sessions := ∅ |}) (r := r)
    as (st' & r' & Hfold & Hidx).
  - intros st0 day r0 Hidx0 _. by apply crossover_day_Ok.
  - apply new_timetable_indexed.
  - unfold bindM. rewrite Hfold. by exists (child st'), r'.
Qed.

(** ** The entries of the initial population *)

Lemma group_append_Forall (Q : Module -> Prop) acc g m :
  Forall (fun gm : Group * list Module => Forall Q gm.2) acc -> Q m ->
  Forall (fun gm : Group * list Module => Forall Q gm.2) (group_append acc g m).
Proof.
  intros Hacc Hm. induction acc as [|[k ms] acc IH]; simpl.
  - constructor; [|constructor]. simpl. by constructor.
  - apply Forall_cons in Hacc as [Hms Hacc]. case_decide.
    + constructor; [|done]. simpl in *. apply Forall_app. split; [done|]. by constructor.
    + constructor; [done|]. by apply IH.
Qed.

(** Only modules of the domain data that have a code are scheduled. *)
Lemma modules_by_group_coded data :
  Forall (fun gm : Group * list Module =>
            Forall (fun m => m ∈ modules data /\ m_code m ≠ "") gm.2)
         (modules_by_group data).
Proof.
  unfold modules_by_group.
  assert (forall l acc,
            (forall m, m ∈ l -> m ∈ modules data) ->
            Forall (fun gm : Group * list Module =>
                      Forall (fun m => m ∈ modules data /\ m_code m ≠ "") gm.2) acc ->
            Forall (fun gm : Group * list Module =>
                      Forall (fun m => m ∈ modules data /\ m_code m ≠ "") gm.2)
                   (foldl (fun acc module =>
                             if bool_decide (m_code module = "") then acc
                             else foldl (fun acc g => group_append acc g module) acc
                                        (m_target_groups module))
                          acc l)) as Hgen.
  { induction l as [|m l IH]; intros acc Hsub Hacc; [done|].
    simpl. apply IH; [intros m' Hm'; apply Hsub; by apply list_elem_of_further|].
    case_bool_decide as Hcode; [done|].
    assert (m ∈ modules data) as Hm by apply Hsub, list_elem_of_here.
    clear -Hacc Hm Hcode. revert acc Hacc.
    induction (m_target_groups m) as [|g gs IHg]; intros acc Hacc; [done|].
    simpl. apply IHg. by apply group_append_Forall. }
  apply Hgen; [done|constructor].
Qed.

Lemma elem_of_sort_insert x y l : x ∈ sort_insert y l -> x = y \/ x ∈ l.
Proof.
  induction l as [|z l IH]; simpl.
  - intros H. apply list_elem_of_singleton in H. by left.
  - destruct (key_le _ _).
    + rewrite elem_of_cons. tauto.
    + rewrite !elem_of_cons. intros [->|H]; [tauto|]. destruct (IH H); tauto.
Qed.

Lemma elem_of_sort_modules x l : x ∈ sort_modules l -> x ∈ l.
Proof.
  unfold sort_modules. induction l as [|y l IH]; simpl; [done|].
  intros H. apply elem_of_sort_insert in H as [->|H].
  - apply list_elem_of_here.
  - by apply list_elem_of_further, IH.
Qed.

Lemma available_slots_rooms data st module day slot ls rs :
  (day, slot, ls, rs) ∈ available_slots data st module ->
  forall room, room ∈ rs -> room ∈ rooms data.
Proof.
  unfold available_slots. intros Hin.
  apply list_elem_of_bind in Hin as (d & Hin & _).
  case_bool_decide; [by apply elem_of_nil in Hin|].
  apply list_elem_of_bind in Hin as (s & Hin & _).
  case_bool_decide; [by apply elem_of_nil in Hin|].
  destruct (has_conflict _ _ _); [by apply elem_of_nil in Hin|].
  destruct (available_lecturers data (timetable st) d s module) as [|l0 ls0];
    [by apply elem_of_nil in Hin|].
  destruct (available_rooms data (timetable st) d s module) as [|r0 rs0] eqn:Hrs;
    [by apply elem_of_nil in Hin|].
  apply list_elem_of_singleton in Hin as [= -> -> -> ->].
  intros room Hroom. rewrite <- Hrs in Hroom. unfold available_rooms in Hroom.
  apply list_elem_of_In, filter_In in Hroom as [Hroom _].
  by apply list_elem_of_In.
Qed.

Lemma schedule_attempt_known data module st r st' brk r' :
  module ∈ modules data -> m_code module ≠ "" ->
  entries_known data (timetable st) ->
  schedule_attempt data module st r = (Ok (st', brk), r') ->
  entries_known data (timetable st').
Proof.
  intros Hm Hcode Hinv. unfold schedule_attempt.
  destruct (available_slots data st module) as [|c0 cs] eqn:Hav.
  { intros H. apply retM_Ok in H as [[= <- _] _]. done. }
  intros H.
  apply bindM_Ok in H as ([[[day slot] ls] rs] & r1 & Hc & H).
  apply random_choice_elem in Hc. rewrite <- Hav in Hc.
  apply bindM_Ok in H as (lecturer & r2 & _ & H).
  apply bindM_Ok in H as (room & r3 & Hroom & H).
  apply random_choice_elem in Hroom.
  pose proof (available_slots_rooms _ _ _ _ _ _ _ Hc _ Hroom) as Hroom'.
  assert (entries_known data
            (add_entry (timetable st) day slot
               {| e_module := m_code module; e_lecturer := l_name lecturer;
                  e_room := room_name room |} (l_id lecturer))) as Hnew.
  { intros d s e He. apply add_entry_slots in He as [He|(-> & _ & _)].
    - by eapply Hinv.
    - split; simpl; [by exists module|by exists room]. }
  case_bool_decide; apply retM_Ok in H as [[= <- _] _]; exact Hnew.
Qed.

Lemma schedule_module_loop_known data module n st r st' r' :
  module ∈ modules data -> m_code module ≠ "" ->
  entries_known data (timetable st) ->
  schedule_module_loop data module n st r = (Ok st', r') ->
  entries_known data (timetable st').
Proof.
  intros Hm Hcode. revert st r. induction n as [|n IH]; simpl; intros st r Hinv H.
  - apply retM_Ok in H as [<- _]. done.
  - case_bool_decide.
    + apply retM_Ok in H as [<- _]. done.
    + apply bindM_Ok in H as ([st1 brk] & r1 & Hatt & H).
      apply schedule_attempt_known in Hatt; [|done..].
      destruct brk; simpl in H.
      * apply retM_Ok in H as [<- _]. done.
      * by eapply IH.
Qed.

Lemma build_candidate_known data r b r' :
  build_candidate data r = (Ok b, r') -> entries_known data b.
Proof.
  unfold build_candidate. intros H.
  apply bindM_Ok in H as (st & r1 & Hfold & H). apply retM_Ok in H as [<- _].
  revert Hfold. apply foldM_invariant with (P := fun st => entries_known data (timetable st)).
  - intros st0 group r0 st1 r2 Hinv Hgroup. unfold schedule_group.
    apply foldM_invariant with (P := fun st => entries_known data (timetable st));
      [|done].
    intros st2 module r3 st3 r4 Hinv2 Hmodule. unfold schedule_module.
    case_bool_decide as Hassigned.
    + intros H. apply retM_Ok in H as [<- _]. done.
    + apply elem_of_sort_modules in Hmodule.
      pose proof (modules_by_group_coded data) as Hcoded.
      rewrite Forall_forall in Hcoded. specialize (Hcoded _ Hgroup).
      rewrite Forall_forall in Hcoded. destruct (Hcoded _ Hmodule) as [Hm Hcode].
      by apply schedule_module_loop_known.
  - intros day slot e He. simpl in He. by apply elem_of_nil in He.
Qed.

Lemma candidates_built data n r c :
  c ∈ (candidates data n r).1 -> exists r0, c = (build_candidate data r0).1.
Proof.
  induction n as [|n IH]; simpl; intros Hc; [by apply elem_of_nil in Hc|].
  apply elem_of_app in Hc as [Hc|Hc]; [by apply IH|].
  apply list_elem_of_singleton in Hc. by eexists.
Qed.

Lemma freeze_copyable data b : entries_known data b -> copyable data (freeze b).
Proof.
  intros Hknown day slot t Ht. simpl in Ht.
  apply list_elem_of_fmap in Ht as (e & -> & He).
  exists e. split; [done|]. by eapply Hknown.
Qed.

(** Every member of the population that [initialize_population] returns
    is a timetable of lists of entries, built by the initializer and
    accepted by the validator. *)
Lemma accepted_members data cs t :
  t ∈ accepted data cs ->
  exists b, t = freeze b /\ Ok b ∈ cs /\ validate_hard_constraints (freeze b) data = true.
Proof.
  unfold accepted. intros Ht.
  apply list_elem_of_omap in Ht as (c & Hc & Hsome).
  destruct c as [b|]; [|discriminate].
  destruct (validate_hard_constraints (freeze b) data) eqn:Hv; [|discriminate].
  injection Hsome as <-. by exists b.
Qed.

Lemma initialize_population_members data r population t :
  (initialize_population data r).1 = Ok population ->
  t ∈ population ->
  exists b, t = freeze b /\ entries_known data b /\
            validate_hard_constraints (freeze b) data = true.
Proof.
  unfold initialize_population. rewrite population_after_candidates.
  pose proof (candidates_built data POPULATION_SIZE r) as Hbuilt.
  revert Hbuilt. generalize (candidates data POPULATION_SIZE r). intros [cs r2] Hbuilt.
  cbn [fst snd] in *.
  destruct (accepted data cs) as [|t0 rest] eqn:Hacc; [discriminate|].
  intros [= <-] Ht. rewrite <- Hacc in Ht.
  apply accepted_members in Ht as (b & -> & Hc & Hv).
  exists b. split; [done|]. split; [|done].
  apply Hbuilt in Hc as [r0 Hc].
  destruct (build_candidate data r0) as [res r1] eqn:Hb. simpl in Hc. subst res.
  by eapply build_candidate_known.
Qed.

(** ** [mutate] on a child of [crossover] *)

Lemma clear_index_Ok `{Countable K} (keys : list K) (index : gmap K (Grid (option string)))
    day slot :
  (forall key, key ∈ keys -> is_Some (index !! key)) ->
  exists index',
    clear_index keys index day slot = (index', None) /\
    forall key, is_Some (index !! key) -> is_Some (index' !! key).
Proof.
  revert index. induction keys as [|k keys IH]; intros index Hkeys; simpl.
  - by exists index.
  - destruct (Hkeys k (list_elem_of_here _ _)) as [g Hg]. rewrite Hg.
    destruct (IH (<[k := grid_set g day slot None]> index)) as (index' & Hc & Hkeep).
    { intros key Hkey. apply lookup_insert_is_Some'. right.
      apply Hkeys. by apply list_elem_of_further. }
    exists index'. split; [done|].
    intros key Hkey. apply Hkeep, lookup_insert_is_Some'. by right.
Qed.

Lemma mutate_clear_Ok tt data day slot :
  indexed data (lecturer_slots tt) (room_slots tt) ->
  exists tt1,
    mutate_clear tt data day slot = (tt1, None) /\
    slots tt1 = grid_set (slots tt) day slot (CellList []) /\
    indexed data (lecturer_slots tt1) (room_slots tt1).
Proof.
  intros [Hl Hr]. unfold mutate_clear.
  destruct (clear_index_Ok (map l_id (lecturers data)) (lecturer_slots tt) day slot)
    as (ls & Hls & Hkeepl).
  { intros key Hkey. apply list_elem_of_fmap in Hkey as (l & -> & Hin). by apply Hl. }
  destruct (clear_index_Ok (map room_name (rooms data)) (room_slots tt) day slot)
    as (rs & Hrs & Hkeepr).
  { intros key Hkey. apply list_elem_of_fmap in Hkey as (room & -> & Hin). by apply Hr. }
  rewrite Hls, Hrs. eexists. split; [done|]. split; [done|].
  split; simpl.
  - intros l Hin. by apply Hkeepl, Hl.
  - intros room Hin. by apply Hkeepr, Hr.
Qed.

Lemma count_slots_Ok (f : Slot -> Result bool) (ss : list Slot) :
  (forall s, s ∈ ss -> exists b, f s = Ok b) -> exists n, count_slots f ss = Ok n.
Proof.
  induction ss as [|s ss IH]; intros Hall; simpl; [by eexists|].
  destruct (Hall s (list_elem_of_here _ _)) as [b ->].
  destruct IH as [n ->]; [intros s' Hs'; apply Hall; by apply list_elem_of_further|].
  simpl. by eexists.
Qed.

Lemma filterR_Ok {A} (f : A -> Result bool) (l : list A) :
  (forall x, x ∈ l -> exists b, f x = Ok b) ->
  exists kept, filterR f l = Ok kept /\ forall x, x ∈ kept -> x ∈ l /\ f x = Ok true.
Proof.
  induction l as [|x l IH]; intros Hall; simpl.
  - exists []. split; [done|]. intros x Hx. by apply elem_of_nil in Hx.
  - destruct (Hall x (list_elem_of_here _ _)) as [b Hb]. rewrite Hb.
    destruct IH as (kept & -> & Hkept);
      [intros y Hy; apply Hall; by apply list_elem_of_further|].
    simpl. eexists. split; [done|].
    intros y Hy. destruct b.
    + apply elem_of_cons in Hy as [->|Hy]; [split; [apply list_elem_of_here|done]|].
      destruct (Hkept y Hy). split; [by apply list_elem_of_further|done].
    + destruct (Hkept y Hy). split; [by apply list_elem_of_further|done].
Qed.

Lemma group_clash_nil data gs : group_clash data gs [] = Ok false.
Proof. induction gs as [|g gs IH]; simpl; [done|]. by rewrite IH. Qed.

(** After the selected cell was cleared, the rest of [mutate] raises
    nothing when every cell is a list, both indices are complete and
    every lecturer has the key 'modules'. *)
Lemma mutate_select_Ok tt data day slot r :
  (forall d s, exists es, slots tt d s = CellList es) ->
  slots tt day slot = CellList [] ->
  indexed data (lecturer_slots tt) (room_slots tt) ->
  (forall l, l ∈ lecturers data -> is_Some (l_modules l)) ->
  exists res r', mutate_select tt data day slot r = (Ok res, r').
Proof.
  intros Hlists Hcell [Hl Hr] Hmods. unfold mutate_select.
  destruct (mutate_available_modules tt data) as [|m0 ms] eqn:Hav; [by eexists _, _|].
  unfold bindM at 1.
  destruct (random_choice_Ok (m0 :: ms) r) as (module & r1 & ->); [done|].
  destruct (count_slots_Ok (fun s => iter_has_module (m_code module) (slots tt day s))
              TIME_SLOTS) as [n Hn].
  { intros s _. destruct (Hlists day s) as [es ->]. by eexists. }
  unfold bindM at 1. unfold liftR at 1. rewrite Hn.
  case_bool_decide; [by eexists _, _|].
  rewrite Hcell. unfold bindM at 1. unfold liftR at 1. cbn [iter_entries].
  unfold bindM at 1. unfold liftR at 1. cbn [any_module].
  unfold bindM at 1. unfold liftR at 1. rewrite group_clash_nil.
  destruct (filterR_Ok (mutate_lecturer_ok tt day slot module) (lecturers data))
    as (ls & Hls & _).
  { intros l Hin. unfold mutate_lecturer_ok, lecturer_modules_strict.
    destruct (Hmods l Hin) as [mods ->]. simpl.
    case_bool_decide; [|by eexists].
    destruct (Hl l Hin) as [g Hg]. rewrite (getitem_Some _ _ _ Hg). simpl.
    destruct (truthy (g day slot)); by eexists. }
  unfold bindM at 1. unfold liftR at 1. rewrite Hls.
  destruct ls as [|l0 ls]; [by eexists _, _|].
  unfold bindM at 1.
  destruct (random_choice_Ok (l0 :: ls) r1) as (lecturer & r2 & ->); [done|].
  destruct (filterR_Ok (mutate_room_ok tt data day slot module) (rooms data))
    as (rs & Hrs & _).
  { intros room Hin. unfold mutate_room_ok.
    destruct (Hr room Hin) as [g Hg]. rewrite (getitem_Some _ _ _ Hg). simpl.
    destruct (truthy (g day slot)); [by eexists|].
    match goal with |- context [if ?b then _ else Ok false] => destruct b end;
      [|by eexists].
    rewrite Hcell. simpl. by eexists. }
  unfold bindM at 1. unfold liftR at 1. unfold mutate_available_rooms. rewrite Hrs.
  simpl. destruct (map room_name rs) as [|n0 ns] eqn:Hnames; [by eexists _, _|].
  unfold bindM at 1.
  destruct (random_choice_Ok (n0 :: ns) r2) as (name & r3 & ->); [done|].
  by eexists _, _.
Qed.

Lemma mutate_Ok tt data r :
  (forall d s, exists es, slots tt d s = CellList es) ->
  indexed data (lecturer_slots tt) (room_slots tt) ->
  (forall l, l ∈ lecturers data -> is_Some (l_modules l)) ->
  exists mutated r', mutate tt data r = (Ok (), mutated, r').
Proof.
  intros Hlists Hidx Hmods. unfold mutate.
  destruct (mutate_pick_Ok r) as (day & slot & r1 & ->).
  destruct (mutate_clear_Ok tt data day slot Hidx) as (tt1 & -> & Hslots & Hidx1).
  destruct (mutate_select_Ok tt1 data day slot r1) as ([[entry lid]|] & r2 & ->);
    try done; try (by eexists _, _).
  - intros d s. rewrite Hslots. unfold grid_set. case_decide; [by eexists|apply Hlists].
  - rewrite Hslots. apply grid_set_eq.
Qed.

(** ** Breeding and the generation loop *)

Lemma breed_one_Ok population scores data r :
  population ≠ [] ->
  (forall t, t ∈ population -> copyable data t) ->
  (forall l, l ∈ lecturers data -> is_Some (l_modules l)) ->
  exists t r', breed_one population scores data r = (Ok t, r').
Proof.
  intros Hne Hcopy Hmods. unfold breed_one.
  destruct (tournament_selection_cases population scores r Hne) as (p1 & r1 & Hp1 & Hin1 & _).
  unfold bindM at 1. rewrite Hp1.
  destruct (tournament_selection_cases population scores r1 Hne) as (p2 & r2 & Hp2 & Hin2 & _).
  unfold bindM at 1. rewrite Hp2.
  destruct (crossover_Ok p1 p2 data r2 (Hcopy _ Hin1) (Hcopy _ Hin2)) as (c & r3 & Hc & Hidx).
  unfold bindM at 1. rewrite Hc.
  destruct (random_below_Ok MUTATION_RATE_PERCENT r3) as ([|] & r4 & Hb);
    unfold bindM; rewrite Hb; [|by eexists _, _].
  destruct (mutate_Ok (freeze c) data r4) as (mutated & r5 & ->); [|done|done|by eexists _, _].
  intros d s. by eexists.
Qed.

Lemma breed_Ok population scores data n :
  population ≠ [] ->
  (forall t, t ∈ population -> copyable data t) ->
  (forall l, l ∈ lecturers data -> is_Some (l_modules l)) ->
  forall acc r, exists bred r', breed population scores data n acc r = (Ok bred, r').
Proof.
  intros Hne Hcopy Hmods. induction n as [|n IH]; intros acc r; simpl.
  - by eexists _, _.
  - destruct (breed_one_Ok population scores data r Hne Hcopy Hmods) as (t & r1 & Ht).
    unfold bindM. rewrite Ht. apply IH.
Qed.

(** A pass of the loop for which breeding cannot fail. *)
Lemma generation_step_progress population data st r :
  population ≠ [] ->
  (forall scores n acc r0,
      exists bred r', breed population scores data n acc r0 = (Ok bred, r')) ->
  exists st' stop r',
    generation_step population data st r = (Ok (st', stop), r') /\
    (stop = false -> is_Some (new_population st')) /\
    (is_Some (new_population st) -> is_Some (new_population st')) /\
    (is_Some (best_timetable st) -> is_Some (best_timetable st')) /\
    (fitness_lt (best_fitness st) (greatest (fitness_batch population data)) = true ->
     is_Some (best_timetable st') /\ stop = false).
Proof.
  intros Hne Hbreed. unfold generation_step.
  destruct (fitness_batch population data) as [|f fs] eqn:Hbatch.
  { destruct population; [done|discriminate]. }
  cbv zeta. cbn [greatest].
  set (max_fitness := fitness_max f fs).
  destruct (fitness_lt (best_fitness st) max_fitness) eqn:Hlt;
    cbn [generations_without_improvement best_fitness best_timetable new_population].
  - rewrite bool_decide_eq_false_2 by (unfold STAGNATION_LIMIT; lia).
    destruct (Hbreed (f :: fs) POPULATION_SIZE [] r) as (bred & r' & Hb).
    unfold bindM. rewrite Hb. unfold retM.
    eexists _, _, _. split; [reflexivity|].
    cbn [new_population best_timetable].
    assert (is_Some (index_of max_fitness (f :: fs) ≫= (fun i => population !! i))) as Hbest.
    { destruct (index_of_elem max_fitness (f :: fs) (fitness_max_elem f fs)) as [i Hi].
      unfold Fitness in *. rewrite Hi. simpl.
      apply index_of_lookup in Hi. apply lookup_lt_Some in Hi.
      apply lookup_lt_is_Some_2.
      rewrite <- Hbatch in Hi. unfold fitness_batch in Hi.
      by rewrite length_map in Hi. }
    split; [by eexists|]. split; [by eexists|]. split; [done|]. done.
  - case_bool_decide as Hstop.
    + unfold retM. eexists _, _, _. split; [reflexivity|].
      cbn [new_population best_timetable]. split; [done|]. split; [done|].
      split; [done|]. done.
    + destruct (Hbreed (f :: fs) POPULATION_SIZE [] r) as (bred & r' & Hb).
      unfold bindM. rewrite Hb. unfold retM.
      eexists _, _, _. split; [reflexivity|].
      cbn [new_population best_timetable].
      split; [by eexists|]. split; [by eexists|]. split; [done|]. done.
Qed.

Lemma generation_loop_progress population data n :
  population ≠ [] ->
  (forall scores n acc r0,
      exists bred r', breed population scores data n acc r0 = (Ok bred, r')) ->
  forall st r,
    is_Some (best_timetable st) -> is_Some (new_population st) ->
    exists st' r',
      generation_loop population data n st r = (Ok st', r') /\
      is_Some (best_timetable st') /\ is_Some (new_population st').
Proof.
  intros Hne Hbreed. induction n as [|n IH]; intros st r Hbest Hnew.
  - by exists st, r.
  - rewrite generation_loop_S.
    destruct (generation_step_progress population data st r Hne Hbreed)
      as (st1 & stop & r1 & -> & _ & Hnew1 & Hbest1 & _).
    cbn [fst snd]. destruct stop.
    + exists st1, r1. split; [done|]. split; [by apply Hbest1|by apply Hnew1].
    + apply IH; [by apply Hbest1|by apply Hnew1].
Qed.

(** From the initial state, on a population that has a score. *)
Lemma generation_loop_first population data n r :
  population ≠ [] ->
  (forall scores n acc r0,
      exists bred r', breed population scores data n acc r0 = (Ok bred, r')) ->
  (forall t, t ∈ population -> exists f, calculate_fitness t data = Ok f) ->
  exists st' r',
    generation_loop population data (S n) initial_state r = (Ok st', r') /\
    is_Some (best_timetable st') /\ is_Some (new_population st').
Proof.
  intros Hne Hbreed Hscores. rewrite generation_loop_S.
  destruct (generation_step_progress population data initial_state r Hne Hbreed)
    as (st1 & stop & r1 & -> & Hnew & _ & _ & Hfirst).
  cbn [fst snd].
  destruct Hfirst as [Hbest ->].
  { cbn [initial_state best_fitness].
    destruct (fitness_batch population data) as [|f fs] eqn:Hbatch.
    { destruct population; [done|discriminate]. }
    cbn [greatest].
    pose proof (fitness_max_elem f fs) as Hmax. rewrite <- Hbatch in Hmax.
    unfold fitness_batch in Hmax. apply list_elem_of_fmap in Hmax as (t & Hmax & Ht).
    destruct (Hscores t Ht) as [x Hx]. rewrite Hx in Hmax.
    unfold Fitness in *. by rewrite Hmax. }
  apply generation_loop_progress; [done|done|done|by apply Hnew].
Qed.

Lemma initialize_population_nonempty data r population :
  (initialize_population data r).1 = Ok population -> population ≠ [].
Proof.
  unfold initialize_population.
  destruct (population_after data POPULATION_SIZE r) as [[|t0 rest] r']; cbn [fst];
    [discriminate|].
  by intros [= <-].
Qed.

Lemma GENERATIONS_S : GENERATIONS = S 999.
Proof. reflexivity. Qed.

(** X22. When every lecturer dictionary has the key
    'modules', [generate_timetable] fails exactly when
    [initialize_population] does.  If the initializer returns a
    population, no step of the generation loop raises, whatever the
    random draws, and the result is a timetable of that population; if the
    initializer raises, the result is [None]. *)
Theorem generate_timetable_succeeds (data : Data) (r : Rng) :
  (forall l, l ∈ lecturers data -> is_Some (l_modules l)) ->
  match (initialize_population data r).1 with
  | Ok population =>
      exists t, (generate_timetable data r).1 = Some t /\ t ∈ population
  | Raise _ => (generate_timetable data r).1 = None
  end.
Proof.
  intros Hmods.
  destruct (initialize_population data r).1 as [population|e] eqn:Hinit;
    [|by eapply generate_timetable_init_raises].
  pose proof (initialize_population_nonempty _ _ _ Hinit) as Hne.
  assert (forall t, t ∈ population -> copyable data t) as Hcopy.
  { intros t Ht.
    destruct (initialize_population_members _ _ _ _ Hinit Ht) as (b & -> & Hknown & _).
    by apply freeze_copyable. }
  assert (forall t, t ∈ population -> exists f, calculate_fitness t data = Ok f) as Hscores.
  { intros t Ht.
    destruct (initialize_population_members _ _ _ _ Hinit Ht) as (b & -> & _ & _).
    destruct (calculate_fitness_freeze b data) as (f & Hf & _). by exists f. }
  assert (exists t, (generate_timetable data r).1 = Some t) as [t Hgen].
  { unfold generate_timetable, generate_timetable_body. rewrite GENERATIONS_S.
    generalize 999%nat. intros n. unfold bindM at 1.
    destruct (initialize_population data r) as [res r0]. cbn [fst] in Hinit. subst res.
    destruct population as [|t0 rest]; [done|].
    destruct (generation_loop_first (t0 :: rest) data n r0 Hne) as (st & r1 & Hloop & Hbest & Hnew);
      [|done|].
    { intros scores k acc r2. by apply breed_Ok. }
    unfold bindM. rewrite Hloop.
    destruct Hnew as [bred ->]. destruct Hbest as [t ->]. by exists t. }
  exists t. split; [done|].
  pose proof (generate_timetable_from_initial data r) as Hfrom.
  rewrite Hgen in Hfrom. destruct Hfrom as (population' & Hinit' & Hin & _).
  rewrite Hinit in Hinit'. by injection Hinit' as <-.
Qed.

Lemma generate_timetable_succeeds_witness :
  match (initialize_population data_A (rng_of (fun n => n))).1 with
  | Ok population =>
      exists t, (generate_timetable data_A (rng_of (fun n => n))).1 = Some t /\ t ∈ population
  | Raise _ => (generate_timetable data_A (rng_of (fun n => n))).1 = None
  end.
Proof.
  apply (generate_timetable_succeeds data_A (rng_of (fun n => n))).
  apply Forall_forall. unfold data_A, lecturers. repeat constructor; by eexists.
Defined.


(** * Inputs for which no timetable can be accepted *)

Lemma NoDup_days_length (days : list Day) : NoDup days -> (length days <= 5)%nat.
Proof.
  intros Hnd. change 5%nat with (length DAYS).
  apply submseteq_length, NoDup_submseteq; [done|].
  intros day _. apply elem_of_DAYS.
Qed.

Lemma accepted_sessions_range tt data module :
  validate_hard_constraints tt data = true ->
  module ∈ modules data ->
  m_code module ≠ "" ->
  0 <= required_sessions module <= 5.
Proof.
  intros Hv Hin Hcode.
  destruct (accepted_module_sessions tt data module Hv Hin Hcode) as [Hn Hdaily].
  unfold scheduled_sessions in Hn.
  assert (NoDup ((module_cells tt (m_code module)).*1)) as Hdays.
  { apply NoDup_fmap_fst; [|apply module_cells_NoDup].
    intros day s1 s2 H1 H2. apply module_cells_spec in H1, H2.
    by eapply daily_counts_le_1. }
  apply NoDup_days_length in Hdays. rewrite length_fmap in Hdays. lia.
Qed.

(** X7. The validator accepts a timetable only
    if every module with a code needs between 0 and 5 sessions a week,
    that is, has from 0 to 11 hours: it demands the required number of
    sessions and at most one session on each of the five days. *)
Theorem validate_sessions_range (tt : Timetable) (data : Data) (module : Module) :
  validate_hard_constraints tt data = true ->
  module ∈ modules data ->
  m_code module ≠ "" ->
  0 <= required_sessions module <= 5 /\ 0 <= module_hours module < 12.
Proof.
  intros Hv Hin Hcode.
  pose proof (accepted_sessions_range tt data module Hv Hin Hcode) as H.
  split; [done|]. unfold required_sessions in H.
  split.
  - destruct (Z_lt_le_dec (module_hours module) 0) as [Hneg|]; [|done].
    assert (module_hours module / 2 < 0) by (apply Z.div_lt_upper_bound; lia). lia.
  - destruct (Z_lt_le_dec (module_hours module) 12) as [|Hbig]; [done|].
    assert (6 <= module_hours module / 2) by (apply Z.div_le_lower_bound; lia). lia.
Qed.

Lemma validate_sessions_range_witness :
  0 <= required_sessions module_A <= 5 /\ 0 <= module_hours module_A < 12.
Proof.
  apply (validate_sessions_range timetable_A data_A module_A).
  - by vm_compute.
  - apply (bool_decide_unpack _). by vm_compute.
  - discriminate.
Defined.

(** X23. A module with a code that has 12 hours or
    more, or a negative number of hours, makes the initializer raise its
    [ValueError] and [generate_timetable] return [None], whatever the
    random draws: no candidate can pass the validator. *)
Theorem unschedulable_hours_no_timetable (data : Data) (module : Module) (r : Rng) :
  module ∈ modules data ->
  m_code module ≠ "" ->
  module_hours module < 0 \/ 12 <= module_hours module ->
  (initialize_population data r).1
    = Raise (ValueError "Failed to initialize any valid timetables") /\
  (generate_timetable data r).1 = None.
Proof.
  intros Hin Hcode Hhours.
  assert ((initialize_population data r).1
          = Raise (ValueError "Failed to initialize any valid timetables")) as Hinit.
  { apply initialize_population_raises, candidates_all_fail.
    intros r0. destruct (build_candidate data r0) as [[b|e] r'] eqn:Hb; [|done].
    simpl. destruct (validate_hard_constraints (freeze b) data) eqn:Hv; [|done].
    exfalso.
    pose proof (accepted_sessions_range _ _ _ Hv Hin Hcode) as H.
    unfold required_sessions in H. destruct Hhours as [Hneg|Hbig].
    - assert (module_hours module / 2 < 0) by (apply Z.div_lt_upper_bound; lia). lia.
    - assert (6 <= module_hours module / 2) by (apply Z.div_le_lower_bound; lia). lia. }
  split; [done|]. by eapply generate_timetable_init_raises.
Qed.

Lemma unschedulable_hours_no_timetable_witness :
  (initialize_population data_long (rng_of (fun n => n))).1
    = Raise (ValueError "Failed to initialize any valid timetables") /\
  (generate_timetable data_long (rng_of (fun n => n))).1 = None.
Proof.
  apply (unschedulable_hours_no_timetable data_long
           {| m_code := "M1"; m_hours := Some 12; m_target_groups := [("CS", "1.1")] |}).
  - apply (bool_decide_unpack _). by vm_compute.
  - discriminate.
  - right. by vm_compute.
Defined.


(** ** A module without target groups *)

(** The initializer goes through the target groups: a module reaches the
    scheduling loop only through one of its target groups. *)
Lemma modules_by_group_grouped data :
  Forall (fun gm : Group * list Module =>
            Forall (fun m => m ∈ modules data /\ m_target_groups m ≠ []) gm.2)
         (modules_by_group data).
Proof.
  unfold modules_by_group.
  assert (forall l acc,
            (forall m, m ∈ l -> m ∈ modules data) ->
            Forall (fun gm : Group * list Module =>
                      Forall (fun m => m ∈ modules data /\ m_target_groups m ≠ []) gm.2) acc ->
            Forall (fun gm : Group * list Module =>
                      Forall (fun m => m ∈ modules data /\ m_target_groups m ≠ []) gm.2)
                   (foldl (fun acc module =>
                             if bool_decide (m_code module = "") then acc
                             else foldl (fun acc g => group_append acc g module) acc
                                        (m_target_groups module))
                          acc l)) as Hgen.
  { induction l as [|m l IH]; intros acc Hsub Hacc; [done|].
    simpl. apply IH; [intros m' Hm'; apply Hsub; by apply list_elem_of_further|].
    case_bool_decide as Hcode; [done|].
    assert (m ∈ modules data) as Hm by apply Hsub, list_elem_of_here.
    destruct (m_target_groups m) as [|g0 gs0] eqn:Hgroups; [done|].
    assert (m ∈ modules data /\ m_target_groups m ≠ []) as HQ by (by rewrite Hgroups).
    clear -Hacc HQ. revert acc Hacc.
    induction (g0 :: gs0) as [|g gs IHg]; intros acc Hacc; [done|].
    simpl. apply IHg. by apply group_append_Forall. }
  apply Hgen; [done|constructor].
Qed.

Lemma schedule_attempt_grouped data module st r st' brk r' :
  module ∈ modules data -> m_target_groups module ≠ [] ->
  entries_grouped data (timetable st) ->
  schedule_attempt data module st r = (Ok (st', brk), r') ->
  entries_grouped data (timetable st').
Proof.
  intros Hm Hgroups Hinv. unfold schedule_attempt.
  destruct (available_slots data st module) as [|c0 cs] eqn:Hav.
  { intros H. apply retM_Ok in H as [[= <- _] _]. done. }
  intros H.
  apply bindM_Ok in H as ([[[day slot] ls] rs] & r1 & _ & H).
  apply bindM_Ok in H as (lecturer & r2 & _ & H).
  apply bindM_Ok in H as (room & r3 & _ & H).
  assert (entries_grouped data
            (add_entry (timetable st) day slot
               {| e_module := m_code module; e_lecturer := l_name lecturer;
                  e_room := room_name room |} (l_id lecturer))) as Hnew.
  { intros d s e He. apply add_entry_slots in He as [He|(-> & _ & _)].
    - by eapply Hinv.
    - by exists module. }
  case_bool_decide; apply retM_Ok in H as [[= <- _] _]; exact Hnew.
Qed.

Lemma schedule_module_loop_grouped data module n st r st' r' :
  module ∈ modules data -> m_target_groups module ≠ [] ->
  entries_grouped data (timetable st) ->
  schedule_module_loop data module n st r = (Ok st', r') ->
  entries_grouped data (timetable st').
Proof.
  intros Hm Hgroups. revert st r. induction n as [|n IH]; simpl; intros st r Hinv H.
  - apply retM_Ok in H as [<- _]. done.
  - case_bool_decide.
    + apply retM_Ok in H as [<- _]. done.
    + apply bindM_Ok in H as ([st1 brk] & r1 & Hatt & H).
      apply schedule_attempt_grouped in Hatt; [|done..].
      destruct brk; simpl in H.
      * apply retM_Ok in H as [<- _]. done.
      * by eapply IH.
Qed.

Lemma build_candidate_grouped data r b r' :
  build_candidate data r = (Ok b, r') -> entries_grouped data b.
Proof.
  unfold build_candidate. intros H.
  apply bindM_Ok in H as (st & r1 & Hfold & H). apply retM_Ok in H as [<- _].
  revert Hfold.
  apply foldM_invariant with (P := fun st => entries_grouped data (timetable st)).
  - intros st0 group r0 st1 r2 Hinv Hgroup. unfold schedule_group.
    apply foldM_invariant with (P := fun st => entries_grouped data (timetable st));
      [|done].
    intros st2 module r3 st3 r4 Hinv2 Hmodule. unfold schedule_module.
    case_bool_decide as Hassigned.
    + intros H. apply retM_Ok in H as [<- _]. done.
    + apply elem_of_sort_modules in Hmodule.
      pose proof (modules_by_group_grouped data) as Hgrouped.
      rewrite Forall_forall in Hgrouped. specialize (Hgrouped _ Hgroup).
      rewrite Forall_forall in Hgrouped. destruct (Hgrouped _ Hmodule) as [Hm Hgs].
      by apply schedule_module_loop_grouped.
  - intros day slot e He. simpl in He. by apply elem_of_nil in He.
Qed.

Lemma candidate_without_group_fails data module r :
  module ∈ modules data ->
  m_code module ≠ "" ->
  1 <= required_sessions module ->
  (forall m, m ∈ modules data -> m_code m = m_code module -> m_target_groups m = []) ->
  passes data (build_candidate data r).1 = false.
Proof.
  intros Hin Hcode Hreq Hnone.
  destruct (build_candidate data r) as [[b|e] r'] eqn:Hb; [|done].
  simpl. destruct (validate_hard_constraints (freeze b) data) eqn:Hv; [|done].
  exfalso.
  destruct (accepted_module_sessions _ _ _ Hv Hin Hcode) as [Hs _].
  unfold scheduled_sessions in Hs.
  destruct (module_cells (freeze b) (m_code module)) as [|[day slot] cells] eqn:Hcells;
    [simpl in Hs; lia|].
  assert ((day, slot) ∈ module_cells (freeze b) (m_code module)) as Hcell
    by (rewrite Hcells; apply list_elem_of_here).
  apply module_cells_spec in Hcell. simpl in Hcell.
  apply existsb_exists in Hcell as (t & Ht & Hmod).
  apply in_map_iff in Ht as (e & <- & He). simpl in Hmod.
  apply bool_decide_eq_true in Hmod.
  apply list_elem_of_In in He.
  destruct (build_candidate_grouped _ _ _ _ Hb _ _ _ He) as (m & Hm & Hmcode & Hgroups).
  apply Hgroups, Hnone; [done|]. by rewrite Hmcode.
Qed.

(** X24. A module with a code that needs at least
    one session and has no target group is never scheduled, because the
    initializer reaches a module only through its target groups.  The
    validator then rejects every candidate: the initializer raises its
    [ValueError] and [generate_timetable] returns [None]. *)
Theorem no_group_no_timetable (data : Data) (module : Module) (r : Rng) :
  module ∈ modules data ->
  m_code module ≠ "" ->
  1 <= required_sessions module ->
  (forall m, m ∈ modules data -> m_code m = m_code module -> m_target_groups m = []) ->
  (initialize_population data r).1
    = Raise (ValueError "Failed to initialize any valid timetables") /\
  (generate_timetable data r).1 = None.
Proof.
  intros Hin Hcode Hreq Hnone.
  assert ((initialize_population data r).1
          = Raise (ValueError "Failed to initialize any valid timetables")) as Hinit.
  { apply initialize_population_raises, candidates_all_fail.
    intros r0. by apply (candidate_without_group_fails data module). }
  split; [done|]. by eapply generate_timetable_init_raises.
Qed.

Lemma no_group_no_timetable_witness :
  (initialize_population data_nogroup (rng_of (fun n => n))).1
    = Raise (ValueError "Failed to initialize any valid timetables") /\
  (generate_timetable data_nogroup (rng_of (fun n => n))).1 = None.
Proof.
  apply (no_group_no_timetable data_nogroup
           {| m_code := "M1"; m_hours := Some 4; m_target_groups := [] |}).
  - apply (bool_decide_unpack _). by vm_compute.
  - discriminate.
  - by vm_compute.
  - intros m Hm _. unfold data_nogroup, modules in Hm.
    by apply list_elem_of_singleton in Hm as ->.
Defined.


(** * The entry that [mutate] adds *)

Lemma count_slots_nonneg (f : Slot -> Result bool) ss n :
  count_slots f ss = Ok n -> 0 <= n.
Proof.
  revert n. induction ss as [|s ss IH]; simpl; intros n.
  - intros [= <-]. lia.
  - destruct (f s) as [b|]; simpl; [|done].
    destruct (count_slots f ss) as [m|]; simpl; [|done].
    specialize (IH _ eq_refl). intros [= <-]. destruct b; lia.
Qed.

Lemma count_slots_zero (f : Slot -> Result bool) ss n :
  count_slots f ss = Ok n -> n < 1 -> forall s, s ∈ ss -> f s = Ok false.
Proof.
  revert n. induction ss as [|s0 ss IH]; simpl; intros n Hn Hlt s Hs.
  - by apply elem_of_nil in Hs.
  - destruct (f s0) as [b|] eqn:Hb; simpl in Hn; [|done].
    destruct (count_slots f ss) as [m|] eqn:Hm; simpl in Hn; [|done].
    injection Hn as <-. pose proof (count_slots_nonneg _ _ _ Hm).
    destruct b; [lia|].
    apply elem_of_cons in Hs as [->|Hs]; [done|]. by eapply IH.
Qed.

Lemma filterR_kept {A} (f : A -> Result bool) (l kept : list A) :
  filterR f l = Ok kept -> forall x, x ∈ kept -> x ∈ l /\ f x = Ok true.
Proof.
  revert kept. induction l as [|y l IH]; simpl; intros kept Hk x Hx.
  - injection Hk as <-. by apply elem_of_nil in Hx.
  - destruct (f y) as [b|] eqn:Hb; simpl in Hk; [|done].
    destruct (filterR f l) as [kept'|] eqn:Hk'; simpl in Hk; [|done].
    injection Hk as <-. destruct b.
    + apply elem_of_cons in Hx as [->|Hx]; [split; [apply list_elem_of_here|done]|].
      destruct (IH _ eq_refl x Hx). split; [by apply list_elem_of_further|done].
    + destruct (IH _ eq_refl x Hx). split; [by apply list_elem_of_further|done].
Qed.

Lemma elem_of_mutate_available_modules tt data module :
  module ∈ mutate_available_modules tt data ->
  module ∈ modules data /\ m_code module ≠ "" /\
  scheduled_sessions tt (m_code module) < required_sessions module.
Proof.
  unfold mutate_available_modules. rewrite list_elem_of_In, filter_In, <- list_elem_of_In.
  rewrite andb_true_iff, negb_true_iff, bool_decide_eq_false, bool_decide_eq_true. tauto.
Qed.

Lemma mutate_room_ok_admits tt data day slot module room :
  slots tt day slot = CellList [] ->
  mutate_room_ok tt data day slot module room = Ok true ->
  room_admits data module room.
Proof.
  intros Hcell. unfold mutate_room_ok, room_admits.
  destruct (getitem (room_slots tt) (room_name room)) as [g|]; simpl; [|done].
  destruct (truthy (g day slot)); [done|].
  rewrite Hcell. simpl.
  destruct room as [name capacity [|p ps]|name]; simpl.
  - case_bool_decide as Hp; [|done]. intros [= Hcap].
    apply bool_decide_eq_true in Hcap. done.
  - destruct (negb _ && _) eqn:Hok; [|done]. intros [= Hcap].
    apply bool_decide_eq_true in Hcap.
    apply andb_true_iff in Hok as [Hne Hall].
    apply negb_true_iff, bool_decide_eq_false in Hne.
    split; [|done]. split; [done|].
    intros program Hprogram.
    rewrite forallb_forall in Hall. apply list_elem_of_In in Hprogram.
    specialize (Hall _ Hprogram). by apply bool_decide_eq_true in Hall.
  - case_bool_decide as Hp; [|done]. intros [= Hcap].
    apply bool_decide_eq_true in Hcap. done.
Qed.

(** The entry that [mutate] chooses for a cell that it has cleared. *)
Lemma mutate_select_Some tt data day slot r entry lid r' :
  slots tt day slot = CellList [] ->
  mutate_select tt data day slot r = (Ok (Some (entry, lid)), r') ->
  exists module lecturer room,
    (module ∈ modules data /\ m_code module ≠ "" /\ e_module entry = m_code module /\
     scheduled_sessions tt (m_code module) < required_sessions module /\
     forall s, iter_has_module (m_code module) (slots tt day s) = Ok false) /\
    (lecturer ∈ lecturers data /\ e_lecturer entry = l_name lecturer /\
     lid = l_id lecturer /\ m_code module ∈ lecturer_modules lecturer) /\
    (room ∈ rooms data /\ e_room entry = room_name room /\ room_admits data module room).
Proof.
  intros Hcell. unfold mutate_select.
  destruct (mutate_available_modules tt data) as [|m0 ms] eqn:Hav.
  { intros H. by apply retM_Ok in H as [? _]. }
  intros H. apply bindM_Ok in H as (module & r1 & Hmodule & H).
  apply random_choice_elem in Hmodule. rewrite <- Hav in Hmodule.
  apply elem_of_mutate_available_modules in Hmodule as (Hm & Hcode & Hsessions).
  apply bindM_Ok in H as (per_day_count & r2 & Hcount & H).
  apply liftR_Ok in Hcount as [Hcount _].
  case_bool_decide as Hday; [by apply retM_Ok in H as [? _]|].
  apply bindM_Ok in H as (es & r3 & Hes & H).
  apply liftR_Ok in Hes as [Hes _]. rewrite Hcell in Hes. injection Hes as <-.
  apply bindM_Ok in H as (same & r4 & Hsame & H).
  apply liftR_Ok in Hsame as [[= <-] _].
  apply bindM_Ok in H as (clash & r5 & Hclash & H).
  apply liftR_Ok in Hclash as [Hclash _]. rewrite group_clash_nil in Hclash.
  injection Hclash as <-.
  apply bindM_Ok in H as (ls & r6 & Hls & H).
  apply liftR_Ok in Hls as [Hls _].
  destruct ls as [|l0 ls]; [by apply retM_Ok in H as [? _]|].
  apply bindM_Ok in H as (lecturer & r7 & Hlecturer & H).
  apply random_choice_elem in Hlecturer.
  destruct (filterR_kept _ _ _ Hls _ Hlecturer) as [Hl Hlok].
  apply bindM_Ok in H as (names & r8 & Hnames & H).
  apply liftR_Ok in Hnames as [Hnames _].
  unfold mutate_available_rooms in Hnames.
  destruct (filterR (mutate_room_ok tt data day slot module) (rooms data)) as [rs|] eqn:Hrs;
    simpl in Hnames; [|done].
  injection Hnames as <-.
  destruct (map room_name rs) as [|n0 ns] eqn:Hmap; [by apply retM_Ok in H as [? _]|].
  apply bindM_Ok in H as (name & r9 & Hname & H).
  apply random_choice_elem in Hname. rewrite <- Hmap in Hname.
  apply list_elem_of_fmap in Hname as (room & -> & Hroom).
  destruct (filterR_kept _ _ _ Hrs _ Hroom) as [Hr Hrok].
  apply retM_Ok in H as [[= <- <-] _].
  exists module, lecturer, room. split; [|split].
  - split; [done|]. split; [done|]. split; [done|]. split; [done|].
    intros s. eapply (count_slots_zero _ _ _ Hcount); [lia|apply elem_of_TIME_SLOTS].
  - split; [done|]. split; [done|]. split; [done|].
    unfold mutate_lecturer_ok, lecturer_modules_strict in Hlok.
    unfold lecturer_modules.
    destruct (l_modules lecturer) as [mods|]; simpl in Hlok; [|done].
    simpl. case_bool_decide; [done|discriminate].
  - split; [done|]. split; [done|]. by eapply mutate_room_ok_admits.
Qed.

Lemma iter_has_module_false code c :
  iter_has_module code c = Ok false -> cell_has_module code c = false.
Proof. destruct c as [es|[e|]]; simpl; [by intros [= ->]|done|done]. Qed.

(** X16. The cell that [mutate] picks ends as a list that is empty
    or holds one new entry.  A new entry is for a module of the domain
    data that has a code and is not on that day in any other slot, with a
    lecturer whose 'modules' list the module, and in a room that admits
    the programs of the module and seats its students; with it the module
    has no more sessions than it requires. *)
Theorem mutate_added_entry (tt : Timetable) (data : Data) (r : Rng) :
  exists day slot,
    (mutate_pick r).1 = Ok (day, slot) /\
    let tt' := (mutate tt data r).1.2 in
    slots tt' day slot = CellList [] \/
    exists entry module lecturer room,
      slots tt' day slot = CellList [Some entry] /\
      (module ∈ modules data /\ m_code module ≠ "" /\ e_module entry = m_code module) /\
      (lecturer ∈ lecturers data /\ e_lecturer entry = l_name lecturer /\
       m_code module ∈ lecturer_modules lecturer) /\
      (room ∈ rooms data /\ e_room entry = room_name room /\ room_admits data module room) /\
      (forall s, s ≠ slot -> cell_has_module (m_code module) (slots tt day s) = false) /\
      scheduled_sessions tt' (m_code module) <= required_sessions module.
Proof.
  destruct (mutate_pick_Ok r) as (day & slot & r1 & Hpick).
  exists day, slot. rewrite Hpick. split; [done|]. cbv zeta.
  unfold mutate. rewrite Hpick.
  pose proof (mutate_clear_slots tt data day slot) as Hclear.
  destruct (mutate_clear tt data day slot) as [tt1 [e|]]; cbn [fst] in Hclear.
  { left. cbn [fst snd]. rewrite Hclear. apply grid_set_eq. }
  assert (slots tt1 day slot = CellList []) as Hcell by (rewrite Hclear; apply grid_set_eq).
  destruct (mutate_select tt1 data day slot r1) as [[[[entry lid]|]|e] r2] eqn:Hsel;
    cbn [fst snd]; [|by left|by left].
  right.
  destruct (mutate_select_Some _ _ _ _ _ _ _ _ Hcell Hsel)
    as (module & lecturer & room & (Hm & Hcode & Hentry & Hsessions & Hday)
        & (Hl & Hname & _ & Hqual) & Hroom).
  exists entry, module, lecturer, room.
  split; [cbn [mutate_add slots]; by rewrite Hcell, grid_set_eq|].
  split; [done|]. split; [done|]. split; [done|]. split.
  - intros s Hs. specialize (Hday s). rewrite Hclear in Hday.
    rewrite grid_set_ne in Hday by congruence.
    by apply iter_has_module_false.
  - unfold scheduled_sessions, module_cells in *.
    pose proof (filter_length_le_S
                  (fun ds : Day * Slot => cell_has_module (m_code module) (slots tt1 ds.1 ds.2))
                  (fun ds : Day * Slot =>
                     cell_has_module (m_code module)
                       (slots (mutate_add tt1 day slot entry lid) ds.1 ds.2))
                  (day, slot) all_cells all_cells_NoDup) as Hle.
    cbv beta in Hle. 
    assert (forall y : Day * Slot, y ≠ (day, slot) ->
              cell_has_module (m_code module)
                (slots (mutate_add tt1 day slot entry lid) y.1 y.2)
              = cell_has_module (m_code module) (slots tt1 y.1 y.2)) as Hext.
    { intros [d s] Hne. cbn [mutate_add slots fst snd]. by rewrite grid_set_ne. }
    specialize (Hle Hext). lia.
Qed.


(** * Where the child of [crossover] comes from *)

(** X14. Every day of the child comes from one parent: for
    each day there is a parent such that every cell of that day in the
    child holds entries of the same cell of that parent, in the parent's
    order.  [crossover] invents no entry and moves none to another cell. *)
Theorem crossover_child_from_parents
    (parent1 parent2 : Timetable) (data : Data) (r : Rng) (c : Building) :
  (crossover parent1 parent2 data r).1 = Ok c ->
  forall day,
    exists source, (source = parent1 \/ source = parent2) /\
      forall slot, (Some <$> b_slots c day slot)
                     `sublist_of` source_entries (slots source day slot).
Proof.
  intros Hc. destruct (crossover parent1 parent2 data r) as [res r'] eqn:Hcross.
  simpl in Hc. subst res. by eapply crossover_origin.
Qed.

Lemma crossover_child_from_parents_witness :
  exists c,
    (crossover timetable_A timetable_A data_A (rng_of (fun n => n))).1 = Ok c /\
    forall day,
      exists source, (source = timetable_A \/ source = timetable_A) /\
        forall slot, (Some <$> b_slots c day slot)
                       `sublist_of` source_entries (slots source day slot).
Proof.
  assert (exists c, (crossover timetable_A timetable_A data_A (rng_of (fun n => n))).1 = Ok c
                    /\ True) as (c & Hc & _).
  { apply (Result_check _ (fun _ => True)). vm_compute. reflexivity. }
  exists c. split; [exact Hc|].
  exact (crossover_child_from_parents timetable_A timetable_A data_A
           (rng_of (fun n => n)) c Hc).
Defined.

(** X15. [crossover] raises nothing when every entry of the
    two parents names a module of the domain data that has a code and a
    room of the domain data, as the entries of the initial population do;
    the two indices of the child then hold every lecturer and every
    room. *)
Theorem crossover_known_entries
    (parent1 parent2 : Building) (data : Data) (r : Rng) :
  entries_known data parent1 ->
  entries_known data parent2 ->
  exists c, (crossover (freeze parent1) (freeze parent2) data r).1 = Ok c /\
            indexed data (b_lecturer_slots c) (b_room_slots c).
Proof.
  intros H1 H2.
  destruct (crossover_Ok (freeze parent1) (freeze parent2) data r) as (c & r' & Hc & Hidx);
    [by apply freeze_copyable..|].
  exists c. by rewrite Hc.
Qed.

Lemma entries_known_new_timetable data : entries_known data (new_timetable data).
Proof. intros day slot e He. simpl in He. by apply elem_of_nil in He. Qed.

Lemma entries_known_add_entry data b day slot e lid :
  entries_known data b -> entry_known data e ->
  entries_known data (add_entry b day slot e lid).
Proof.
  intros Hb He d s e' He'. apply add_entry_slots in He' as [He'|(-> & _ & _)]; [|done].
  by eapply Hb.
Qed.

Lemma crossover_known_entries_witness :
  exists c,
    (crossover timetable_A timetable_A data_A (rng_of (fun n => n))).1 = Ok c /\
    indexed data_A (b_lecturer_slots c) (b_room_slots c).
Proof.
  assert (entry_known data_A entry_A) as He.
  { split.
    - exists module_A. split; [apply (bool_decide_unpack _); by vm_compute|].
      split; [reflexivity|discriminate].
    - exists (RoomDict "R1" 50 []). split; [apply (bool_decide_unpack _); by vm_compute|].
      reflexivity. }
  apply (crossover_known_entries
           (add_entry (add_entry (new_timetable data_A) Monday S0800 entry_A 0)
                      Tuesday S0800 entry_A 0)
           (add_entry (add_entry (new_timetable data_A) Monday S0800 entry_A 0)
                      Tuesday S0800 entry_A 0) data_A (rng_of (fun n => n)));
    repeat apply entries_known_add_entry; try exact He; apply entries_known_new_timetable.
Defined.


(** X20. What [generate_timetable] returns, if it
    returns a timetable, is an individual of the population that
    [initialize_population] returned, and it has the greatest score of
    that population.  The populations bred by selection, [crossover] and
    [mutate] are never scored and never returned, because every pass of
    the loop works on the initial population. *)
Theorem generate_timetable_best_of_initial (data : Data) (r : Rng) :
  match (generate_timetable data r).1 with
  | None => True
  | Some t =>
      exists population,
        (initialize_population data r).1 = Ok population /\
        t ∈ population /\
        match calculate_fitness t data with Ok f => Some f | Raise _ => None end
          = greatest (fitness_batch population data)
  end.
Proof. exact (generate_timetable_from_initial data r). Qed.


(** * When [mutate] raises *)

(** X17. [mutate] raises nothing on a timetable of lists whose two
    indices hold every lecturer and every room of the domain data, as a
    child of [crossover] is, when every lecturer dictionary has the key
    'modules'. *)
Theorem mutate_never_raises (b : Building) (data : Data) (r : Rng) :
  indexed data (b_lecturer_slots b) (b_room_slots b) ->
  (forall l, l ∈ lecturers data -> is_Some (l_modules l)) ->
  (mutate (freeze b) data r).1.1 = Ok ().
Proof.
  intros Hidx Hmods.
  destruct (mutate_Ok (freeze b) data r) as (mutated & r' & ->); [|done|done|done].
  intros d s. by eexists.
Qed.

Lemma mutate_never_raises_witness :
  (mutate (freeze (new_timetable data_A)) data_A (rng_of (fun n => n))).1.1 = Ok ().
Proof.
  apply (mutate_never_raises (new_timetable data_A) data_A (rng_of (fun n => n))).
  - apply new_timetable_indexed.
  - apply Forall_forall. unfold data_A, lecturers. repeat constructor; by eexists.
Defined.

Lemma count_slots_all_false (f : Slot -> Result bool) ss :
  (forall s, s ∈ ss -> f s = Ok false) -> count_slots f ss = Ok 0.
Proof.
  induction ss as [|s ss IH]; intros Hall; simpl; [done|].
  rewrite (Hall s (list_elem_of_here _ _)). simpl.
  rewrite IH; [done|]. intros s' Hs'. apply Hall. by apply list_elem_of_further.
Qed.

Lemma filterR_Raise {A} (f : A -> Result bool) (l : list A) e x :
  (forall y, y ∈ l -> (exists b, f y = Ok b) \/ f y = Raise e) ->
  x ∈ l -> f x = Raise e ->
  filterR f l = Raise e.
Proof.
  induction l as [|y l IH]; intros Hall Hx Hfx; [by apply elem_of_nil in Hx|].
  simpl. destruct (Hall y (list_elem_of_here _ _)) as [[b Hb]| ->]; [|done].
  rewrite Hb. simpl.
  apply elem_of_cons in Hx as [->|Hx]; [congruence|].
  rewrite IH; [done| |done|done].
  intros z Hz. apply Hall. by apply list_elem_of_further.
Qed.

(** X18. A lecturer dictionary without the key 'modules', which
    the initializer and the validator read as a lecturer who teaches
    nothing, makes [mutate] raise [KeyError] on the empty timetable as
    soon as some module with a code needs a session, whatever the random
    draws. *)
Theorem mutate_lecturer_without_modules
    (data : Data) (module : Module) (lecturer : Lecturer) (r : Rng) :
  module ∈ modules data ->
  m_code module ≠ "" ->
  1 <= required_sessions module ->
  lecturer ∈ lecturers data ->
  l_modules lecturer = None ->
  (mutate (freeze (new_timetable data)) data r).1.1 = Raise KeyError.
Proof.
  intros Hm Hcode Hreq Hl Hnone. unfold mutate.
  destruct (mutate_pick_Ok r) as (day & slot & r1 & ->).
  destruct (mutate_clear_Ok (freeze (new_timetable data)) data day slot
              (new_timetable_indexed data)) as (tt1 & -> & Hslots & [Hidxl Hidxr]).
  assert (forall d s, slots tt1 d s = CellList []) as Hempty.
  { intros d s. rewrite Hslots. unfold grid_set. by case_decide. }
  assert (forall code, scheduled_sessions tt1 code = 0) as Hzero.
  { intros code. unfold scheduled_sessions, module_cells.
    replace (List.filter _ all_cells) with (@nil (Day * Slot)); [done|].
    symmetry. induction all_cells as [|[d s] cells IH]; [done|].
    simpl. by rewrite Hempty. }
  assert (module ∈ mutate_available_modules tt1 data) as Hav.
  { unfold mutate_available_modules. apply list_elem_of_In, filter_In.
    split; [by apply list_elem_of_In|].
    rewrite andb_true_iff, negb_true_iff, bool_decide_eq_false, bool_decide_eq_true.
    rewrite Hzero. split; [done|lia]. }
  unfold mutate_select.
  destruct (mutate_available_modules tt1 data) as [|m0 ms]; [by apply elem_of_nil in Hav|].
  unfold bindM at 1.
  destruct (random_choice_Ok (m0 :: ms) r1) as (chosen & r2 & ->); [done|].
  unfold bindM at 1. unfold liftR at 1.
  rewrite (count_slots_all_false _ TIME_SLOTS)
    by (intros s _; by rewrite Hempty).
  rewrite bool_decide_eq_false_2 by lia.
  rewrite Hempty. unfold bindM at 1. unfold liftR at 1. cbn [iter_entries].
  unfold bindM at 1. unfold liftR at 1. cbn [any_module].
  unfold bindM at 1. unfold liftR at 1. rewrite group_clash_nil.
  unfold bindM at 1. unfold liftR at 1.
  rewrite (filterR_Raise (mutate_lecturer_ok tt1 day slot chosen) (lecturers data)
             KeyError lecturer); [done| |done|].
  - intros l Hin. unfold mutate_lecturer_ok, lecturer_modules_strict.
    destruct (l_modules l) as [mods|]; simpl; [|by right]. left.
    case_bool_decide; [|by eexists].
    destruct (Hidxl l Hin) as [g Hg]. rewrite (getitem_Some _ _ _ Hg). simpl.
    destruct (truthy (g day slot)); by eexists.
  - unfold mutate_lecturer_ok, lecturer_modules_strict. by rewrite Hnone.
Qed.

Lemma mutate_lecturer_without_modules_witness :
  (mutate (freeze (new_timetable data_nomodules)) data_nomodules (rng_of (fun n => n))).1.1
  = Raise KeyError.
Proof.
  apply (mutate_lecturer_without_modules data_nomodules module_A
           {| l_id := 1; l_name := "Bob"; l_modules := None;
              l_max_daily := 4; l_max_weekly := 10 |}).
  - apply (bool_decide_unpack _). by vm_compute.
  - discriminate.
  - by vm_compute.
  - apply (bool_decide_unpack _). by vm_compute.
  - reflexivity.
Defined.


(** ** [crossover] and the student groups *)









(** * The child of two accepted parents *)

(** The cells of an accepted timetable hold no two entries whose modules
    share a target group. *)
Lemma accepted_group_free tt data :
  validate_hard_constraints tt data = true -> timetable_group_free data tt.
Proof.
  intros Hv day slot.
  destruct (slots tt day slot) as [es|[e|]] eqn:Hcell; simpl.
  - destruct (validate_true_checks _ _ Hv) as (H1 & _).
    pose proof (on_list_cells_true _ _ H1 _ _ _ Hcell) as G. simpl in G.
    destruct (check_group_entries_disjoint _ _ _ G) as (entries & -> & _ & Hnd & _).
    assert (omap id (Some <$> entries) = entries) as ->.
    { clear. induction entries as [|e entries IH]; [done|]. csimpl. by rewrite IH. }
    by apply NoDup_concat_group_free.
  - constructor; [constructor|constructor].
  - constructor.
Qed.

(** X25. The child that [crossover] returns for two parents that
    [validate_hard_constraints] accepts, on domain data whose module
    codes are pairwise distinct and whose hours are not negative: every
    module is in at most [hours // 2] cells of the child, and in every
    cell of the child no two entries share a lecturer, no two share a
    room, and no two belong to modules that share a target group. *)
Theorem crossover_child_of_accepted
    (parent1 parent2 : Timetable) (data : Data) (r : Rng) (c : Building) :
  NoDup (m_code <$> modules data) ->
  (forall module, module ∈ modules data -> 0 <= module_hours module) ->
  validate_hard_constraints parent1 data = true ->
  validate_hard_constraints parent2 data = true ->
  (crossover parent1 parent2 data r).1 = Ok c ->
  (forall module, module ∈ modules data ->
     Z.of_nat (length (module_cells (freeze c) (m_code module))) <= module_hours module / 2) /\
  (forall day slot,
      NoDup (e_lecturer <$> b_slots c day slot) /\
      NoDup (e_room <$> b_slots c day slot) /\
      group_free data (b_slots c day slot)).
Proof.
  intros Hcodes Hhours Hv1 Hv2 Hc.
  destruct (crossover_child_constraints parent1 parent2 data r c Hc)
    as (_ & Hsessions & Hdistinct & Hgroups).
  split; [by apply Hsessions|].
  intros day slot. destruct (Hdistinct day slot) as [Hl Hr].
  split; [done|]. split; [done|].
  apply Hgroups; by apply accepted_group_free.
Qed.

Lemma crossover_child_of_accepted_witness :
  exists c,
    (crossover parent_pair parent_pair data_pair (rng_of (fun n => n))).1 = Ok c /\
    b_slots c Monday S0800 = [entry_clash1; entry_clash2] /\
    (forall module, module ∈ modules data_pair ->
       Z.of_nat (length (module_cells (freeze c) (m_code module)))
       <= module_hours module / 2) /\
    (forall day slot,
        NoDup (e_lecturer <$> b_slots c day slot) /\
        NoDup (e_room <$> b_slots c day slot) /\
        group_free data_pair (b_slots c day slot)).
Proof.
  assert (exists c,
             (crossover parent_pair parent_pair data_pair (rng_of (fun n => n))).1 = Ok c
             /\ b_slots c Monday S0800 = [entry_clash1; entry_clash2]) as (c & Hc & Hcell).
  { apply (Result_check _ (fun c => b_slots c Monday S0800 = _)). by vm_compute. }
  exists c. split; [exact Hc|]. split; [exact Hcell|].
  apply (crossover_child_of_accepted parent_pair parent_pair data_pair
           (rng_of (fun n => n)) c).
  - apply (bool_decide_unpack _). by vm_compute.
  - apply Forall_forall. apply (bool_decide_unpack _). by vm_compute.
  - by vm_compute.
  - by vm_compute.
  - exact Hc.
Defined.
